(** * LSM303DLx accelerometer driver (drivers/misc/inv_mpu/accel/lsm303dlx_a.c)

    A shallow embedding of the configuration setters, of the suspend/resume
    register programming sequences and of the sample read, followed by the
    properties of the driver's specification.

    Conventions of the embedding.
    - C integers are [Z] with the conversions of the C abstract machine
      written out ([to_uint], [to_uchar], [to_long], ...).  The width of
      [long] is not fixed by the source: the platform names the data model
      ([ILP32] or [LP64]) and the usual arithmetic conversions of an
      expression mixing [long] and [unsigned int] are spelled out for both.
      Signed overflow wraps (the kernel is built with -fno-strict-overflow).
    - A [struct lsm303dlx_a_config *] argument that the C code mutates is a
      value passed in and returned.
    - The serial bus is an external collaborator: the two transport entry
      points are fields of the platform; they see the whole history of bus
      events, and every call is appended to that history.
    - A division by zero is a fault of the computation ([Fault]). *)

From Stdlib Require Import ZArith List Lia Bool Permutation.
Import ListNotations.
Open Scope Z_scope.

(** ** C integer conversions *)

Inductive data_model : Type := ILP32 | LP64.

Definition long_bits (m : data_model) : Z :=
  match m with ILP32 => 32 | LP64 => 64 end.

(** Conversion to an unsigned type of [bits] bits. *)
Definition wrap_unsigned (bits x : Z) : Z := x mod 2 ^ bits.

(** Conversion to a signed (two's complement) type of [bits] bits. *)
Definition wrap_signed (bits x : Z) : Z :=
  let r := x mod 2 ^ bits in
  if r <? 2 ^ (bits - 1) then r else r - 2 ^ bits.

Definition to_uchar (x : Z) : Z := wrap_unsigned 8 x.
Definition to_uint (x : Z) : Z := wrap_unsigned 32 x.
Definition to_long (m : data_model) (x : Z) : Z := wrap_signed (long_bits m) x.
Definition to_ulong (m : data_model) (x : Z) : Z := wrap_unsigned (long_bits m) x.

(** The values of type [long]. *)
Definition in_long (m : data_model) (x : Z) : Prop :=
  - 2 ^ (long_bits m - 1) <= x < 2 ^ (long_bits m - 1).

(** [a * b] with both operands of type [long]. *)
Definition long_mul (m : data_model) (a b : Z) : Z := to_long m (a * b).

(** [a - b] with both operands of type [long]. *)
Definition long_sub (m : data_model) (a b : Z) : Z := to_long m (a - b).

(** [a * b] with [a] a [long] and [b] an [unsigned int].  Where [long] has
    32 bits it cannot hold every [unsigned int], so both operands become
    [unsigned long]; where it has 64 bits [b] becomes a [long]. *)
Definition long_uint_mul (m : data_model) (a b : Z) : Z :=
  match m with
  | ILP32 => to_ulong m (to_ulong m a * b)
  | LP64 => to_long m (a * b)
  end.

(** [a / b] with [a] the result of a [long]-by-[unsigned int] product (an
    [unsigned long] under [ILP32], a [long] under [LP64]) and [b] a positive
    [long] constant: the division truncates towards zero. *)
Definition mixed_div_long (m : data_model) (a b : Z) : Z :=
  match m with
  | ILP32 => Z.quot a (to_ulong m b)
  | LP64 => Z.quot a b
  end.

(** [a / b] with [a] a [long] and [b] an [unsigned int]: an unsigned
    division under [ILP32], a signed one under [LP64]; no result when the
    divisor is zero. *)
Definition long_uint_div (m : data_model) (a b : Z) : option Z :=
  if b =? 0 then None
  else match m with
       | ILP32 => Some (Z.quot (to_ulong m a) b)
       | LP64 => Some (Z.quot a b)
       end.

(** ** Register map and constants of the driver *)

Definition LSM303DLx_CTRL_REG1 : Z := 0x20.
Definition LSM303DLx_CTRL_REG2 : Z := 0x21.
Definition LSM303DLx_CTRL_REG3 : Z := 0x22.
Definition LSM303DLx_CTRL_REG4 : Z := 0x23.
Definition LSM303DLx_HP_FILTER_RESET : Z := 0x25.
Definition LSM303DLx_STATUS_REG : Z := 0x27.
Definition LSM303DLx_INT1_CFG : Z := 0x30.
Definition LSM303DLx_INT1_THS : Z := 0x32.
Definition LSM303DLx_INT1_DURATION : Z := 0x33.
Definition LSM303DLx_PWR_MODE_NORMAL : Z := 0x20.
Definition LSM303DLx_MAX_DUR : Z := 0x7F.

(** Modelled from the spec: [INV_SUCCESS] is declared in a header that is
    not part of the sources; the spec and every [if (result)] test of the
    driver take the zero status for success. *)
Definition INV_SUCCESS : Z := 0.

(** ** Data model *)

Record lsm303dlx_a_config : Type := mk_config {
  odr : Z;          (* unsigned int *)
  fsr : Z;          (* unsigned int, full scale range mg *)
  ths : Z;          (* unsigned int, motion no-motion threshold mg *)
  dur : Z;          (* unsigned int, motion no-motion duration ms *)
  reg_ths : Z;      (* unsigned char *)
  reg_dur : Z;      (* unsigned char *)
  ctrl_reg1 : Z;    (* unsigned char *)
  irq_type : Z;     (* unsigned char *)
  mot_int1_cfg : Z  (* unsigned char *)
}.

Record lsm303dlx_a_private_data : Type := mk_private_data {
  suspend : lsm303dlx_a_config;
  resume : lsm303dlx_a_config
}.

(** Field assignments [config->f = v]; the value is converted to the type
    of the field. *)
Definition set_odr_field (c : lsm303dlx_a_config) (v : Z) :=
  mk_config (to_uint v) (fsr c) (ths c) (dur c) (reg_ths c) (reg_dur c)
            (ctrl_reg1 c) (irq_type c) (mot_int1_cfg c).
Definition set_fsr_field (c : lsm303dlx_a_config) (v : Z) :=
  mk_config (odr c) (to_uint v) (ths c) (dur c) (reg_ths c) (reg_dur c)
            (ctrl_reg1 c) (irq_type c) (mot_int1_cfg c).
Definition set_ths_field (c : lsm303dlx_a_config) (v : Z) :=
  mk_config (odr c) (fsr c) (to_uint v) (dur c) (reg_ths c) (reg_dur c)
            (ctrl_reg1 c) (irq_type c) (mot_int1_cfg c).
Definition set_dur_field (c : lsm303dlx_a_config) (v : Z) :=
  mk_config (odr c) (fsr c) (ths c) (to_uint v) (reg_ths c) (reg_dur c)
            (ctrl_reg1 c) (irq_type c) (mot_int1_cfg c).
Definition set_reg_ths_field (c : lsm303dlx_a_config) (v : Z) :=
  mk_config (odr c) (fsr c) (ths c) (dur c) (to_uchar v) (reg_dur c)
            (ctrl_reg1 c) (irq_type c) (mot_int1_cfg c).
Definition set_reg_dur_field (c : lsm303dlx_a_config) (v : Z) :=
  mk_config (odr c) (fsr c) (ths c) (dur c) (reg_ths c) (to_uchar v)
            (ctrl_reg1 c) (irq_type c) (mot_int1_cfg c).
Definition set_ctrl_reg1_field (c : lsm303dlx_a_config) (v : Z) :=
  mk_config (odr c) (fsr c) (ths c) (dur c) (reg_ths c) (reg_dur c)
            (to_uchar v) (irq_type c) (mot_int1_cfg c).
Definition set_irq_type_field (c : lsm303dlx_a_config) (v : Z) :=
  mk_config (odr c) (fsr c) (ths c) (dur c) (reg_ths c) (reg_dur c)
            (ctrl_reg1 c) (to_uchar v) (mot_int1_cfg c).
Definition set_mot_int1_cfg_field (c : lsm303dlx_a_config) (v : Z) :=
  mk_config (odr c) (fsr c) (ths c) (dur c) (reg_ths c) (reg_dur c)
            (ctrl_reg1 c) (irq_type c) (to_uchar v).

(** The memory returned by [kzalloc]. *)
Definition zero_config : lsm303dlx_a_config := mk_config 0 0 0 0 0 0 0 0 0.

(** The part of [struct ext_slave_descr] that the driver reads. *)
Record ext_slave_descr : Type := mk_descr {
  read_reg : Z;
  read_len : Z
}.

Definition lsm303dlx_a_descr : ext_slave_descr :=
  mk_descr (Z.lor 0x28 0x80) 6.

(** ** Bus events and the monad of driver computations *)

Inductive event : Type :=
| EvWrite (address reg data : Z)    (* inv_serial_single_write *)
| EvRead (address reg len : Z)      (* inv_serial_read *)
| EvSleep (ms : Z).                 (* msleep *)

Definition history : Type := list event.

Inductive outcome (A : Type) : Type :=
| Done (a : A) (h : history)
| Fault.
Arguments Done {A} a h.
Arguments Fault {A}.

Definition M (A : Type) : Type := history -> outcome A.

Definition ret {A} (a : A) : M A := fun h => Done a h.

Definition bind {A B} (x : M A) (f : A -> M B) : M B :=
  fun h => match x h with
           | Done a h' => f a h'
           | Fault => Fault
           end.

Definition fault {A} : M A := fun _ => Fault.

Declare Scope drv_scope.
Delimit Scope drv_scope with drv.
Notation "x <- e ;; k" := (bind e (fun x => k))
  (at level 61, e at next level, right associativity) : drv_scope.
Notation "' p <- e ;; k" := (bind e (fun p => k))
  (at level 61, p pattern, e at next level, right associativity) : drv_scope.
Notation "e ;;; k" := (bind e (fun _ => k))
  (at level 61, right associativity) : drv_scope.
Open Scope drv_scope.

(** What the driver takes from its environment: the data model of the
    target, [pdata->address], the bus transport and the constants of headers
    that are not part of the sources.  Each transport entry point sees the
    events that came before the call.  A read also receives the buffer it
    fills and returns the new contents of the buffer with the status. *)
Record platform : Type := mk_platform {
  model : data_model;
  address : Z;
  inv_serial_single_write : history -> Z -> Z -> Z -> Z;
  inv_serial_read : history -> Z -> Z -> Z -> list Z -> Z * list Z;
  MPU_SLAVE_IRQ_TYPE_NONE : Z;
  MPU_SLAVE_IRQ_TYPE_MOTION : Z;
  MPU_SLAVE_IRQ_TYPE_DATA_READY : Z;
  INV_ERROR_ACCEL_DATA_NOT_READY : Z;
  INV_ERROR_MEMORY_EXAUSTED : Z
}.

Section Driver.

Variable P : platform.

Definition single_write (reg data : Z) : M Z :=
  fun h => Done (inv_serial_single_write P h (address P) reg data)
                (h ++ [EvWrite (address P) reg data]).

Definition serial_read (reg len : Z) (data : list Z) : M (Z * list Z) :=
  fun h => Done (inv_serial_read P h (address P) reg len data)
                (h ++ [EvRead (address P) reg len]).

Definition msleep (ms : Z) : M unit :=
  fun h => Done tt (h ++ [EvSleep ms]).

(** ** The setters *)

Definition lsm303dlx_a_set_ths (config : lsm303dlx_a_config) (apply : bool)
    (ths : Z) : M (Z * lsm303dlx_a_config) :=
  let result := INV_SUCCESS in
  let ths := if to_uint ths >=? fsr config
             then long_sub (model P) (to_long (model P) (fsr config)) 1
             else ths in
  let ths := if ths <? 0 then 0 else ths in
  let config := set_ths_field config ths in
  match long_uint_div (model P) (long_mul (model P) ths 128) (fsr config) with
  | None => fault
  | Some q =>
      let config := set_reg_ths_field config (to_long (model P) q) in
      if apply then
        result <- single_write LSM303DLx_INT1_THS (reg_ths config) ;;
        ret (result, config)
      else ret (result, config)
  end.

Definition lsm303dlx_a_set_dur (config : lsm303dlx_a_config) (apply : bool)
    (dur : Z) : M (Z * lsm303dlx_a_config) :=
  let result := INV_SUCCESS in
  let reg_dur :=
    to_long (model P)
      (mixed_div_long (model P)
         (long_uint_mul (model P) dur (odr config)) 1000000) in
  let config := set_dur_field config dur in
  let reg_dur := if reg_dur >? LSM303DLx_MAX_DUR
                 then LSM303DLx_MAX_DUR else reg_dur in
  let config := set_reg_dur_field config reg_dur in
  if apply then
    result <- single_write LSM303DLx_INT1_DURATION (to_uchar reg_dur) ;;
    ret (result, config)
  else ret (result, config).

Definition lsm303dlx_a_set_irq (config : lsm303dlx_a_config) (apply : bool)
    (irq_type : Z) : M (Z * lsm303dlx_a_config) :=
  let result := INV_SUCCESS in
  let config := set_irq_type_field config irq_type in
  let '(reg1, reg2) :=
    if irq_type =? MPU_SLAVE_IRQ_TYPE_DATA_READY P then (0x02, 0x00)
    else if irq_type =? MPU_SLAVE_IRQ_TYPE_MOTION P
         then (0x00, mot_int1_cfg config)
    else (0x00, 0x00) in
  if apply then
    _ <- single_write LSM303DLx_CTRL_REG3 reg1 ;;
    result <- single_write LSM303DLx_INT1_CFG reg2 ;;
    ret (result, config)
  else ret (result, config).

Definition lsm303dlx_a_set_odr (config : lsm303dlx_a_config) (apply : bool)
    (odr : Z) : M (Z * lsm303dlx_a_config) :=
  let result := INV_SUCCESS in
  let '(config, bits) :=
    (* normal power modes *)
    if odr >? 400000 then
      (set_odr_field config 1000000, Z.lor LSM303DLx_PWR_MODE_NORMAL 0x18)
    else if odr >? 100000 then
      (set_odr_field config 400000, Z.lor LSM303DLx_PWR_MODE_NORMAL 0x10)
    else if odr >? 50000 then
      (set_odr_field config 100000, Z.lor LSM303DLx_PWR_MODE_NORMAL 0x08)
    else if odr >? 10000 then
      (set_odr_field config 50000, Z.lor LSM303DLx_PWR_MODE_NORMAL 0x00)
    (* low power modes *)
    else if odr >? 5000 then (set_odr_field config 10000, 0xC0)
    else if odr >? 2000 then (set_odr_field config 5000, 0xA0)
    else if odr >? 1000 then (set_odr_field config 2000, 0x80)
    else if odr >? 500 then (set_odr_field config 1000, 0x60)
    else if odr >? 0 then (set_odr_field config 500, 0x40)
    else (set_odr_field config 0, 0) in
  let config :=
    set_ctrl_reg1_field config (Z.lor bits (Z.land (ctrl_reg1 config) 0x7)) in
  '(_, config) <- lsm303dlx_a_set_dur config apply
                    (to_long (model P) (dur config)) ;;
  if apply then
    result <- single_write LSM303DLx_CTRL_REG1 (ctrl_reg1 config) ;;
    ret (result, config)
  else ret (result, config).

Definition lsm303dlx_a_set_fsr (config : lsm303dlx_a_config) (apply : bool)
    (fsr : Z) : M (Z * lsm303dlx_a_config) :=
  let reg1 := 0x40 in
  let result := INV_SUCCESS in
  let '(config, reg1) :=
    if fsr <=? 2048 then (set_fsr_field config 2048, reg1)
    else if fsr <=? 4096 then (set_fsr_field config 4096, Z.lor reg1 0x30)
    else (set_fsr_field config 8192, Z.lor reg1 0x10) in
  '(_, config) <- lsm303dlx_a_set_ths config apply
                    (to_long (model P) (ths config)) ;;
  if apply then
    result <- single_write LSM303DLx_CTRL_REG4 reg1 ;;
    ret (result, config)
  else ret (result, config).

(** ** Suspend, resume and read *)

Definition lsm303dlx_a_suspend (private_data : lsm303dlx_a_private_data)
    : M Z :=
  _ <- single_write LSM303DLx_CTRL_REG1 (ctrl_reg1 (suspend private_data)) ;;
  _ <- single_write LSM303DLx_CTRL_REG2 0x0f ;;
  let reg1 := 0x40 in
  let reg1 :=
    if fsr (suspend private_data) =? 8192 then Z.lor reg1 0x30
    else if fsr (suspend private_data) =? 4096 then Z.lor reg1 0x10
    else reg1 (* bits [4..5] are already zero *) in
  _ <- single_write LSM303DLx_CTRL_REG4 reg1 ;;
  _ <- single_write LSM303DLx_INT1_THS (reg_ths (suspend private_data)) ;;
  _ <- single_write LSM303DLx_INT1_DURATION (reg_dur (suspend private_data)) ;;
  let '(reg1, reg2) :=
    if irq_type (suspend private_data) =? MPU_SLAVE_IRQ_TYPE_DATA_READY P
    then (0x02, 0x00)
    else if irq_type (suspend private_data) =? MPU_SLAVE_IRQ_TYPE_MOTION P
         then (0x00, mot_int1_cfg (suspend private_data))
    else (0x00, 0x00) in
  _ <- single_write LSM303DLx_CTRL_REG3 reg1 ;;
  _ <- single_write LSM303DLx_INT1_CFG reg2 ;;
  '(result, _) <- serial_read LSM303DLx_HP_FILTER_RESET 1 [reg1] ;;
  ret result.

Definition lsm303dlx_a_resume (private_data : lsm303dlx_a_private_data)
    : M Z :=
  result <- single_write LSM303DLx_CTRL_REG1 (ctrl_reg1 (resume private_data)) ;;
  if negb (result =? 0) then ret result else
  msleep 6 ;;;
  (* Full Scale *)
  let reg1 := 0x40 in
  let reg1 :=
    if fsr (resume private_data) =? 8192 then Z.lor reg1 0x30
    else if fsr (resume private_data) =? 4096 then Z.lor reg1 0x10
    else reg1 in
  result <- single_write LSM303DLx_CTRL_REG4 reg1 ;;
  if negb (result =? 0) then ret result else
  (* Configure high pass filter *)
  result <- single_write LSM303DLx_CTRL_REG2 0x0F ;;
  if negb (result =? 0) then ret result else
  let '(reg1, reg2) :=
    if irq_type (resume private_data) =? MPU_SLAVE_IRQ_TYPE_DATA_READY P
    then (0x02, 0x00)
    else if irq_type (resume private_data) =? MPU_SLAVE_IRQ_TYPE_MOTION P
         then (0x00, mot_int1_cfg (resume private_data))
    else (0x00, 0x00) in
  result <- single_write LSM303DLx_CTRL_REG3 reg1 ;;
  if negb (result =? 0) then ret result else
  result <- single_write LSM303DLx_INT1_THS (reg_ths (resume private_data)) ;;
  if negb (result =? 0) then ret result else
  result <- single_write LSM303DLx_INT1_DURATION
              (reg_dur (resume private_data)) ;;
  if negb (result =? 0) then ret result else
  result <- single_write LSM303DLx_INT1_CFG reg2 ;;
  if negb (result =? 0) then ret result else
  '(result, _) <- serial_read LSM303DLx_HP_FILTER_RESET 1 [reg1] ;;
  if negb (result =? 0) then ret result else
  ret result.

(** [data] is the caller's buffer; the function returns the status and the
    buffer as the reads left it. *)
Definition lsm303dlx_a_read (slave : ext_slave_descr) (data : list Z)
    : M (Z * list Z) :=
  '(_, data) <- serial_read LSM303DLx_STATUS_REG 1 data ;;
  if negb (Z.land (nth 0 data 0) 0x0F =? 0) then
    '(result, data) <- serial_read (read_reg slave) (read_len slave) data ;;
    ret (result, data)
  else ret (INV_ERROR_ACCEL_DATA_NOT_READY P, data).

(** ** Initialization

    [kzalloc_ok] tells whether the allocation of the private data succeeds;
    [range] is the value of [range_fixedpoint_to_long_mg(slave->range)], a
    macro of a header that is not part of the sources. *)
Definition lsm303dlx_a_init (kzalloc_ok : bool) (range : Z)
    : M (Z * option lsm303dlx_a_private_data) :=
  if negb kzalloc_ok then ret (INV_ERROR_MEMORY_EXAUSTED P, None) else
  let resume_c := zero_config in
  let suspend_c := zero_config in
  let resume_c := set_ctrl_reg1_field resume_c 0x37 in
  let suspend_c := set_ctrl_reg1_field suspend_c 0x47 in
  let resume_c := set_mot_int1_cfg_field resume_c 0x95 in
  let suspend_c := set_mot_int1_cfg_field suspend_c 0x2a in
  '(_, suspend_c) <- lsm303dlx_a_set_odr suspend_c false 0 ;;
  '(_, resume_c) <- lsm303dlx_a_set_odr resume_c false 200000 ;;
  '(_, suspend_c) <- lsm303dlx_a_set_fsr suspend_c false range ;;
  '(_, resume_c) <- lsm303dlx_a_set_fsr resume_c false range ;;
  '(_, suspend_c) <- lsm303dlx_a_set_ths suspend_c false 80 ;;
  '(_, resume_c) <- lsm303dlx_a_set_ths resume_c false 40 ;;
  '(_, suspend_c) <- lsm303dlx_a_set_dur suspend_c false 1000 ;;
  '(_, resume_c) <- lsm303dlx_a_set_dur resume_c false 2540 ;;
  '(_, suspend_c) <- lsm303dlx_a_set_irq suspend_c false
                       (MPU_SLAVE_IRQ_TYPE_NONE P) ;;
  '(_, resume_c) <- lsm303dlx_a_set_irq resume_c false
                      (MPU_SLAVE_IRQ_TYPE_NONE P) ;;
  ret (INV_SUCCESS, Some (mk_private_data suspend_c resume_c)).

(** The five setters behind [lsm303dlx_a_config], which hands the request
    to one of them on the suspend or on the resume configuration. *)
Inductive setter : Type := SET_ODR | SET_FSR | SET_THS | SET_DUR | SET_IRQ.

Definition run_setter (s : setter)
    : lsm303dlx_a_config -> bool -> Z -> M (Z * lsm303dlx_a_config) :=
  match s with
  | SET_ODR => lsm303dlx_a_set_odr
  | SET_FSR => lsm303dlx_a_set_fsr
  | SET_THS => lsm303dlx_a_set_ths
  | SET_DUR => lsm303dlx_a_set_dur
  | SET_IRQ => lsm303dlx_a_set_irq
  end.

End Driver.

(** ** Observing the outcome of a driver call *)

Definition final_config {A} (o : outcome (A * lsm303dlx_a_config))
    : option lsm303dlx_a_config :=
  match o with Done (_, c) _ => Some c | Fault => None end.

Definition final_history {A} (o : outcome A) : option history :=
  match o with Done _ h => Some h | Fault => None end.

(** ** Vocabulary of the specification *)

(** The rates that the device supports, in mHz. *)
Definition supported_rates : list Z :=
  [0; 500; 1000; 2000; 5000; 10000; 50000; 100000; 400000; 1000000].

(** The fields of a configuration hold values of their C types. *)
Definition wf_config (c : lsm303dlx_a_config) : Prop :=
  (0 <= odr c < 2 ^ 32) /\ (0 <= fsr c < 2 ^ 32) /\
  (0 <= ths c < 2 ^ 32) /\ (0 <= dur c < 2 ^ 32) /\
  (0 <= reg_ths c < 256) /\ (0 <= reg_dur c < 256) /\
  (0 <= ctrl_reg1 c < 256) /\ (0 <= irq_type c < 256) /\
  (0 <= mot_int1_cfg c < 256).

(** The invariant of the specification: the register encodings follow from
    the physical fields. *)
Definition config_consistent (c : lsm303dlx_a_config) : Prop :=
  In (fsr c) [2048; 4096; 8192] /\
  ths c < fsr c /\
  reg_ths c = ths c * 128 / fsr c /\
  reg_dur c = Z.min (dur c * odr c / 1000000) LSM303DLx_MAX_DUR.

(** The rate that [lsm303dlx_a_set_odr] selects for a request: the tier
    table of the function, without the register bits. *)
Definition selected_odr (request : Z) : Z :=
  if request >? 400000 then 1000000
  else if request >? 100000 then 400000
  else if request >? 50000 then 100000
  else if request >? 10000 then 50000
  else if request >? 5000 then 10000
  else if request >? 2000 then 5000
  else if request >? 1000 then 2000
  else if request >? 500 then 1000
  else if request >? 0 then 500
  else 0.

(** The rate bits that [lsm303dlx_a_set_odr] selects for a request: the
    tier table of the function, without the rates. *)
Definition selected_rate_bits (request : Z) : Z :=
  if request >? 400000 then Z.lor LSM303DLx_PWR_MODE_NORMAL 0x18
  else if request >? 100000 then Z.lor LSM303DLx_PWR_MODE_NORMAL 0x10
  else if request >? 50000 then Z.lor LSM303DLx_PWR_MODE_NORMAL 0x08
  else if request >? 10000 then Z.lor LSM303DLx_PWR_MODE_NORMAL 0x00
  else if request >? 5000 then 0xC0
  else if request >? 2000 then 0xA0
  else if request >? 1000 then 0x80
  else if request >? 500 then 0x60
  else if request >? 0 then 0x40
  else 0.

(** The values of the rate bits; none touches the low three bits of
    CTRL_REG1. *)
Definition rate_bits_ok (bits : Z) : Prop :=
  In bits [0x38; 0x30; 0x28; 0x20; 0xC0; 0xA0; 0x80; 0x60; 0x40; 0].

(** The range that [lsm303dlx_a_set_fsr] selects for a request, and the
    byte of CTRL_REG4 that it writes for it. *)
Definition selected_fsr (request : Z) : Z :=
  if request <=? 2048 then 2048
  else if request <=? 4096 then 4096
  else 8192.

Definition set_fsr_byte (request : Z) : Z :=
  if request <=? 2048 then 0x40
  else if request <=? 4096 then Z.lor 0x40 0x30
  else Z.lor 0x40 0x10.

(** The value that [lsm303dlx_a_set_ths] keeps of a request: the two tests
    at the head of the function. *)
Definition ths_clamped (m : data_model) (f t : Z) : Z :=
  let t := if to_uint t >=? f then long_sub m (to_long m f) 1 else t in
  if t <? 0 then 0 else t.

(** The value that [lsm303dlx_a_set_dur] computes for the duration register,
    before its conversion to [unsigned char]. *)
Definition dur_register (m : data_model) (o d : Z) : Z :=
  let q := to_long m (mixed_div_long m (long_uint_mul m d o) 1000000) in
  if q >? LSM303DLx_MAX_DUR then LSM303DLx_MAX_DUR else q.

(** The requests for which a setter keeps the configuration consistent:
    a duration is not negative and its product with the rate of the
    configuration fits 32 bits, also when the rate changes; a threshold is
    a [long] below [2 ^ 56] (every 32-bit [long] is). *)
Definition request_ok (P : platform) (s : setter) (c : lsm303dlx_a_config)
    (v : Z) : Prop :=
  match s with
  | SET_ODR => dur c * selected_odr v < 2 ^ 32
  | SET_DUR => 0 <= v /\ v * odr c < 2 ^ 32
  | SET_THS => in_long (model P) v /\ v < 2 ^ 56
  | SET_FSR => True
  | SET_IRQ => True
  end.

(** The byte of CTRL_REG4 that suspend and resume derive from [fsr]. *)
Definition full_scale_byte (c : lsm303dlx_a_config) : Z :=
  if fsr c =? 8192 then Z.lor 0x40 0x30
  else if fsr c =? 4096 then Z.lor 0x40 0x10
  else 0x40.

(** The bytes of CTRL_REG3 and INT1_CFG that suspend and resume derive
    from [irq_type]. *)
Definition interrupt_bytes (P : platform) (c : lsm303dlx_a_config) : Z * Z :=
  if irq_type c =? MPU_SLAVE_IRQ_TYPE_DATA_READY P then (0x02, 0x00)
  else if irq_type c =? MPU_SLAVE_IRQ_TYPE_MOTION P
       then (0x00, mot_int1_cfg c)
  else (0x00, 0x00).

(** The seven register writes of the suspend sequence, in program order. *)
Definition suspend_writes (P : platform) (pd : lsm303dlx_a_private_data)
    : list event :=
  let c := suspend pd in
  [ EvWrite (address P) LSM303DLx_CTRL_REG1 (ctrl_reg1 c);
    EvWrite (address P) LSM303DLx_CTRL_REG2 0x0f;
    EvWrite (address P) LSM303DLx_CTRL_REG4 (full_scale_byte c);
    EvWrite (address P) LSM303DLx_INT1_THS (reg_ths c);
    EvWrite (address P) LSM303DLx_INT1_DURATION (reg_dur c);
    EvWrite (address P) LSM303DLx_CTRL_REG3 (fst (interrupt_bytes P c));
    EvWrite (address P) LSM303DLx_INT1_CFG (snd (interrupt_bytes P c)) ].

(** The events of a resume sequence that meets no error, in program
    order. *)
Definition resume_events (P : platform) (pd : lsm303dlx_a_private_data)
    : list event :=
  let c := resume pd in
  [ EvWrite (address P) LSM303DLx_CTRL_REG1 (ctrl_reg1 c);
    EvSleep 6;
    EvWrite (address P) LSM303DLx_CTRL_REG4 (full_scale_byte c);
    EvWrite (address P) LSM303DLx_CTRL_REG2 0x0F;
    EvWrite (address P) LSM303DLx_CTRL_REG3 (fst (interrupt_bytes P c));
    EvWrite (address P) LSM303DLx_INT1_THS (reg_ths c);
    EvWrite (address P) LSM303DLx_INT1_DURATION (reg_dur c);
    EvWrite (address P) LSM303DLx_INT1_CFG (snd (interrupt_bytes P c));
    EvRead (address P) LSM303DLx_HP_FILTER_RESET 1 ].

(** The status that the transport reports for a write issued after [h]. *)
Definition write_status (P : platform) (h : history) (e : event) : Z :=
  match e with
  | EvWrite a reg data => inv_serial_single_write P h a reg data
  | _ => 0
  end.

(** A trace [done] issued after [h] by a call that returned [r] is
    fail-fast when a write that reports an error is the last event and its
    status is the value returned. *)
Fixpoint fail_fast (P : platform) (h : history) (done : list event) (r : Z)
    : Prop :=
  match done with
  | [] => True
  | e :: post =>
      (write_status P h e <> 0 -> post = [] /\ r = write_status P h e) /\
      fail_fast P (h ++ [e]) post r
  end.

(** ** Platforms and configurations of the examples *)

(** A platform whose transport always succeeds and leaves read buffers
    alone.  The header constants are sample values. *)
Definition quiet_platform (m : data_model) : platform :=
  mk_platform m 0x19 (fun _ _ _ _ => 0) (fun _ _ _ _ data => (0, data))
              0 1 2 0x82 0x2c.

(** A platform whose transport reports the error 5 for a write of the
    full-scale register CTRL_REG4 and succeeds otherwise. *)
Definition full_scale_error_platform (m : data_model) : platform :=
  mk_platform m 0x19
              (fun _ _ reg _ => if reg =? LSM303DLx_CTRL_REG4 then 5 else 0)
              (fun _ _ _ _ data => (0, data))
              0 1 2 0x82 0x2c.

(** A platform whose status register reads [status] and whose sample
    registers read 1 to 6. *)
Definition status_platform (m : data_model) (status : Z) : platform :=
  mk_platform m 0x19 (fun _ _ _ _ => 0)
              (fun _ _ reg _ _ =>
                 if reg =? LSM303DLx_STATUS_REG then (0, [status; 0; 0; 0; 0; 0])
                 else (0, [1; 2; 3; 4; 5; 6]))
              0 1 2 0x82 0x2c.

(** The resume configuration that initialization leaves for a range of
    2048 mg. *)
Definition resume_defaults : lsm303dlx_a_config :=
  mk_config 400000 2048 40 2540 2 127 0x37 0 0x95.

(** The suspend configuration that initialization leaves for a range of
    2048 mg. *)
Definition suspend_defaults : lsm303dlx_a_config :=
  mk_config 0 2048 80 1000 5 0 0x07 0 0x2a.

(** A consistent configuration running at 1 Hz. *)
Definition slow_config : lsm303dlx_a_config :=
  mk_config 1000 2048 40 2540 2 2 0x67 0 0x95.

(** A consistent configuration running at 1 kHz with a full scale of
    4096 mg. *)
Definition fast_config : lsm303dlx_a_config :=
  mk_config 1000000 4096 40 100 1 100 0x3f 0 0x95.

(** ** Configuration requests

    [lsm303dlx_a_config] and [lsm303dlx_a_get_config] receive a
    [struct ext_slave_config].  Its keys and the two error codes of these
    functions are constants of headers that are not part of the sources. *)
Record slave_config_keys : Type := mk_keys {
  MPU_SLAVE_CONFIG_ODR_SUSPEND : Z;
  MPU_SLAVE_CONFIG_ODR_RESUME : Z;
  MPU_SLAVE_CONFIG_FSR_SUSPEND : Z;
  MPU_SLAVE_CONFIG_FSR_RESUME : Z;
  MPU_SLAVE_CONFIG_MOT_THS : Z;
  MPU_SLAVE_CONFIG_NMOT_THS : Z;
  MPU_SLAVE_CONFIG_MOT_DUR : Z;
  MPU_SLAVE_CONFIG_NMOT_DUR : Z;
  MPU_SLAVE_CONFIG_IRQ_SUSPEND : Z;
  MPU_SLAVE_CONFIG_IRQ_RESUME : Z;
  INV_ERROR_INVALID_PARAMETER : Z;
  INV_ERROR_FEATURE_NOT_IMPLEMENTED : Z
}.

(** The part of [struct ext_slave_config] that the driver reads: [data] is
    the [long] that the pointer of the request designates, or [None] for a
    null pointer. *)
Record ext_slave_config : Type := mk_slave_config {
  key : Z;
  apply : bool;
  data : option Z
}.

(** The case labels of the two [switch] statements, in program order. *)
Definition config_keys (K : slave_config_keys) : list Z :=
  [ MPU_SLAVE_CONFIG_ODR_SUSPEND K; MPU_SLAVE_CONFIG_ODR_RESUME K;
    MPU_SLAVE_CONFIG_FSR_SUSPEND K; MPU_SLAVE_CONFIG_FSR_RESUME K;
    MPU_SLAVE_CONFIG_MOT_THS K; MPU_SLAVE_CONFIG_NMOT_THS K;
    MPU_SLAVE_CONFIG_MOT_DUR K; MPU_SLAVE_CONFIG_NMOT_DUR K;
    MPU_SLAVE_CONFIG_IRQ_SUSPEND K; MPU_SLAVE_CONFIG_IRQ_RESUME K ].

(** A setter called on [&private_data->suspend], respectively on
    [&private_data->resume]. *)
Definition on_suspend (private_data : lsm303dlx_a_private_data)
    (setter : lsm303dlx_a_config -> M (Z * lsm303dlx_a_config))
    : M (Z * lsm303dlx_a_private_data) :=
  '(result, config) <- setter (suspend private_data) ;;
  ret (result, mk_private_data config (resume private_data)).

Definition on_resume (private_data : lsm303dlx_a_private_data)
    (setter : lsm303dlx_a_config -> M (Z * lsm303dlx_a_config))
    : M (Z * lsm303dlx_a_private_data) :=
  '(result, config) <- setter (resume private_data) ;;
  ret (result, mk_private_data (suspend private_data) config).

(** The function [lsm303dlx_a_config] of the source (the name is taken by
    the structure of configurations); [request] is its argument [data]. *)
Definition lsm303dlx_a_config_entry (K : slave_config_keys) (P : platform)
    (private_data : lsm303dlx_a_private_data) (request : ext_slave_config)
    : M (Z * lsm303dlx_a_private_data) :=
  match data request with
  | None => ret (INV_ERROR_INVALID_PARAMETER K, private_data)
  | Some value =>
      if key request =? MPU_SLAVE_CONFIG_ODR_SUSPEND K then
        on_suspend private_data
          (fun c => lsm303dlx_a_set_odr P c (apply request) value)
      else if key request =? MPU_SLAVE_CONFIG_ODR_RESUME K then
        on_resume private_data
          (fun c => lsm303dlx_a_set_odr P c (apply request) value)
      else if key request =? MPU_SLAVE_CONFIG_FSR_SUSPEND K then
        on_suspend private_data
          (fun c => lsm303dlx_a_set_fsr P c (apply request) value)
      else if key request =? MPU_SLAVE_CONFIG_FSR_RESUME K then
        on_resume private_data
          (fun c => lsm303dlx_a_set_fsr P c (apply request) value)
      else if key request =? MPU_SLAVE_CONFIG_MOT_THS K then
        on_suspend private_data
          (fun c => lsm303dlx_a_set_ths P c (apply request) value)
      else if key request =? MPU_SLAVE_CONFIG_NMOT_THS K then
        on_resume private_data
          (fun c => lsm303dlx_a_set_ths P c (apply request) value)
      else if key request =? MPU_SLAVE_CONFIG_MOT_DUR K then
        on_suspend private_data
          (fun c => lsm303dlx_a_set_dur P c (apply request) value)
      else if key request =? MPU_SLAVE_CONFIG_NMOT_DUR K then
        on_resume private_data
          (fun c => lsm303dlx_a_set_dur P c (apply request) value)
      else if key request =? MPU_SLAVE_CONFIG_IRQ_SUSPEND K then
        on_suspend private_data
          (fun c => lsm303dlx_a_set_irq P c (apply request) value)
      else if key request =? MPU_SLAVE_CONFIG_IRQ_RESUME K then
        on_resume private_data
          (fun c => lsm303dlx_a_set_irq P c (apply request) value)
      else ret (INV_ERROR_FEATURE_NOT_IMPLEMENTED K, private_data)
  end.

(** [lsm303dlx_a_get_config] returns its status and the [unsigned long]
    that the pointer of the request designates after the call ([None] for
    a null pointer); [request] is its argument [data]. *)
Definition lsm303dlx_a_get_config (K : slave_config_keys) (P : platform)
    (private_data : lsm303dlx_a_private_data) (request : ext_slave_config)
    : Z * option Z :=
  match data request with
  | None => (INV_ERROR_INVALID_PARAMETER K, None)
  | Some old =>
      let store v := (INV_SUCCESS, Some (to_ulong (model P) v)) in
      if key request =? MPU_SLAVE_CONFIG_ODR_SUSPEND K then
        store (odr (suspend private_data))
      else if key request =? MPU_SLAVE_CONFIG_ODR_RESUME K then
        store (odr (resume private_data))
      else if key request =? MPU_SLAVE_CONFIG_FSR_SUSPEND K then
        store (fsr (suspend private_data))
      else if key request =? MPU_SLAVE_CONFIG_FSR_RESUME K then
        store (fsr (resume private_data))
      else if key request =? MPU_SLAVE_CONFIG_MOT_THS K then
        store (ths (suspend private_data))
      else if key request =? MPU_SLAVE_CONFIG_NMOT_THS K then
        store (ths (resume private_data))
      else if key request =? MPU_SLAVE_CONFIG_MOT_DUR K then
        store (dur (suspend private_data))
      else if key request =? MPU_SLAVE_CONFIG_NMOT_DUR K then
        store (dur (resume private_data))
      else if key request =? MPU_SLAVE_CONFIG_IRQ_SUSPEND K then
        store (irq_type (suspend private_data))
      else if key request =? MPU_SLAVE_CONFIG_IRQ_RESUME K then
        store (irq_type (resume private_data))
      else (INV_ERROR_FEATURE_NOT_IMPLEMENTED K, Some old)
  end.

(** The power state that a key of a request addresses, and its setter. *)
Inductive power_state : Type := SUSPEND | RESUME.

Definition config_of (s : power_state) (pd : lsm303dlx_a_private_data)
    : lsm303dlx_a_config :=
  match s with SUSPEND => suspend pd | RESUME => resume pd end.

Definition key_of (K : slave_config_keys) (s : power_state) (f : setter) : Z :=
  match f, s with
  | SET_ODR, SUSPEND => MPU_SLAVE_CONFIG_ODR_SUSPEND K
  | SET_ODR, RESUME => MPU_SLAVE_CONFIG_ODR_RESUME K
  | SET_FSR, SUSPEND => MPU_SLAVE_CONFIG_FSR_SUSPEND K
  | SET_FSR, RESUME => MPU_SLAVE_CONFIG_FSR_RESUME K
  | SET_THS, SUSPEND => MPU_SLAVE_CONFIG_MOT_THS K
  | SET_THS, RESUME => MPU_SLAVE_CONFIG_NMOT_THS K
  | SET_DUR, SUSPEND => MPU_SLAVE_CONFIG_MOT_DUR K
  | SET_DUR, RESUME => MPU_SLAVE_CONFIG_NMOT_DUR K
  | SET_IRQ, SUSPEND => MPU_SLAVE_CONFIG_IRQ_SUSPEND K
  | SET_IRQ, RESUME => MPU_SLAVE_CONFIG_IRQ_RESUME K
  end.

(** The field that [lsm303dlx_a_get_config] reads for a setter. *)
Definition field_of (f : setter) (c : lsm303dlx_a_config) : Z :=
  match f with
  | SET_ODR => odr c
  | SET_FSR => fsr c
  | SET_THS => ths c
  | SET_DUR => dur c
  | SET_IRQ => irq_type c
  end.

(** ** Statuses along a sequence of events *)

(** The status that the transport reports for an event issued after [h];
    [buffer] is the buffer handed to a read. *)
Definition step_status (P : platform) (buffer : list Z) (h : history)
    (e : event) : Z :=
  match e with
  | EvWrite a reg value => inv_serial_single_write P h a reg value
  | EvRead a reg len => fst (inv_serial_read P h a reg len buffer)
  | EvSleep _ => 0
  end.

(** Every event of [events], issued in turn after [h], reports 0. *)
Fixpoint all_succeed (P : platform) (buffer : list Z) (h : history)
    (events : list event) : Prop :=
  match events with
  | [] => True
  | e :: rest =>
      step_status P buffer h e = 0 /\ all_succeed P buffer (h ++ [e]) rest
  end.

(** The events that a call appended to the history [h]. *)
Definition events_since {A} (h : history) (o : outcome A)
    : option (list event) :=
  match o with
  | Done _ h' => Some (skipn (length h) h')
  | Fault => None
  end.

(** ** Module glue

    [lsm303dlx_a_mod_probe] and [lsm303dlx_a_mod_remove] act on kernel
    objects.  Pointers are identifiers; the calls into the kernel that
    allocate, free or register are recorded as events, the messages of
    [dev_info], [dev_err] and [dev_dbg] are not. *)
Inductive kernel_event : Type :=
| KZalloc (block : Z)                 (* kzalloc returned block *)
| KFree (block : Z)                   (* kfree *)
| SetClientdata (client block : Z)    (* i2c_set_clientdata *)
| RegisterSlave (client pdata : Z)    (* inv_mpu_register_slave *)
| UnregisterSlave (client pdata : Z). (* inv_mpu_unregister_slave *)

(** [struct lsm303dlx_a_mod_private_data], with the block that holds it. *)
Record lsm303dlx_a_mod_private_data : Type := mk_mod_private_data {
  block : Z;
  client : Z;
  pdata : Z
}.

(** What probe finds in the kernel: whether the adapter has the I2C
    functionality, [client->dev.platform_data] ([None] when null), the block
    that [kzalloc] returns ([None] when it fails), the value that
    [inv_mpu_register_slave] returns, and the error numbers of errno.h. *)
Record kernel : Type := mk_kernel {
  i2c_check_functionality : bool;
  platform_data : option Z;
  kzalloc : option Z;
  inv_mpu_register_slave : Z;
  ENODEV : Z;
  EFAULT : Z;
  ENOMEM : Z
}.

(** Probe returns its result, the events it caused and the client data it
    left on the client (given the client data [clientdata] before). *)
Definition lsm303dlx_a_mod_probe (k : kernel) (client : Z)
    (clientdata : option lsm303dlx_a_mod_private_data)
    : Z * list kernel_event * option lsm303dlx_a_mod_private_data :=
  if negb (i2c_check_functionality k) then (- ENODEV k, [], clientdata)
  else
    match platform_data k with
    | None => (- EFAULT k, [], clientdata)
    | Some pdata =>
        match kzalloc k with
        | None => (- ENOMEM k, [], clientdata)
        | Some b =>
            let private_data := mk_mod_private_data b client pdata in
            let result := inv_mpu_register_slave k in
            if negb (result =? 0) then
              (* out_free_memory *)
              (result,
               [KZalloc b; SetClientdata client b;
                RegisterSlave client pdata; KFree b],
               Some private_data)
            else
              (result,
               [KZalloc b; SetClientdata client b; RegisterSlave client pdata],
               Some private_data)
        end
    end.

(** Remove is called on a client whose client data is [private_data]. *)
Definition lsm303dlx_a_mod_remove (client : Z)
    (private_data : lsm303dlx_a_mod_private_data)
    : Z * list kernel_event :=
  (0, [UnregisterSlave client (pdata private_data);
       KFree (block private_data)]).

(** The blocks that a sequence of kernel events leaves allocated, from the
    blocks [live] allocated before it. *)
Fixpoint live_blocks (live : list Z) (events : list kernel_event) : list Z :=
  match events with
  | [] => live
  | KZalloc b :: rest => live_blocks (b :: live) rest
  | KFree b :: rest => live_blocks (remove Z.eq_dec b live) rest
  | _ :: rest => live_blocks live rest
  end.

(** ** Key tables of the examples *)

(** A table of keys with sample values, all different. *)
Definition sample_keys : slave_config_keys :=
  mk_keys 4 5 6 7 8 9 10 11 12 13 0x21 0x23.

(** A kernel in which every step of probe succeeds, and one in which the
    registration of the slave fails with -5.  The error numbers are those
    of Linux. *)
Definition good_kernel : kernel := mk_kernel true (Some 7) (Some 100) 0 19 14 12.
Definition failing_kernel : kernel :=
  mk_kernel true (Some 7) (Some 100) (-5) 19 14 12.

(** The configuration of the other power state. *)
Definition peer (s : power_state) : power_state :=
  match s with SUSPEND => RESUME | RESUME => SUSPEND end.

(** The requests that a setter stores as they are: a supported rate, a
    supported range, a threshold below the range, a duration or an interrupt
    type that fits its field. *)
Definition stored_as_is (f : setter) (c : lsm303dlx_a_config) (v : Z) : Prop :=
  match f with
  | SET_ODR => In v supported_rates
  | SET_FSR => In v [2048; 4096; 8192]
  | SET_THS => In (fsr c) [2048; 4096; 8192] /\ 0 <= v < fsr c
  | SET_DUR => 0 <= v < 2 ^ 32
  | SET_IRQ => 0 <= v < 256
  end.

(** The events that reach the transport: all but the sleeps. *)
Definition is_transport (e : event) : bool :=
  match e with EvSleep _ => false | _ => true end.

(** A consistent configuration whose threshold of 3000 mg is above the
    smallest range. *)
Definition wide_threshold_config : lsm303dlx_a_config :=
  mk_config 1000000 4096 3000 100 93 100 0x3f 0 0x95.

(** ** Facts about the integer conversions *)

Lemma to_uint_small (x : Z) : 0 <= x < 2 ^ 32 -> to_uint x = x.
Proof. intros H. unfold to_uint, wrap_unsigned. apply Z.mod_small. exact H. Qed.

Lemma to_uchar_small (x : Z) : 0 <= x < 256 -> to_uchar x = x.
Proof.
  intros H. unfold to_uchar, wrap_unsigned. apply Z.mod_small.
  change (2 ^ 8) with 256. exact H.
Qed.

Lemma to_uint_range (x : Z) : 0 <= to_uint x < 2 ^ 32.
Proof. unfold to_uint, wrap_unsigned. apply Z.mod_pos_bound. reflexivity. Qed.

Lemma to_uchar_range (x : Z) : 0 <= to_uchar x < 256.
Proof.
  unfold to_uchar, wrap_unsigned. change 256 with (2 ^ 8).
  apply Z.mod_pos_bound. reflexivity.
Qed.

Lemma wrap_signed_small (bits x : Z) :
  0 < bits -> - 2 ^ (bits - 1) <= x < 2 ^ (bits - 1) -> wrap_signed bits x = x.
Proof.
  intros Hb Hx. unfold wrap_signed.
  assert (E : 2 ^ bits = 2 * 2 ^ (bits - 1)).
  { replace bits with (Z.succ (bits - 1)) at 1 by lia.
    rewrite Z.pow_succ_r by lia. reflexivity. }
  assert (P : 0 < 2 ^ (bits - 1)) by (apply Z.pow_pos_nonneg; lia).
  destruct (Z_lt_ge_dec x 0) as [Hn | Hp].
  - assert (M : x mod 2 ^ bits = x + 2 ^ bits).
    { symmetry. apply Z.mod_unique with (q := -1); lia. }
    rewrite M. destruct (Z.ltb_spec (x + 2 ^ bits) (2 ^ (bits - 1))); lia.
  - rewrite Z.mod_small by lia.
    destruct (Z.ltb_spec x (2 ^ (bits - 1))); lia.
Qed.

Lemma to_long_small (m : data_model) (x : Z) : in_long m x -> to_long m x = x.
Proof.
  intros H. unfold to_long. apply wrap_signed_small.
  - destruct m; reflexivity.
  - exact H.
Qed.

Lemma to_long_of_uint (m : data_model) (x : Z) :
  0 <= x < 2 ^ 32 -> to_uint (to_long m x) = x.
Proof.
  intros H. destruct m.
  - unfold to_long, to_uint, wrap_signed, wrap_unsigned, long_bits.
    rewrite (Z.mod_small x) by exact H.
    destruct (Z.ltb_spec x (2 ^ (32 - 1))).
    + apply Z.mod_small. exact H.
    + symmetry. apply Z.mod_unique with (q := -1); lia.
  - rewrite to_long_small.
    + apply to_uint_small. exact H.
    + unfold in_long, long_bits. change (2 ^ (64 - 1)) with 9223372036854775808.
      change (2 ^ 32) with 4294967296 in H. lia.
Qed.

Lemma to_long_in_long (m : data_model) (x : Z) : in_long m (to_long m x).
Proof.
  unfold in_long, to_long, wrap_signed.
  destruct m; unfold long_bits.
  - change (2 ^ (32 - 1)) with 2147483648. change (2 ^ 32) with 4294967296.
    pose proof (Z.mod_pos_bound x 4294967296 eq_refl).
    destruct (Z.ltb_spec (x mod 4294967296) 2147483648); lia.
  - change (2 ^ (64 - 1)) with 9223372036854775808.
    change (2 ^ 64) with 18446744073709551616.
    pose proof (Z.mod_pos_bound x 18446744073709551616 eq_refl).
    destruct (Z.ltb_spec (x mod 18446744073709551616) 9223372036854775808); lia.
Qed.

Lemma to_long_of_uint_bound (m : data_model) (x : Z) :
  0 <= x < 2 ^ 32 -> to_long m x < 2 ^ 56.
Proof.
  intros H. destruct m.
  - pose proof (to_long_in_long ILP32 x) as B. unfold in_long, long_bits in B.
    change (2 ^ (32 - 1)) with 2147483648 in B.
    change (2 ^ 56) with 72057594037927936. lia.
  - rewrite to_long_small.
    + change (2 ^ 32) with 4294967296 in H.
      change (2 ^ 56) with 72057594037927936. lia.
    + unfold in_long, long_bits. change (2 ^ (64 - 1)) with 9223372036854775808.
      change (2 ^ 32) with 4294967296 in H. lia.
Qed.

(** ** Arithmetic of the duration register *)

Lemma product_fits (d o : Z) :
  0 <= o -> 0 <= d -> d * o < 2 ^ 32 -> o = 0 \/ (0 < o /\ d < 2 ^ 32).
Proof.
  intros Ho Hd H. destruct (Z.eq_dec o 0); [left; assumption | right; nia].
Qed.

Lemma long_uint_mul_fits (m : data_model) (o d : Z) :
  0 <= o -> 0 <= d -> d * o < 2 ^ 32 -> long_uint_mul m d o = d * o.
Proof.
  intros Ho Hd H. assert (P : 0 <= d * o) by nia.
  destruct m; unfold long_uint_mul.
  - unfold to_ulong, wrap_unsigned, long_bits.
    destruct (product_fits d o Ho Hd H) as [Hz | [Hpos Hlt]].
    + subst o. rewrite !Z.mul_0_r. reflexivity.
    + rewrite (Z.mod_small d) by lia. apply Z.mod_small. lia.
  - apply to_long_small. unfold in_long, long_bits.
    change (2 ^ (64 - 1)) with 9223372036854775808.
    change (2 ^ 32) with 4294967296 in H. lia.
Qed.

Lemma long_uint_mul_of_uint (m : data_model) (o d : Z) :
  0 <= o -> 0 <= d < 2 ^ 32 -> d * o < 2 ^ 32 ->
  long_uint_mul m (to_long m d) o = d * o.
Proof.
  intros Ho Hd H. destruct m.
  - unfold long_uint_mul.
    change (to_ulong ILP32 (to_long ILP32 d)) with (to_uint (to_long ILP32 d)).
    rewrite to_long_of_uint by exact Hd.
    unfold to_ulong, wrap_unsigned, long_bits. apply Z.mod_small. nia.
  - rewrite to_long_small.
    + apply long_uint_mul_fits; lia.
    + unfold in_long, long_bits. change (2 ^ (64 - 1)) with 9223372036854775808.
      change (2 ^ 32) with 4294967296 in Hd. lia.
Qed.

Lemma dur_quotient_exact (m : data_model) (p : Z) :
  0 <= p < 2 ^ 32 ->
  to_long m (mixed_div_long m p 1000000) = p / 1000000.
Proof.
  intros Hp.
  assert (Q : 0 <= p / 1000000 < 2 ^ 31).
  { change (2 ^ 32) with 4294967296 in *. change (2 ^ 31) with 2147483648.
    split; [apply Z.div_pos; lia |].
    apply Z.div_lt_upper_bound; lia. }
  assert (L : in_long m (p / 1000000)).
  { unfold in_long. destruct m; unfold long_bits;
      [change (2 ^ (32 - 1)) with (2 ^ 31)
      | change (2 ^ (64 - 1)) with 9223372036854775808;
        change (2 ^ 31) with 2147483648 in Q]; lia. }
  destruct m; unfold mixed_div_long.
  - change (to_ulong ILP32 1000000) with 1000000.
    rewrite Z.quot_div_nonneg by lia. apply to_long_small. exact L.
  - rewrite Z.quot_div_nonneg by lia. apply to_long_small. exact L.
Qed.

Lemma clamp_is_min (q : Z) :
  (if q >? LSM303DLx_MAX_DUR then LSM303DLx_MAX_DUR else q)
  = Z.min q LSM303DLx_MAX_DUR.
Proof. destruct (Z.gtb_spec q LSM303DLx_MAX_DUR); lia. Qed.

Lemma dur_register_exact (m : data_model) (o d : Z) :
  0 <= o < 2 ^ 32 -> 0 <= d -> d * o < 2 ^ 32 ->
  to_uchar (dur_register m o d) = Z.min (d * o / 1000000) LSM303DLx_MAX_DUR.
Proof.
  intros Ho Hd H. unfold dur_register.
  rewrite long_uint_mul_fits by lia.
  rewrite dur_quotient_exact by nia.
  rewrite clamp_is_min. apply to_uchar_small.
  assert (0 <= d * o / 1000000) by (apply Z.div_pos; nia).
  unfold LSM303DLx_MAX_DUR. lia.
Qed.

Lemma dur_register_of_uint (m : data_model) (o d : Z) :
  0 <= o < 2 ^ 32 -> 0 <= d < 2 ^ 32 -> d * o < 2 ^ 32 ->
  to_uchar (dur_register m o (to_long m d))
  = Z.min (d * o / 1000000) LSM303DLx_MAX_DUR.
Proof.
  intros Ho Hd H. unfold dur_register.
  rewrite long_uint_mul_of_uint by lia.
  rewrite dur_quotient_exact by nia.
  rewrite clamp_is_min. apply to_uchar_small.
  assert (0 <= d * o / 1000000) by (apply Z.div_pos; nia).
  unfold LSM303DLx_MAX_DUR. lia.
Qed.

Lemma to_uint_product (o d : Z) :
  0 <= o -> 0 <= d -> d * o < 2 ^ 32 -> to_uint d * o = d * o.
Proof.
  intros Ho Hd H. destruct (product_fits d o Ho Hd H) as [Hz | [Hpos Hlt]].
  - subst o. lia.
  - rewrite to_uint_small by lia. reflexivity.
Qed.

(** ** Arithmetic of the threshold register *)

Lemma ths_clamped_cases (m : data_model) (f t : Z) :
  In f [2048; 4096; 8192] -> in_long m t -> t < 2 ^ 56 ->
  let t2 := ths_clamped m f t in
  in_long m t2 /\ 0 <= t2 < 2 ^ 56 /\ t2 mod 2 ^ 32 < f /\
  (t2 = f - 1 /\ f <= t mod 2 ^ 32 \/
   t2 = 0 /\ t < 0 /\ t mod 2 ^ 32 < f \/
   t2 = t /\ 0 <= t /\ t mod 2 ^ 32 < f).
Proof.
  intros Hf Ht H56. unfold ths_clamped, long_sub.
  assert (Hf' : f = 2048 \/ f = 4096 \/ f = 8192) by (simpl in Hf; intuition lia).
  assert (L : in_long m f /\ in_long m (f - 1)).
  { unfold in_long. destruct m; unfold long_bits;
      [change (2 ^ (32 - 1)) with 2147483648
      | change (2 ^ (64 - 1)) with 9223372036854775808]; lia. }
  destruct L as [L1 L2].
  rewrite (to_long_small m f L1), (to_long_small m (f - 1) L2).
  unfold to_uint, wrap_unsigned.
  assert (B : 0 <= t mod 2 ^ 32 < 2 ^ 32) by (apply Z.mod_pos_bound; reflexivity).
  change (2 ^ 56) with 72057594037927936 in *.
  destruct (Z.geb_spec (t mod 2 ^ 32) f) as [G | G].
  - destruct (Z.ltb_spec (f - 1) 0) as [N | N]; [lia |].
    repeat split; try lia; try apply L2.
    rewrite Z.mod_small; change (2 ^ 32) with 4294967296; lia.
  - destruct (Z.ltb_spec t 0) as [N | N].
    + assert (L0 : in_long m 0).
      { unfold in_long. destruct m; unfold long_bits;
          [change (2 ^ (32 - 1)) with 2147483648
          | change (2 ^ (64 - 1)) with 9223372036854775808]; lia. }
      repeat split; try lia; try apply L0.
      rewrite Z.mod_0_l by (change (2 ^ 32) with 4294967296; lia). lia.
    + repeat split; try lia; try exact Ht; apply Ht.
Qed.

Lemma ths_quotient_exact (m : data_model) (f t2 : Z) :
  In f [2048; 4096; 8192] -> in_long m t2 -> 0 <= t2 < 2 ^ 56 ->
  t2 mod 2 ^ 32 < f ->
  exists q, long_uint_div m (long_mul m t2 128) f = Some q /\
            to_uchar (to_long m q) = to_uint t2 * 128 / f.
Proof.
  intros Hf Hl Ht Hm.
  assert (Hf' : f = 2048 \/ f = 4096 \/ f = 8192) by (simpl in Hf; intuition lia).
  unfold long_uint_div. destruct (Z.eqb_spec f 0) as [Hz | NZ]; [lia |].
  unfold long_mul, to_uint, to_uchar, wrap_unsigned.
  change (2 ^ 56) with 72057594037927936 in *.
  change (2 ^ 8) with 256.
  destruct m.
  - unfold in_long, long_bits in Hl. change (2 ^ (32 - 1)) with 2147483648 in Hl.
    assert (S : t2 mod 2 ^ 32 = t2).
    { apply Z.mod_small. change (2 ^ 32) with 4294967296. lia. }
    rewrite S in *.
    eexists. split; [reflexivity |].
    rewrite (to_long_small ILP32 (t2 * 128)).
    2:{ unfold in_long, long_bits. change (2 ^ (32 - 1)) with 2147483648. lia. }
    unfold to_ulong, wrap_unsigned, long_bits.
    rewrite (Z.mod_small (t2 * 128)) by (change (2 ^ 32) with 4294967296; lia).
    rewrite Z.quot_div_nonneg by lia.
    assert (R : 0 <= t2 * 128 / f < 128).
    { split; [apply Z.div_pos; lia | apply Z.div_lt_upper_bound; lia]. }
    rewrite to_long_small.
    2:{ unfold in_long, long_bits. change (2 ^ (32 - 1)) with 2147483648. lia. }
    apply Z.mod_small. lia.
  - eexists. split; [reflexivity |].
    rewrite (to_long_small LP64 (t2 * 128)).
    2:{ unfold in_long, long_bits. change (2 ^ (64 - 1)) with 9223372036854775808. lia. }
    rewrite Z.quot_div_nonneg by lia.
    assert (R : 0 <= t2 * 128 / f < 2 ^ 63).
    { change (2 ^ 63) with 9223372036854775808.
      split; [apply Z.div_pos; lia | apply Z.div_lt_upper_bound; lia]. }
    rewrite to_long_small.
    2:{ unfold in_long, long_bits. change (2 ^ (64 - 1)) with (2 ^ 63). lia. }
    change (2 ^ 32) with 4294967296 in *.
    change (2 ^ 63) with 9223372036854775808 in *.
    destruct Hf' as [E | [E | E]]; subst f; Z.div_mod_to_equations; lia.
Qed.

(** ** What each setter returns *)

Lemma set_dur_done (P : platform) (c : lsm303dlx_a_config) (apply : bool)
    (d : Z) (h : history) :
  exists r h',
    lsm303dlx_a_set_dur P c apply d h
    = Done (r, set_reg_dur_field (set_dur_field c d)
                 (dur_register (model P) (odr c) d)) h'
    /\ (apply = false -> r = INV_SUCCESS /\ h' = h).
Proof.
  unfold lsm303dlx_a_set_dur, dur_register.
  destruct apply; do 2 eexists; (split; [reflexivity |]).
  - discriminate.
  - auto.
Qed.

Lemma set_ths_done (P : platform) (c : lsm303dlx_a_config) (apply : bool)
    (t : Z) (h : history) (q : Z) :
  long_uint_div (model P)
    (long_mul (model P) (ths_clamped (model P) (fsr c) t) 128) (fsr c) = Some q ->
  exists r h',
    lsm303dlx_a_set_ths P c apply t h
    = Done (r, set_reg_ths_field
                 (set_ths_field c (ths_clamped (model P) (fsr c) t))
                 (to_long (model P) q)) h'
    /\ (apply = false -> r = INV_SUCCESS /\ h' = h).
Proof.
  intros Hq. unfold lsm303dlx_a_set_ths.
  change (if (if to_uint t >=? fsr c
              then long_sub (model P) (to_long (model P) (fsr c)) 1 else t) <? 0
          then 0
          else if to_uint t >=? fsr c
               then long_sub (model P) (to_long (model P) (fsr c)) 1 else t)
    with (ths_clamped (model P) (fsr c) t).
  cbn [fsr set_ths_field]. rewrite Hq.
  destruct apply; do 2 eexists; (split; [reflexivity |]).
  - discriminate.
  - auto.
Qed.

Lemma set_irq_done (P : platform) (c : lsm303dlx_a_config) (apply : bool)
    (v : Z) (h : history) :
  exists r h',
    lsm303dlx_a_set_irq P c apply v h = Done (r, set_irq_type_field c v) h'
    /\ (apply = false -> r = INV_SUCCESS /\ h' = h).
Proof.
  unfold lsm303dlx_a_set_irq.
  destruct (v =? MPU_SLAVE_IRQ_TYPE_DATA_READY P);
    [| destruct (v =? MPU_SLAVE_IRQ_TYPE_MOTION P)];
    destruct apply; do 2 eexists; (split; [reflexivity |]);
    solve [discriminate | auto].
Qed.

Lemma selected_rate_bits_ok (v : Z) : rate_bits_ok (selected_rate_bits v).
Proof.
  unfold selected_rate_bits, rate_bits_ok.
  repeat match goal with
         | |- context [if ?b then _ else _] => destruct b
         end; simpl; tauto.
Qed.

Lemma set_odr_done (P : platform) (c : lsm303dlx_a_config) (apply : bool)
    (v : Z) (h : history) :
  exists r h',
    lsm303dlx_a_set_odr P c apply v h
    = Done (r, set_reg_dur_field
                 (set_dur_field
                    (set_ctrl_reg1_field (set_odr_field c (selected_odr v))
                       (Z.lor (selected_rate_bits v)
                          (Z.land (ctrl_reg1 c) 0x7)))
                    (to_long (model P) (dur c)))
                 (dur_register (model P) (to_uint (selected_odr v))
                    (to_long (model P) (dur c)))) h'
    /\ (apply = false -> r = INV_SUCCESS /\ h' = h).
Proof.
  unfold lsm303dlx_a_set_odr, selected_odr, selected_rate_bits, bind.
  repeat match goal with
         | |- context [if ?b then _ else _] =>
             match b with
             | (v >? _) => destruct b
             end
         end;
    cbn [dur ctrl_reg1 set_odr_field set_ctrl_reg1_field];
    match goal with
    | |- context [lsm303dlx_a_set_dur P ?c1 apply ?d h] =>
        destruct (set_dur_done P c1 apply d h) as (r & h' & E & F);
        rewrite E; cbn [odr] in *
    end;
    destruct apply; do 2 eexists;
    (split; [reflexivity |]);
    try discriminate; intros _; destruct F as [F1 F2]; auto.
Qed.

Lemma long_uint_div_some (m : data_model) (a b : Z) :
  b <> 0 -> exists q, long_uint_div m a b = Some q.
Proof.
  intros Hb. unfold long_uint_div.
  destruct (Z.eqb_spec b 0) as [E | _]; [contradiction |].
  destruct m; eexists; reflexivity.
Qed.

Lemma selected_fsr_cases (v : Z) :
  selected_fsr v = 2048 \/ selected_fsr v = 4096 \/ selected_fsr v = 8192.
Proof.
  unfold selected_fsr.
  destruct (v <=? 2048); [| destruct (v <=? 4096)]; auto.
Qed.

Lemma to_uint_selected_fsr (v : Z) : to_uint (selected_fsr v) = selected_fsr v.
Proof.
  destruct (selected_fsr_cases v) as [E | [E | E]]; rewrite E; reflexivity.
Qed.

Lemma set_fsr_done (P : platform) (c : lsm303dlx_a_config) (apply : bool)
    (v : Z) (h : history) :
  exists q r h',
    long_uint_div (model P)
      (long_mul (model P)
         (ths_clamped (model P) (selected_fsr v) (to_long (model P) (ths c)))
         128) (selected_fsr v) = Some q /\
    let c' := set_reg_ths_field
                (set_ths_field (set_fsr_field c (selected_fsr v))
                   (ths_clamped (model P) (selected_fsr v)
                      (to_long (model P) (ths c))))
                (to_long (model P) q) in
    lsm303dlx_a_set_fsr P c apply v h = Done (r, c') h'
    /\ (apply = false -> r = INV_SUCCESS /\ h' = h)
    /\ (apply = true ->
        h' = h ++ [EvWrite (address P) LSM303DLx_INT1_THS (reg_ths c');
                   EvWrite (address P) LSM303DLx_CTRL_REG4 (set_fsr_byte v)]).
Proof.
  destruct (long_uint_div_some (model P)
              (long_mul (model P)
                 (ths_clamped (model P) (selected_fsr v)
                    (to_long (model P) (ths c))) 128) (selected_fsr v))
    as [q Hq].
  { destruct (selected_fsr_cases v) as [E | [E | E]]; rewrite E; discriminate. }
  exists q.
  assert (G : forall c1 byte,
             fsr c1 = selected_fsr v -> ths c1 = ths c ->
             exists r h',
               (bind (lsm303dlx_a_set_ths P c1 apply (to_long (model P) (ths c1)))
                  (fun '(_, config) =>
                     if apply then
                       bind (single_write P LSM303DLx_CTRL_REG4 byte)
                            (fun result => ret (result, config))
                     else ret (INV_SUCCESS, config))) h
               = Done (r, set_reg_ths_field
                            (set_ths_field c1
                               (ths_clamped (model P) (selected_fsr v)
                                  (to_long (model P) (ths c))))
                            (to_long (model P) q)) h'
               /\ (apply = false -> r = INV_SUCCESS /\ h' = h)
               /\ (apply = true ->
                   h' = h ++ [EvWrite (address P) LSM303DLx_INT1_THS
                                (to_uchar (to_long (model P) q));
                              EvWrite (address P) LSM303DLx_CTRL_REG4 byte])).
  { intros c1 byte Ef Et. unfold bind, lsm303dlx_a_set_ths.
    change (if (if to_uint (to_long (model P) (ths c1)) >=? fsr c1
                then long_sub (model P) (to_long (model P) (fsr c1)) 1
                else to_long (model P) (ths c1)) <? 0
            then 0
            else if to_uint (to_long (model P) (ths c1)) >=? fsr c1
                 then long_sub (model P) (to_long (model P) (fsr c1)) 1
                 else to_long (model P) (ths c1))
      with (ths_clamped (model P) (fsr c1) (to_long (model P) (ths c1))).
    cbn [fsr set_ths_field]. rewrite Ef, Et, Hq.
    destruct apply; do 2 eexists; (split; [reflexivity |]); split;
      try discriminate; auto.
    intros _. unfold single_write. cbn [reg_ths set_reg_ths_field].
    rewrite <- app_assoc. reflexivity. }
  unfold lsm303dlx_a_set_fsr, selected_fsr, set_fsr_byte in *.
  destruct (v <=? 2048); [| destruct (v <=? 4096)];
    match goal with
    | |- context [set_fsr_field c ?F] =>
        match goal with
        | |- context [single_write P LSM303DLx_CTRL_REG4 ?byte] =>
            destruct (G (set_fsr_field c F) byte eq_refl eq_refl)
              as (r & h' & E1 & E2 & E3)
        end
    end;
    exists r, h'; (split; [exact Hq |]); cbv zeta; (split; [exact E1 |]);
    split; assumption.
Qed.

(** ** Well-formedness and consistency through the setters *)

Ltac fields :=
  cbn [odr fsr ths dur reg_ths reg_dur ctrl_reg1 irq_type mot_int1_cfg
       set_odr_field set_fsr_field set_ths_field set_dur_field
       set_reg_ths_field set_reg_dur_field set_ctrl_reg1_field
       set_irq_type_field set_mot_int1_cfg_field].

Ltac wf_fields :=
  repeat match goal with
         | |- _ => assumption
         | |- 0 <= to_uint _ < 2 ^ 32 => apply to_uint_range
         | |- 0 <= to_uchar _ < 256 => apply to_uchar_range
         | |- _ /\ _ => split
         end.

Lemma set_dur_preserves (P : platform) (c : lsm303dlx_a_config)
    (apply : bool) (d : Z) (h : history) :
  wf_config c -> config_consistent c -> 0 <= d -> d * odr c < 2 ^ 32 ->
  exists r c' h',
    lsm303dlx_a_set_dur P c apply d h = Done (r, c') h' /\
    wf_config c' /\ config_consistent c'.
Proof.
  intros W C Hd Hp.
  destruct (set_dur_done P c apply d h) as (r & h' & E & _).
  eexists r, _, h'. split; [exact E |].
  destruct W as (W1 & W2 & W3 & W4 & W5 & W6 & W7 & W8 & W9).
  destruct C as (C1 & C2 & C3 & C4).
  split.
  - unfold wf_config, set_reg_dur_field, set_dur_field; fields. wf_fields.
  - unfold config_consistent, set_reg_dur_field, set_dur_field; fields.
    repeat split; try assumption.
    rewrite dur_register_exact by lia.
    rewrite to_uint_product by lia. reflexivity.
Qed.

Lemma selected_odr_cases (v : Z) : In (selected_odr v) supported_rates.
Proof.
  unfold selected_odr, supported_rates.
  repeat match goal with
         | |- context [if ?b then _ else _] => destruct b
         end; simpl; tauto.
Qed.

Lemma to_uint_selected_odr (v : Z) : to_uint (selected_odr v) = selected_odr v.
Proof.
  pose proof (selected_odr_cases v) as H. unfold supported_rates in H.
  simpl in H.
  repeat match goal with
         | H : _ \/ _ |- _ => destruct H as [H | H]
         end; try contradiction; rewrite <- H; reflexivity.
Qed.

Lemma selected_odr_range (v : Z) : 0 <= selected_odr v < 2 ^ 32.
Proof. rewrite <- to_uint_selected_odr. apply to_uint_range. Qed.

Lemma set_odr_preserves (P : platform) (c : lsm303dlx_a_config)
    (apply : bool) (v : Z) (h : history) :
  wf_config c -> config_consistent c -> dur c * selected_odr v < 2 ^ 32 ->
  exists r c' h',
    lsm303dlx_a_set_odr P c apply v h = Done (r, c') h' /\
    wf_config c' /\ config_consistent c'.
Proof.
  intros W C Hp.
  destruct (set_odr_done P c apply v h) as (r & h' & E & _).
  eexists r, _, h'. split; [exact E |].
  destruct W as (W1 & W2 & W3 & W4 & W5 & W6 & W7 & W8 & W9).
  destruct C as (C1 & C2 & C3 & C4).
  pose proof (selected_odr_range v) as R.
  split.
  - unfold wf_config, set_reg_dur_field, set_dur_field, set_ctrl_reg1_field,
      set_odr_field; fields. wf_fields.
  - unfold config_consistent, set_reg_dur_field, set_dur_field,
      set_ctrl_reg1_field, set_odr_field; fields.
    repeat split; try assumption.
    rewrite to_uint_selected_odr.
    rewrite dur_register_of_uint by lia.
    rewrite to_long_of_uint by lia. reflexivity.
Qed.

Lemma ths_fields_consistent (m : data_model) (f t q : Z) :
  In f [2048; 4096; 8192] -> in_long m t -> t < 2 ^ 56 ->
  long_uint_div m (long_mul m (ths_clamped m f t) 128) f = Some q ->
  to_uint (ths_clamped m f t) < f /\
  to_uchar (to_long m q) = to_uint (ths_clamped m f t) * 128 / f.
Proof.
  intros Hf Hl Ht Hq.
  destruct (ths_clamped_cases m f t Hf Hl Ht) as (A & B & C & _).
  destruct (ths_quotient_exact m f _ Hf A B C) as (q' & Hq' & E).
  rewrite Hq in Hq'. injection Hq' as <-.
  split; [exact C | exact E].
Qed.

Lemma set_ths_preserves (P : platform) (c : lsm303dlx_a_config)
    (apply : bool) (t : Z) (h : history) :
  wf_config c -> config_consistent c -> in_long (model P) t -> t < 2 ^ 56 ->
  exists r c' h',
    lsm303dlx_a_set_ths P c apply t h = Done (r, c') h' /\
    wf_config c' /\ config_consistent c'.
Proof.
  intros W C Hl Ht.
  destruct W as (W1 & W2 & W3 & W4 & W5 & W6 & W7 & W8 & W9).
  destruct C as (C1 & C2 & C3 & C4).
  destruct (long_uint_div_some (model P)
              (long_mul (model P) (ths_clamped (model P) (fsr c) t) 128)
              (fsr c)) as [q Hq].
  { simpl in C1. intuition lia. }
  destruct (set_ths_done P c apply t h q Hq) as (r & h' & E & _).
  destruct (ths_fields_consistent (model P) (fsr c) t q C1 Hl Ht Hq) as [A B].
  eexists r, _, h'. split; [exact E |].
  split.
  - unfold wf_config, set_reg_ths_field, set_ths_field; fields. wf_fields.
  - unfold config_consistent, set_reg_ths_field, set_ths_field; fields.
    repeat split; assumption.
Qed.

Lemma set_fsr_preserves (P : platform) (c : lsm303dlx_a_config)
    (apply : bool) (v : Z) (h : history) :
  wf_config c -> config_consistent c ->
  exists r c' h',
    lsm303dlx_a_set_fsr P c apply v h = Done (r, c') h' /\
    wf_config c' /\ config_consistent c'.
Proof.
  intros W C.
  destruct W as (W1 & W2 & W3 & W4 & W5 & W6 & W7 & W8 & W9).
  destruct C as (C1 & C2 & C3 & C4).
  destruct (set_fsr_done P c apply v h) as (q & r & h' & Hq & E & _).
  assert (F : In (selected_fsr v) [2048; 4096; 8192]).
  { simpl. destruct (selected_fsr_cases v) as [X | [X | X]]; rewrite X; auto. }
  destruct (ths_fields_consistent (model P) (selected_fsr v)
              (to_long (model P) (ths c)) q F
              (to_long_in_long _ _) (to_long_of_uint_bound _ _ W3) Hq)
    as [A B].
  eexists r, _, h'. split; [exact E |].
  split.
  - unfold wf_config, set_reg_ths_field, set_ths_field, set_fsr_field; fields.
    wf_fields.
  - unfold config_consistent, set_reg_ths_field, set_ths_field, set_fsr_field; fields.
    rewrite to_uint_selected_fsr. repeat split; assumption.
Qed.

Lemma set_irq_preserves (P : platform) (c : lsm303dlx_a_config)
    (apply : bool) (v : Z) (h : history) :
  wf_config c -> config_consistent c ->
  exists r c' h',
    lsm303dlx_a_set_irq P c apply v h = Done (r, c') h' /\
    wf_config c' /\ config_consistent c'.
Proof.
  intros W C.
  destruct (set_irq_done P c apply v h) as (r & h' & E & _).
  eexists r, _, h'. split; [exact E |].
  destruct W as (W1 & W2 & W3 & W4 & W5 & W6 & W7 & W8 & W9).
  split.
  - unfold wf_config, set_irq_type_field; fields. wf_fields.
  - exact C.
Qed.

(** ** Initialization *)

Lemma init_done (P : platform) (range : Z) (h : history) :
  exists pd,
    lsm303dlx_a_init P true range h = Done (INV_SUCCESS, Some pd) h /\
    (wf_config (suspend pd) /\ config_consistent (suspend pd)) /\
    (wf_config (resume pd) /\ config_consistent (resume pd)).
Proof.
  destruct P as [m a w r n mo dr e1 e2].
  unfold lsm303dlx_a_init, lsm303dlx_a_set_fsr, lsm303dlx_a_set_irq.
  cbn [negb MPU_SLAVE_IRQ_TYPE_NONE MPU_SLAVE_IRQ_TYPE_MOTION
       MPU_SLAVE_IRQ_TYPE_DATA_READY].
  destruct (n =? dr); [| destruct (n =? mo)];
    (destruct (range <=? 2048); [| destruct (range <=? 4096)]);
    destruct m;
    (eexists; split; [cbv - [to_uchar]; reflexivity |]);
    cbn [suspend resume];
    generalize (to_uchar_range n); generalize (to_uchar n); intros k Hk;
    unfold wf_config, config_consistent; fields;
    repeat split; try (vm_compute; congruence); try apply Hk;
    simpl; tauto.
Qed.

(** ** Consistency of the register encodings *)

(** Where no product wraps.  Initialization leaves both configurations with
    register encodings that follow from the physical fields:
    [reg_ths = ths * 128 / fsr], [reg_dur = min (dur * odr / 1000000) 0x7F]
    and [ths < fsr].  Every setter keeps this on the configuration it is
    applied to, for the requests of [request_ok]: a duration that is not
    negative and whose product with the rate fits 32 bits (on [set_dur] for
    the requested duration, on [set_odr] for the stored duration and the
    new rate), and a threshold below [2 ^ 56].  In particular [set_odr]
    derives [reg_dur] again from the new rate and [set_fsr] clamps [ths] and
    derives [reg_ths] again for the new range. *)
Theorem config_consistency_established_and_preserved (P : platform) :
  (forall range h,
      exists pd,
        lsm303dlx_a_init P true range h = Done (INV_SUCCESS, Some pd) h /\
        (wf_config (suspend pd) /\ config_consistent (suspend pd)) /\
        (wf_config (resume pd) /\ config_consistent (resume pd))) /\
  (forall s c apply v h,
      wf_config c -> config_consistent c -> request_ok P s c v ->
      exists r c' h',
        run_setter P s c apply v h = Done (r, c') h' /\
        wf_config c' /\ config_consistent c').
Proof.
  split.
  - intros range h. apply init_done.
  - intros s c apply v h W C R. destruct s; cbn [run_setter request_ok] in *.
    + apply set_odr_preserves; assumption.
    + apply set_fsr_preserves; assumption.
    + destruct R as [R1 R2]. apply set_ths_preserves; assumption.
    + destruct R as [R1 R2]. apply set_dur_preserves; assumption.
    + apply set_irq_preserves; assumption.
Qed.

(** For a requested duration [0 <= d < 2 ^ 32] whose product with the
    current rate fits 32 bits, on either data model, [set_dur] stores
    [reg_dur = min (d * odr / 1000000) MAX_DUR] with [MAX_DUR = 0x7F], and
    the physical field [dur] is the request itself, not clamped. *)
Theorem set_dur_register_encoding (P : platform) (c : lsm303dlx_a_config)
    (apply : bool) (d : Z) (h : history) :
  0 <= odr c < 2 ^ 32 -> 0 <= d < 2 ^ 32 -> d * odr c < 2 ^ 32 ->
  exists r c' h',
    lsm303dlx_a_set_dur P c apply d h = Done (r, c') h' /\
    reg_dur c' = Z.min (d * odr c / 1000000) LSM303DLx_MAX_DUR /\
    LSM303DLx_MAX_DUR = 0x7F /\
    dur c' = d.
Proof.
  intros Ho Hd Hp.
  destruct (set_dur_done P c apply d h) as (r & h' & E & _).
  eexists r, _, h'. split; [exact E |]. fields.
  split; [apply dur_register_exact; lia |].
  split; [reflexivity |].
  apply to_uint_small. exact Hd.
Qed.

(** ** Output data rate *)

Lemma selected_odr_monotone (v1 v2 : Z) :
  v1 <= v2 -> selected_odr v1 <= selected_odr v2.
Proof.
  intros H. unfold selected_odr.
  repeat match goal with
         | |- context [?a >? ?b] => destruct (Z.gtb_spec a b)
         end; lia.
Qed.

Lemma low_bits_cases (x : Z) :
  Z.land x 0x7 = 0 \/ Z.land x 0x7 = 1 \/ Z.land x 0x7 = 2 \/
  Z.land x 0x7 = 3 \/ Z.land x 0x7 = 4 \/ Z.land x 0x7 = 5 \/
  Z.land x 0x7 = 6 \/ Z.land x 0x7 = 7.
Proof.
  assert (E : Z.land x 0x7 = x mod 8).
  { change 0x7 with (Z.ones 3). rewrite Z.land_ones by lia. reflexivity. }
  rewrite E. pose proof (Z.mod_pos_bound x 8 eq_refl). lia.
Qed.

Lemma rate_bits_lor (bits x : Z) :
  rate_bits_ok bits ->
  to_uchar (Z.lor bits (Z.land x 0x7)) = Z.lor bits (Z.land x 0x7) /\
  Z.land (Z.lor bits (Z.land x 0x7)) 0x7 = Z.land x 0x7 /\
  Z.land bits 0x7 = 0.
Proof.
  intros Hb. unfold rate_bits_ok in Hb. simpl in Hb.
  pose proof (low_bits_cases x) as Hy.
  repeat match goal with
         | H : _ \/ _ |- _ => destruct H as [H | H]
         end;
    try contradiction; subst bits; rewrite Hy; repeat split; reflexivity.
Qed.

Lemma set_odr_stores (P : platform) (c : lsm303dlx_a_config) (apply : bool)
    (v : Z) (h : history) :
  exists r c' h',
    lsm303dlx_a_set_odr P c apply v h = Done (r, c') h' /\
    odr c' = selected_odr v /\
    ctrl_reg1 c' = Z.lor (selected_rate_bits v) (Z.land (ctrl_reg1 c) 0x7) /\
    dur c' = to_uint (to_long (model P) (dur c)) /\
    fsr c' = fsr c /\ ths c' = ths c /\ reg_ths c' = reg_ths c /\
    irq_type c' = irq_type c /\ mot_int1_cfg c' = mot_int1_cfg c.
Proof.
  destruct (set_odr_done P c apply v h) as (r & h' & E & _).
  eexists r, _, h'. split; [exact E |]. fields.
  split; [apply to_uint_selected_odr |].
  split; [apply (rate_bits_lor _ (ctrl_reg1 c) (selected_rate_bits_ok v)) |].
  repeat split; reflexivity.
Qed.

(** C6 (as amended).  For every requested rate, the rate that [set_odr]
    stores is one of 0, 500, 1000, 2000, 5000, 10000, 50000, 100000, 400000
    and 1000000 mHz, and it does not decrease when the request increases.
    A request of 99999 stores 100000 and a request of 100001 stores
    400000. *)
Theorem set_odr_rate_set_and_monotone (P : platform) :
  (forall c apply v h,
      exists r c' h',
        lsm303dlx_a_set_odr P c apply v h = Done (r, c') h' /\
        In (odr c') supported_rates) /\
  (forall c1 apply1 v1 h1 c2 apply2 v2 h2,
      v1 <= v2 ->
      exists r1 c1' h1' r2 c2' h2',
        lsm303dlx_a_set_odr P c1 apply1 v1 h1 = Done (r1, c1') h1' /\
        lsm303dlx_a_set_odr P c2 apply2 v2 h2 = Done (r2, c2') h2' /\
        odr c1' <= odr c2') /\
  (forall c apply h,
      exists r c' h',
        lsm303dlx_a_set_odr P c apply 99999 h = Done (r, c') h' /\
        odr c' = 100000) /\
  (forall c apply h,
      exists r c' h',
        lsm303dlx_a_set_odr P c apply 100001 h = Done (r, c') h' /\
        odr c' = 400000).
Proof.
  repeat split.
  - intros c apply v h.
    destruct (set_odr_stores P c apply v h) as (r & c' & h' & E & O & _).
    exists r, c', h'. split; [exact E |]. rewrite O. apply selected_odr_cases.
  - intros c1 apply1 v1 h1 c2 apply2 v2 h2 Hle.
    destruct (set_odr_stores P c1 apply1 v1 h1)
      as (r1 & c1' & h1' & E1 & O1 & _).
    destruct (set_odr_stores P c2 apply2 v2 h2)
      as (r2 & c2' & h2' & E2 & O2 & _).
    exists r1, c1', h1', r2, c2', h2'.
    split; [exact E1 |]. split; [exact E2 |].
    rewrite O1, O2. apply selected_odr_monotone. exact Hle.
  - intros c apply h.
    destruct (set_odr_stores P c apply 99999 h)
      as (r & c' & h' & E & O & _).
    exists r, c', h'. split; [exact E |]. rewrite O. reflexivity.
  - intros c apply h.
    destruct (set_odr_stores P c apply 100001 h)
      as (r & c' & h' & E & O & _).
    exists r, c', h'. split; [exact E |]. rewrite O. reflexivity.
Qed.

(** C10.  For every requested rate and every prior value of [ctrl_reg1],
    [set_odr] leaves the low three bits of [ctrl_reg1] as they were,
    combining them by a bitwise or with the rate bits of the selected tier,
    and changes no field other than [odr], [ctrl_reg1] and [reg_dur].  A
    request of 200000 on a configuration whose [ctrl_reg1] is 0 selects the
    tier above 100000, with the rate bits [0x20 | 0x10 = 0x30], and stores
    [ctrl_reg1 = 0x30]. *)
Theorem set_odr_frame (P : platform) (c : lsm303dlx_a_config) (apply : bool)
    (v : Z) (h : history) :
  wf_config c ->
  exists r c' h',
    lsm303dlx_a_set_odr P c apply v h = Done (r, c') h' /\
    Z.land (ctrl_reg1 c') 0x7 = Z.land (ctrl_reg1 c) 0x7 /\
    ctrl_reg1 c' = Z.lor (selected_rate_bits v) (Z.land (ctrl_reg1 c) 0x7) /\
    Z.land (selected_rate_bits v) 0x7 = 0 /\
    (fsr c' = fsr c /\ ths c' = ths c /\ dur c' = dur c /\
     reg_ths c' = reg_ths c /\ irq_type c' = irq_type c /\
     mot_int1_cfg c' = mot_int1_cfg c) /\
    (v = 200000 -> ctrl_reg1 c = 0 ->
     odr c' = 400000 /\
     selected_rate_bits v = Z.lor LSM303DLx_PWR_MODE_NORMAL 0x10 /\
     selected_rate_bits v = 0x30 /\
     ctrl_reg1 c' = 0x30).
Proof.
  intros W.
  destruct (set_odr_stores P c apply v h)
    as (r & c' & h' & E & O & R & D & F1 & F2 & F3 & F4 & F5).
  destruct (rate_bits_lor _ (ctrl_reg1 c) (selected_rate_bits_ok v))
    as (L1 & L2 & L3).
  exists r, c', h'. split; [exact E |].
  split; [rewrite R; exact L2 |].
  split; [exact R |].
  split; [exact L3 |].
  split.
  { repeat split; try assumption.
    rewrite D. apply to_long_of_uint. apply W. }
  intros -> Hc. rewrite O, R, Hc. repeat split; reflexivity.
Qed.

(** ** Suspend and resume *)

Ltac events_after h H :=
  lazymatch H with
  | h => constr:(@nil event)
  | ?H0 ++ [?e] => let s := events_after h H0 in constr:(s ++ [e])
  end.

Ltac flatten_history :=
  repeat rewrite <- app_assoc in *; cbn [app] in *.

Lemma fail_fast_split (P : platform) (done : list event) :
  forall h r,
    fail_fast P h done r ->
    forall pre a reg data post,
      done = pre ++ EvWrite a reg data :: post ->
      inv_serial_single_write P (h ++ pre) a reg data <> 0 ->
      post = [] /\ r = inv_serial_single_write P (h ++ pre) a reg data.
Proof.
  induction done as [| e done IH]; intros h r F pre a reg data post E N.
  - destruct pre; discriminate E.
  - destruct F as [F1 F2]. destruct pre as [| x pre].
    + cbn [app] in E. injection E as -> ->.
      rewrite app_nil_r in *. apply F1. exact N.
    + cbn [app] in E. injection E as -> ->.
      replace (h ++ x :: pre) with ((h ++ [x]) ++ pre) in *
        by (rewrite <- app_assoc; reflexivity).
      apply (IH (h ++ [x]) r F2 pre a reg data post eq_refl N).
Qed.

Lemma resume_trace (P : platform) (pd : lsm303dlx_a_private_data)
    (h : history) :
  exists r done rest,
    lsm303dlx_a_resume P pd h = Done r (h ++ done) /\
    resume_events P pd = done ++ rest /\
    (r = 0 -> rest = []) /\
    fail_fast P h done r /\
    (inv_serial_single_write P h (address P) LSM303DLx_CTRL_REG1
       (ctrl_reg1 (resume pd)) = 0 ->
     inv_serial_single_write P
       (h ++ [EvWrite (address P) LSM303DLx_CTRL_REG1 (ctrl_reg1 (resume pd));
              EvSleep 6])
       (address P) LSM303DLx_CTRL_REG4 (full_scale_byte (resume pd)) <> 0 ->
     r = inv_serial_single_write P
           (h ++ [EvWrite (address P) LSM303DLx_CTRL_REG1
                    (ctrl_reg1 (resume pd));
                  EvSleep 6])
           (address P) LSM303DLx_CTRL_REG4 (full_scale_byte (resume pd)) /\
     done = [EvWrite (address P) LSM303DLx_CTRL_REG1 (ctrl_reg1 (resume pd));
             EvSleep 6;
             EvWrite (address P) LSM303DLx_CTRL_REG4
               (full_scale_byte (resume pd))]).
Proof.
  unfold lsm303dlx_a_resume, resume_events.
  change (if fsr (resume pd) =? 8192 then Z.lor 0x40 0x30
          else if fsr (resume pd) =? 4096 then Z.lor 0x40 0x10 else 0x40)
    with (full_scale_byte (resume pd)).
  change (if irq_type (resume pd) =? MPU_SLAVE_IRQ_TYPE_DATA_READY P
          then (0x02, 0x00)
          else if irq_type (resume pd) =? MPU_SLAVE_IRQ_TYPE_MOTION P
               then (0x00, mot_int1_cfg (resume pd)) else (0x00, 0x00))
    with (interrupt_bytes P (resume pd)).
  destruct (interrupt_bytes P (resume pd)) as [reg1 reg2].
  cbn [fst snd].
  unfold bind, single_write, msleep, serial_read, ret.
  repeat match goal with
         | |- context [negb (?x =? 0)] =>
             destruct (Z.eqb_spec x 0); cbn [negb]
         | |- context [inv_serial_read P ?H ?a ?b ?c ?d] =>
             destruct (inv_serial_read P H a b c d) as [? ?]
         end;
    match goal with
    | |- exists r done rest, Done ?R ?H = _ /\ _ =>
        let s := events_after h H in
        let s' := eval cbn [app] in s in
        exists R, s'
    end;
    eexists;
    (split; [flatten_history; reflexivity |]);
    (split; [cbn [app]; reflexivity |]);
    (split; [intros; try contradiction; try reflexivity |]);
    (split;
     [cbn [fail_fast write_status];
      repeat split; intros; try contradiction; try reflexivity
     | flatten_history; intros; try contradiction; split; reflexivity]).
Qed.

(** C2.  Resume is fail-fast.  For every configuration and every transport,
    the events that [lsm303dlx_a_resume] issues are a prefix [done] of the
    resume sequence, whole when the call returns 0; a register write of
    [done] that reports a status other than 0 is the last event of [done],
    so that no later write is attempted, and its status is the value
    returned.  In particular, when the write of the full-scale register
    CTRL_REG4 is reached and reports an error, the call returns that error
    and nothing follows the write: no threshold, duration or interrupt
    configuration write is issued. *)
Theorem resume_fail_fast (P : platform) (pd : lsm303dlx_a_private_data)
    (h : history) :
  exists r done rest,
    lsm303dlx_a_resume P pd h = Done r (h ++ done) /\
    resume_events P pd = done ++ rest /\
    (r = 0 -> rest = []) /\
    (forall pre a reg data post,
        done = pre ++ EvWrite a reg data :: post ->
        inv_serial_single_write P (h ++ pre) a reg data <> 0 ->
        post = [] /\ r = inv_serial_single_write P (h ++ pre) a reg data) /\
    (inv_serial_single_write P h (address P) LSM303DLx_CTRL_REG1
       (ctrl_reg1 (resume pd)) = 0 ->
     inv_serial_single_write P
       (h ++ [EvWrite (address P) LSM303DLx_CTRL_REG1 (ctrl_reg1 (resume pd));
              EvSleep 6])
       (address P) LSM303DLx_CTRL_REG4 (full_scale_byte (resume pd)) <> 0 ->
     r = inv_serial_single_write P
           (h ++ [EvWrite (address P) LSM303DLx_CTRL_REG1
                    (ctrl_reg1 (resume pd));
                  EvSleep 6])
           (address P) LSM303DLx_CTRL_REG4 (full_scale_byte (resume pd)) /\
     done = [EvWrite (address P) LSM303DLx_CTRL_REG1 (ctrl_reg1 (resume pd));
             EvSleep 6;
             EvWrite (address P) LSM303DLx_CTRL_REG4
               (full_scale_byte (resume pd))] /\
     (forall data,
         ~ In (EvWrite (address P) LSM303DLx_INT1_THS data) done /\
         ~ In (EvWrite (address P) LSM303DLx_INT1_DURATION data) done /\
         ~ In (EvWrite (address P) LSM303DLx_INT1_CFG data) done /\
         ~ In (EvWrite (address P) LSM303DLx_CTRL_REG3 data) done)).
Proof.
  destruct (resume_trace P pd h) as (r & done & rest & E & S & Z & F & X).
  exists r, done, rest.
  split; [exact E |]. split; [exact S |]. split; [exact Z |].
  split; [exact (fail_fast_split P done h r F) |].
  intros W1 W4. destruct (X W1 W4) as [Hr Hd].
  split; [exact Hr |]. split; [exact Hd |].
  intros data. rewrite Hd.
  repeat split; intros [I | [I | [I | []]]]; discriminate I.
Qed.

(** C3.  Suspend is best-effort.  For every configuration and every
    transport, whatever status each step reports, [lsm303dlx_a_suspend]
    issues its seven register writes and then the read of HP_FILTER_RESET,
    and it returns the status of that read alone. *)
Theorem suspend_best_effort (P : platform) (pd : lsm303dlx_a_private_data)
    (h : history) :
  lsm303dlx_a_suspend P pd h
  = Done (fst (inv_serial_read P (h ++ suspend_writes P pd) (address P)
                 LSM303DLx_HP_FILTER_RESET 1
                 [fst (interrupt_bytes P (suspend pd))]))
         (h ++ suspend_writes P pd
            ++ [EvRead (address P) LSM303DLx_HP_FILTER_RESET 1]).
Proof.
  unfold lsm303dlx_a_suspend, suspend_writes.
  change (if fsr (suspend pd) =? 8192 then Z.lor 0x40 0x30
          else if fsr (suspend pd) =? 4096 then Z.lor 0x40 0x10 else 0x40)
    with (full_scale_byte (suspend pd)).
  change (if irq_type (suspend pd) =? MPU_SLAVE_IRQ_TYPE_DATA_READY P
          then (0x02, 0x00)
          else if irq_type (suspend pd) =? MPU_SLAVE_IRQ_TYPE_MOTION P
               then (0x00, mot_int1_cfg (suspend pd)) else (0x00, 0x00))
    with (interrupt_bytes P (suspend pd)).
  destruct (interrupt_bytes P (suspend pd)) as [reg1 reg2].
  cbn [fst snd].
  unfold bind, single_write, serial_read, ret.
  flatten_history.
  destruct (inv_serial_read P _ _ _ _ _) as [result data].
  reflexivity.
Qed.

(** ** Reading a sample *)

(** C9.  [lsm303dlx_a_read] first reads the one byte of the status
    register.  It then reads the sample registers, in one burst of the
    length of the descriptor, if and only if the low nibble of the status
    byte is not zero, and returns the status of that read; otherwise it
    returns INV_ERROR_ACCEL_DATA_NOT_READY and issues no further read.  A
    status byte of 0x00 is such a case. *)
Theorem read_checks_data_ready (P : platform) (slave : ext_slave_descr)
    (data : list Z) (h : history) :
  let status_read :=
    inv_serial_read P h (address P) LSM303DLx_STATUS_REG 1 data in
  let status_byte := nth 0 (snd status_read) 0 in
  let h1 := h ++ [EvRead (address P) LSM303DLx_STATUS_REG 1] in
  exists r h',
    lsm303dlx_a_read P slave data h = Done r h' /\
    (In (EvRead (address P) (read_reg slave) (read_len slave))
        (skipn (length h1) h')
     <-> Z.land status_byte 0x0F <> 0) /\
    (Z.land status_byte 0x0F <> 0 ->
     r = inv_serial_read P h1 (address P) (read_reg slave) (read_len slave)
           (snd status_read) /\
     h' = h1 ++ [EvRead (address P) (read_reg slave) (read_len slave)]) /\
    (Z.land status_byte 0x0F = 0 ->
     r = (INV_ERROR_ACCEL_DATA_NOT_READY P, snd status_read) /\ h' = h1) /\
    (status_byte = 0x00 ->
     r = (INV_ERROR_ACCEL_DATA_NOT_READY P, snd status_read) /\ h' = h1).
Proof.
  cbv zeta. unfold lsm303dlx_a_read, bind, serial_read, ret.
  destruct (inv_serial_read P h (address P) LSM303DLx_STATUS_REG 1 data)
    as [st data1].
  cbn [snd].
  assert (K : forall (l : history) (e : event),
             skipn (length l) (l ++ [e]) = [e]).
  { intros l e. induction l as [| x l IH]; [reflexivity | exact IH]. }
  assert (K0 : forall l : history, skipn (length l) l = []).
  { intros l. induction l as [| x l IH]; [reflexivity | exact IH]. }
  destruct (Z.eqb_spec (Z.land (nth 0 data1 0) 15) 0) as [E | N]; cbn [negb].
  - do 2 eexists. split; [reflexivity |].
    rewrite K0.
    split; [split; [intros [] | intros C; contradiction] |].
    split; [intros C; contradiction |].
    split; [intros _; split; reflexivity |].
    intros _; split; reflexivity.
  - destruct (inv_serial_read P _ _ _ _ data1) as [r2 data2] eqn:R2.
    do 2 eexists. split; [reflexivity |].
    rewrite K.
    split; [split; [intros _; exact N | intros _; left; reflexivity] |].
    split; [intros _; split; reflexivity |].
    split; [intros C; contradiction |].
    intros C. rewrite C in N. contradiction N. reflexivity.
Qed.

(** ** Full-scale range *)

(** C8.  For every requested range, the range that [set_fsr] stores is
    2048, 4096 or 8192; it is at least the request when the request is at
    most 8192, and it is 8192 for a larger request.  A request of 6000
    stores 8192 and, when applied, writes [0x40 | 0x10 = 0x50] to
    CTRL_REG4. *)
Theorem set_fsr_selects_range (P : platform) (c : lsm303dlx_a_config)
    (apply : bool) (v : Z) (h : history) :
  exists r c' h',
    lsm303dlx_a_set_fsr P c apply v h = Done (r, c') h' /\
    In (fsr c') [2048; 4096; 8192] /\
    (v <= 8192 -> v <= fsr c') /\
    (8192 < v -> fsr c' = 8192) /\
    (v = 6000 ->
     fsr c' = 8192 /\
     (apply = true ->
      h' = h ++ [EvWrite (address P) LSM303DLx_INT1_THS (reg_ths c');
                 EvWrite (address P) LSM303DLx_CTRL_REG4 (Z.lor 0x40 0x10)]) /\
     Z.lor 0x40 0x10 = 0x50).
Proof.
  destruct (set_fsr_done P c apply v h) as (q & r & h' & _ & E & _ & A).
  eexists r, _, h'. split; [exact E |].
  fields. rewrite to_uint_selected_fsr.
  split.
  { simpl. destruct (selected_fsr_cases v) as [X | [X | X]]; rewrite X; auto. }
  unfold selected_fsr.
  split; [| split].
  - intros Hv.
    destruct (Z.leb_spec v 2048); [lia |]. destruct (Z.leb_spec v 4096); lia.
  - intros Hv.
    destruct (Z.leb_spec v 2048); [lia |]. destruct (Z.leb_spec v 4096); lia.
  - intros ->. split; [reflexivity |]. split; [| reflexivity].
    intros Ha. rewrite (A Ha). reflexivity.
Qed.

(** The byte that [set_fsr] writes for a request and the byte that suspend
    and resume derive from the range selected for it agree for the tier of
    2048 only. *)
Lemma set_fsr_byte_agrees_at_2048_only (c : lsm303dlx_a_config) (v : Z) :
  fsr c = selected_fsr v ->
  (set_fsr_byte v = full_scale_byte c <-> v <= 2048).
Proof.
  intros E. unfold full_scale_byte, set_fsr_byte. rewrite E.
  unfold selected_fsr.
  destruct (Z.leb_spec v 2048); [| destruct (Z.leb_spec v 4096)];
    cbn; split; intros H1; try reflexivity; try lia; discriminate H1.
Qed.

(** C5 (the code departs from the specification).  The byte of CTRL_REG4 that
    [set_fsr] writes for a range and the byte that suspend and resume write
    for the same stored range differ for 4096 and for 8192: [set_fsr] writes
    0x70 for 4096 and 0x50 for 8192, suspend and resume write 0x50 for 4096
    and 0x70 for 8192.  They agree on 0x40 for 2048 only. *)
Theorem full_scale_encodings_disagree (m : data_model) :
  let P := quiet_platform m in
  let w := EvWrite 0x19 in
  exists c4 c8 c2,
    (lsm303dlx_a_set_fsr P fast_config true 4096 []
     = Done (0, c4) [w LSM303DLx_INT1_THS 1; w LSM303DLx_CTRL_REG4 0x70]
     /\ fsr c4 = 4096
     /\ lsm303dlx_a_resume P (mk_private_data c4 c4) []
        = Done 0 [w LSM303DLx_CTRL_REG1 0x3f; EvSleep 6;
                  w LSM303DLx_CTRL_REG4 0x50; w LSM303DLx_CTRL_REG2 0x0F;
                  w LSM303DLx_CTRL_REG3 0; w LSM303DLx_INT1_THS 1;
                  w LSM303DLx_INT1_DURATION 100; w LSM303DLx_INT1_CFG 0;
                  EvRead 0x19 LSM303DLx_HP_FILTER_RESET 1]
     /\ lsm303dlx_a_suspend P (mk_private_data c4 c4) []
        = Done 0 [w LSM303DLx_CTRL_REG1 0x3f; w LSM303DLx_CTRL_REG2 0x0F;
                  w LSM303DLx_CTRL_REG4 0x50; w LSM303DLx_INT1_THS 1;
                  w LSM303DLx_INT1_DURATION 100; w LSM303DLx_CTRL_REG3 0;
                  w LSM303DLx_INT1_CFG 0;
                  EvRead 0x19 LSM303DLx_HP_FILTER_RESET 1]) /\
    (lsm303dlx_a_set_fsr P fast_config true 8192 []
     = Done (0, c8) [w LSM303DLx_INT1_THS 0; w LSM303DLx_CTRL_REG4 0x50]
     /\ fsr c8 = 8192
     /\ final_history (lsm303dlx_a_resume P (mk_private_data c8 c8) [])
        = Some [w LSM303DLx_CTRL_REG1 0x3f; EvSleep 6;
                w LSM303DLx_CTRL_REG4 0x70; w LSM303DLx_CTRL_REG2 0x0F;
                w LSM303DLx_CTRL_REG3 0; w LSM303DLx_INT1_THS 0;
                w LSM303DLx_INT1_DURATION 100; w LSM303DLx_INT1_CFG 0;
                EvRead 0x19 LSM303DLx_HP_FILTER_RESET 1]) /\
    (lsm303dlx_a_set_fsr P fast_config true 2048 []
     = Done (0, c2) [w LSM303DLx_INT1_THS 2; w LSM303DLx_CTRL_REG4 0x40]
     /\ fsr c2 = 2048
     /\ final_history (lsm303dlx_a_resume P (mk_private_data c2 c2) [])
        = Some [w LSM303DLx_CTRL_REG1 0x3f; EvSleep 6;
                w LSM303DLx_CTRL_REG4 0x40; w LSM303DLx_CTRL_REG2 0x0F;
                w LSM303DLx_CTRL_REG3 0; w LSM303DLx_INT1_THS 2;
                w LSM303DLx_INT1_DURATION 100; w LSM303DLx_INT1_CFG 0;
                EvRead 0x19 LSM303DLx_HP_FILTER_RESET 1]).
Proof.
  destruct m; cbv zeta; do 3 eexists; vm_compute; repeat split; reflexivity.
Qed.

(** ** Threshold *)

(** What [lsm303dlx_a_set_ths] stores for a request of 32 bits: a request
    that is not negative is clamped to [fsr - 1]; a negative request is
    stored as [fsr - 1] as well. *)
Lemma set_ths_stores (P : platform) (c : lsm303dlx_a_config) (apply : bool)
    (t : Z) (h : history) :
  In (fsr c) [2048; 4096; 8192] -> - 2 ^ 31 <= t < 2 ^ 31 ->
  exists r c' h',
    lsm303dlx_a_set_ths P c apply t h = Done (r, c') h' /\
    ths c' = (if 0 <=? t then Z.min t (fsr c - 1) else fsr c - 1) /\
    reg_ths c' = ths c' * 128 / fsr c.
Proof.
  intros Hf Ht.
  assert (Hf' : fsr c = 2048 \/ fsr c = 4096 \/ fsr c = 8192)
    by (simpl in Hf; intuition lia).
  change (2 ^ 31) with 2147483648 in Ht.
  assert (Hl : in_long (model P) t).
  { unfold in_long. destruct (model P); unfold long_bits;
      [change (2 ^ (32 - 1)) with 2147483648
      | change (2 ^ (64 - 1)) with 9223372036854775808]; lia. }
  assert (H56 : t < 2 ^ 56) by (change (2 ^ 56) with 72057594037927936; lia).
  destruct (long_uint_div_some (model P)
              (long_mul (model P) (ths_clamped (model P) (fsr c) t) 128)
              (fsr c)) as [q Hq]; [lia |].
  destruct (set_ths_done P c apply t h q Hq) as (r & h' & E & _).
  destruct (ths_fields_consistent (model P) (fsr c) t q Hf Hl H56 Hq) as [A B].
  destruct (ths_clamped_cases (model P) (fsr c) t Hf Hl H56) as (_ & R & _ & D).
  eexists r, _, h'. split; [exact E |]. fields.
  split; [| exact B].
  change (2 ^ 56) with 72057594037927936 in R.
  change (2 ^ 32) with 4294967296 in D.
  unfold to_uint, wrap_unsigned. change (2 ^ 32) with 4294967296.
  destruct (Z.leb_spec 0 t) as [Pos | Neg].
  - rewrite (Z.mod_small t) in D by lia.
    destruct D as [[D1 D2] | [[D1 [D2 D3]] | [D1 [D2 D3]]]];
      rewrite D1; rewrite Z.mod_small; lia.
  - assert (M : t mod 4294967296 = t + 4294967296).
    { symmetry. apply Z.mod_unique with (q := -1); lia. }
    rewrite M in D.
    destruct D as [[D1 D2] | [[D1 [D2 D3]] | [D1 [D2 D3]]]]; try lia.
    rewrite D1. rewrite Z.mod_small; lia.
Qed.

(** C4 (the code departs from the specification).  With [fsr = 4096], a request of
    5000 is stored as [ths = 4095] with [reg_ths = 127], as specified; but a
    request of -1 is stored as [ths = 4095] with [reg_ths = 127] too, and
    not floored to 0: its conversion to [unsigned int] in the first test of
    [lsm303dlx_a_set_ths] is above every range, and the test for a negative
    value that follows never sees it. *)
Theorem set_ths_negative_request (m : data_model) :
  let P := quiet_platform m in
  fsr fast_config = 4096 /\
  (exists c',
      lsm303dlx_a_set_ths P fast_config false 5000 [] = Done (0, c') [] /\
      ths c' = 4095 /\ reg_ths c' = 127) /\
  (exists c',
      lsm303dlx_a_set_ths P fast_config false (-1) [] = Done (0, c') [] /\
      ths c' = 4095 /\ reg_ths c' = 127 /\ ths c' <> 0).
Proof.
  destruct m; cbv zeta; (split; [reflexivity |]); split; eexists;
    vm_compute; repeat split; try reflexivity; discriminate.
Qed.

(** ** Closed instances and counterexamples *)

Lemma wf_resume_defaults : wf_config resume_defaults.
Proof.
  unfold wf_config, resume_defaults; fields.
  change (2 ^ 32) with 4294967296. lia.
Defined.

Lemma consistent_resume_defaults : config_consistent resume_defaults.
Proof.
  unfold config_consistent, resume_defaults; fields.
  split; [simpl; tauto |]. split; [lia |]. split; reflexivity.
Defined.

Lemma wf_slow_config : wf_config slow_config.
Proof.
  unfold wf_config, slow_config; fields.
  change (2 ^ 32) with 4294967296. lia.
Qed.

Lemma consistent_slow_config : config_consistent slow_config.
Proof.
  unfold config_consistent, slow_config; fields.
  split; [simpl; tauto |]. split; [lia |]. split; reflexivity.
Qed.

Lemma wf_fast_config : wf_config fast_config.
Proof.
  unfold wf_config, fast_config; fields.
  change (2 ^ 32) with 4294967296. lia.
Qed.

Lemma consistent_fast_config : config_consistent fast_config.
Proof.
  unfold config_consistent, fast_config; fields.
  split; [simpl; tauto |]. split; [lia |]. split; reflexivity.
Qed.

(** Initialization with a range of 2048 mg leaves the default
    configurations. *)
Example init_defaults (m : data_model) (h : history) :
  lsm303dlx_a_init (quiet_platform m) true 2048 h
  = Done (INV_SUCCESS, Some (mk_private_data suspend_defaults resume_defaults))
         h.
Proof. destruct m; reflexivity. Qed.

(** The configurations of the examples are reached from the defaults:
    [slow_config] by a rate request of 1000 mHz, [fast_config] by a rate
    request of 1000000 mHz, a range request of 4096 mg and a duration request
    of 100 ms. *)
Example slow_config_reached (m : data_model) :
  lsm303dlx_a_set_odr (quiet_platform m) resume_defaults false 1000 []
  = Done (0, slow_config) [].
Proof. destruct m; reflexivity. Qed.

Example fast_config_reached (m : data_model) :
  (c1 <- (c0 <- lsm303dlx_a_set_odr (quiet_platform m) resume_defaults false
                  1000000 ;;
          lsm303dlx_a_set_fsr (quiet_platform m) (snd c0) false 4096) ;;
   lsm303dlx_a_set_dur (quiet_platform m) (snd c1) false 100) []
  = Done (0, fast_config) [].
Proof. destruct m; reflexivity. Qed.

(** Under [LP64] a threshold request of [2 ^ 56 + 1] overflows the product
    by 128: the stored [ths] is 1 and [reg_ths] is 1, not [1 * 128 / 4096]. *)
Example set_ths_wide_request :
  exists c',
    lsm303dlx_a_set_ths (quiet_platform LP64) fast_config false (2 ^ 56 + 1) []
    = Done (0, c') [] /\
    ths c' = 1 /\ reg_ths c' = 1 /\ ~ config_consistent c'.
Proof.
  eexists. split; [vm_compute; reflexivity |].
  split; [reflexivity |]. split; [reflexivity |].
  intros (_ & _ & C & _). vm_compute in C. discriminate C.
Qed.

(** A duration of 1000 ms on the default resume configuration keeps it
    consistent. *)
Lemma config_consistency_witness :
  wf_config resume_defaults /\ config_consistent resume_defaults /\
  request_ok (quiet_platform ILP32) SET_DUR resume_defaults 1000 /\
  exists r c' h',
    run_setter (quiet_platform ILP32) SET_DUR resume_defaults true 1000 []
    = Done (r, c') h' /\
    wf_config c' /\ config_consistent c'.
Proof.
  assert (R : request_ok (quiet_platform ILP32) SET_DUR resume_defaults 1000).
  { cbn [request_ok]. unfold resume_defaults; fields.
    change (2 ^ 32) with 4294967296. lia. }
  split; [exact wf_resume_defaults |].
  split; [exact consistent_resume_defaults |].
  split; [exact R |].
  exact (proj2 (config_consistency_established_and_preserved
                  (quiet_platform ILP32))
           SET_DUR resume_defaults true 1000 []
           wf_resume_defaults consistent_resume_defaults R).
Defined.

(** Requests outside these bounds.  On the consistent [slow_config] (1 Hz)
    a duration request of -4294967 leaves [reg_dur] at 0 under [ILP32] and at 58 under
    [LP64], while the stored [dur] is 4290672329 and
    [min (dur * odr / 1000000) 0x7F] is 127.  Under [ILP32] the same happens
    for a request of 4295 ms at 1 kHz, whose product with the rate exceeds
    32 bits: [reg_dur] is 0 where the formula gives 127. *)
Lemma set_dur_breaks_consistency :
  config_consistent slow_config /\ config_consistent fast_config /\
  (exists c',
      run_setter (quiet_platform ILP32) SET_DUR slow_config false (-4294967) []
      = Done (0, c') [] /\
      dur c' = 4290672329 /\ odr c' = 1000 /\ reg_dur c' = 0 /\
      ~ config_consistent c') /\
  (exists c',
      run_setter (quiet_platform LP64) SET_DUR slow_config false (-4294967) []
      = Done (0, c') [] /\
      dur c' = 4290672329 /\ odr c' = 1000 /\ reg_dur c' = 58 /\
      ~ config_consistent c') /\
  (exists c',
      run_setter (quiet_platform ILP32) SET_DUR fast_config false 4295 []
      = Done (0, c') [] /\
      dur c' = 4295 /\ odr c' = 1000000 /\ reg_dur c' = 0 /\
      ~ config_consistent c').
Proof.
  split; [exact consistent_slow_config |].
  split; [exact consistent_fast_config |].
  repeat split; eexists; (split; [vm_compute; reflexivity |]);
    (split; [reflexivity |]); (split; [reflexivity |]);
    (split; [reflexivity |]);
    intros (_ & _ & _ & C); vm_compute in C; discriminate C.
Qed.

(** A duration of 100 ms at 400 Hz is encoded as 40. *)
Lemma set_dur_register_encoding_witness :
  exists r c' h',
    lsm303dlx_a_set_dur (quiet_platform ILP32) resume_defaults true 100 []
    = Done (r, c') h' /\
    reg_dur c' = Z.min (100 * odr resume_defaults / 1000000) LSM303DLx_MAX_DUR /\
    LSM303DLx_MAX_DUR = 0x7F /\
    dur c' = 100.
Proof.
  apply (set_dur_register_encoding (quiet_platform ILP32) resume_defaults
           true 100 []);
    unfold resume_defaults; fields; change (2 ^ 32) with 4294967296; lia.
Defined.

(** A negative request and a wrapped product.  For a request of -4294967
    at 1 Hz the stored [dur] is 4290672329, not the request, and [reg_dur] is 0 under [ILP32]
    and 58 under [LP64], neither [min (d * odr / 1000000) 0x7F] for the
    request (-4295) nor for the stored duration (127).  Under [ILP32] a
    request of 4295 ms at 1 kHz is stored as it is, but its product with
    the rate exceeds 32 bits and [reg_dur] is 0, not 127. *)
Lemma set_dur_encoding_counterexample :
  (exists c',
      lsm303dlx_a_set_dur (quiet_platform ILP32) slow_config false (-4294967) []
      = Done (0, c') [] /\
      dur c' <> -4294967 /\ reg_dur c' = 0 /\
      reg_dur c' <> Z.min (-4294967 * odr slow_config / 1000000)
                      LSM303DLx_MAX_DUR /\
      reg_dur c' <> Z.min (dur c' * odr slow_config / 1000000)
                      LSM303DLx_MAX_DUR) /\
  (exists c',
      lsm303dlx_a_set_dur (quiet_platform LP64) slow_config false (-4294967) []
      = Done (0, c') [] /\
      dur c' <> -4294967 /\ reg_dur c' = 58 /\
      reg_dur c' <> Z.min (-4294967 * odr slow_config / 1000000)
                      LSM303DLx_MAX_DUR /\
      reg_dur c' <> Z.min (dur c' * odr slow_config / 1000000)
                      LSM303DLx_MAX_DUR) /\
  (exists c',
      lsm303dlx_a_set_dur (quiet_platform ILP32) fast_config false 4295 []
      = Done (0, c') [] /\
      dur c' = 4295 /\ reg_dur c' = 0 /\
      Z.min (4295 * odr fast_config / 1000000) LSM303DLx_MAX_DUR = 127).
Proof.
  repeat split; eexists; (split; [vm_compute; reflexivity |]);
    vm_compute; repeat split; try reflexivity; discriminate.
Qed.

(** ** The product of the duration and the rate *)

(** Where [long] has 64 bits the product of a duration of 32 bits and a
    rate below [2 ^ 31] does not wrap, and [set_dur] stores
    [reg_dur = min (d * odr / 1000000) MAX_DUR] and the request as [dur]. *)
Lemma set_dur_encoding_lp64 (P : platform) (c : lsm303dlx_a_config)
    (a : bool) (d : Z) (h : history) :
  model P = LP64 -> 0 <= odr c < 2 ^ 31 -> 0 <= d < 2 ^ 32 ->
  exists r c' h',
    lsm303dlx_a_set_dur P c a d h = Done (r, c') h' /\
    reg_dur c' = Z.min (d * odr c / 1000000) LSM303DLx_MAX_DUR /\
    dur c' = d.
Proof.
  intros M Ho Hd.
  destruct (set_dur_done P c a d h) as (r & h' & E & _).
  eexists r, _, h'. split; [exact E |]. fields.
  split; [| apply to_uint_small; exact Hd].
  unfold dur_register. rewrite M. unfold long_uint_mul, mixed_div_long.
  change (2 ^ 31) with 2147483648 in Ho.
  change (2 ^ 32) with 4294967296 in Hd.
  assert (R : 0 <= d * odr c < 9223372036854775808) by nia.
  rewrite (to_long_small LP64 (d * odr c)).
  2:{ unfold in_long, long_bits.
      change (2 ^ (64 - 1)) with 9223372036854775808. lia. }
  rewrite Z.quot_div_nonneg by lia.
  assert (Q : 0 <= d * odr c / 1000000 < 9223372036854775808).
  { split; [apply Z.div_pos; lia | apply Z.div_lt_upper_bound; lia]. }
  rewrite to_long_small.
  2:{ unfold in_long, long_bits.
      change (2 ^ (64 - 1)) with 9223372036854775808. lia. }
  rewrite clamp_is_min. apply to_uchar_small.
  unfold LSM303DLx_MAX_DUR. lia.
Qed.

(** Where [long] has 32 bits the product is taken modulo [2 ^ 32] before
    the division: [set_dur] stores
    [reg_dur = min ((d * odr mod 2 ^ 32) / 1000000) MAX_DUR]. *)
Lemma set_dur_encoding_ilp32 (P : platform) (c : lsm303dlx_a_config)
    (a : bool) (d : Z) (h : history) :
  model P = ILP32 -> 0 <= odr c < 2 ^ 32 -> 0 <= d < 2 ^ 31 ->
  exists r c' h',
    lsm303dlx_a_set_dur P c a d h = Done (r, c') h' /\
    reg_dur c'
    = Z.min ((d * odr c) mod 2 ^ 32 / 1000000) LSM303DLx_MAX_DUR /\
    dur c' = d.
Proof.
  intros M Ho Hd.
  destruct (set_dur_done P c a d h) as (r & h' & E & _).
  eexists r, _, h'. split; [exact E |]. fields.
  change (2 ^ 31) with 2147483648 in Hd.
  split.
  2:{ apply to_uint_small. change (2 ^ 32) with 4294967296. lia. }
  unfold dur_register. rewrite M.
  assert (X : long_uint_mul ILP32 d (odr c) = (d * odr c) mod 2 ^ 32).
  { unfold long_uint_mul, to_ulong, wrap_unsigned, long_bits.
    rewrite (Z.mod_small d) by (change (2 ^ 32) with 4294967296; lia).
    reflexivity. }
  rewrite X.
  assert (B : 0 <= (d * odr c) mod 2 ^ 32 < 2 ^ 32)
    by (apply Z.mod_pos_bound; reflexivity).
  rewrite dur_quotient_exact by exact B.
  rewrite clamp_is_min. apply to_uchar_small.
  assert (0 <= (d * odr c) mod 2 ^ 32 / 1000000) by (apply Z.div_pos; lia).
  unfold LSM303DLx_MAX_DUR. lia.
Qed.

(** C7 (the code departs from the specification).  Where [long] has 32
    bits, [lsm303dlx_a_set_dur] takes the product of the duration and the
    rate modulo [2 ^ 32]: a request of 4295 ms at 1 kHz, and one of 10738 ms
    at the default 400 Hz, are stored as they are in [dur], but [reg_dur] is
    0 where [min (dur * odr / 1000000) MAX_DUR], and the clamp of the
    function, give 0x7F.  Where [long] has 64 bits the same requests are
    encoded as 0x7F. *)
Theorem set_dur_product_wraps :
  odr fast_config = 1000000 /\ odr resume_defaults = 400000 /\
  (exists c',
      lsm303dlx_a_set_dur (quiet_platform ILP32) fast_config false 4295 []
      = Done (INV_SUCCESS, c') [] /\
      dur c' = 4295 /\ reg_dur c' = 0 /\
      Z.min (4295 * odr fast_config / 1000000) LSM303DLx_MAX_DUR = 0x7F) /\
  (exists c',
      lsm303dlx_a_set_dur (quiet_platform ILP32) resume_defaults false 10738 []
      = Done (INV_SUCCESS, c') [] /\
      dur c' = 10738 /\ reg_dur c' = 0 /\
      Z.min (10738 * odr resume_defaults / 1000000) LSM303DLx_MAX_DUR = 0x7F) /\
  (exists c',
      lsm303dlx_a_set_dur (quiet_platform LP64) fast_config false 4295 []
      = Done (INV_SUCCESS, c') [] /\
      dur c' = 4295 /\ reg_dur c' = 0x7F) /\
  (exists c',
      lsm303dlx_a_set_dur (quiet_platform LP64) resume_defaults false 10738 []
      = Done (INV_SUCCESS, c') [] /\
      dur c' = 10738 /\ reg_dur c' = 0x7F).
Proof.
  split; [reflexivity |]. split; [reflexivity |].
  repeat split; eexists; (split; [vm_compute; reflexivity |]);
    repeat split; reflexivity.
Qed.

(** C1 (the code departs from the specification).  Where [long] has 32
    bits the register encodings do not stay consistent with the physical
    fields.  After initialization for a range of 2048 mg, a duration of
    4295 ms on the resume configuration (400 Hz) is still encoded as 0x7F;
    a rate request of 1000000 mHz then makes [set_odr] derive [reg_dur]
    again, the product of 4295 and 1000000 wraps, and [reg_dur] is 0 where
    [min (dur * odr / 1000000) 0x7F] is 0x7F.  Where [long] has 64 bits the
    same calls leave a consistent configuration. *)
Theorem consistency_lost_when_product_wraps :
  (exists pd c1 c2,
      lsm303dlx_a_init (quiet_platform ILP32) true 2048 []
      = Done (INV_SUCCESS, Some pd) [] /\
      config_consistent (resume pd) /\
      lsm303dlx_a_set_dur (quiet_platform ILP32) (resume pd) false 4295 []
      = Done (INV_SUCCESS, c1) [] /\
      config_consistent c1 /\
      lsm303dlx_a_set_odr (quiet_platform ILP32) c1 false 1000000 []
      = Done (INV_SUCCESS, c2) [] /\
      dur c2 = 4295 /\ odr c2 = 1000000 /\ reg_dur c2 = 0 /\
      Z.min (dur c2 * odr c2 / 1000000) LSM303DLx_MAX_DUR = 0x7F /\
      ~ config_consistent c2) /\
  (exists pd c1 c2,
      lsm303dlx_a_init (quiet_platform LP64) true 2048 []
      = Done (INV_SUCCESS, Some pd) [] /\
      lsm303dlx_a_set_dur (quiet_platform LP64) (resume pd) false 4295 []
      = Done (INV_SUCCESS, c1) [] /\
      lsm303dlx_a_set_odr (quiet_platform LP64) c1 false 1000000 []
      = Done (INV_SUCCESS, c2) [] /\
      reg_dur c2 = 0x7F /\ config_consistent c2).
Proof.
  split.
  - eexists _, _, _.
    split; [vm_compute; reflexivity |].
    split; [vm_compute; repeat split; auto |].
    split; [vm_compute; reflexivity |].
    split; [vm_compute; repeat split; auto |].
    split; [vm_compute; reflexivity |].
    split; [reflexivity |]. split; [reflexivity |].
    split; [reflexivity |]. split; [reflexivity |].
    intros (_ & _ & _ & C). vm_compute in C. discriminate C.
  - eexists _, _, _.
    split; [vm_compute; reflexivity |].
    split; [vm_compute; reflexivity |].
    split; [vm_compute; reflexivity |].
    split; [reflexivity |].
    vm_compute; repeat split; auto.
Qed.


(** C6 as stated fails: a request of 99999 stores 100000, not 50000. *)
Lemma set_odr_99999_counterexample :
  (exists c',
      lsm303dlx_a_set_odr (quiet_platform ILP32) resume_defaults false 99999 []
      = Done (0, c') [] /\ odr c' = 100000 /\ odr c' <> 50000) /\
  (exists c',
      lsm303dlx_a_set_odr (quiet_platform LP64) resume_defaults false 99999 []
      = Done (0, c') [] /\ odr c' = 100000 /\ odr c' <> 50000).
Proof.
  split; eexists; (split; [vm_compute; reflexivity |]);
    split; [reflexivity | discriminate | reflexivity | discriminate].
Qed.

(** Instance of C6: the requests 99999 and 100001. *)
Lemma set_odr_monotone_witness :
  99999 <= 100001 /\
  exists r1 c1' h1' r2 c2' h2',
    lsm303dlx_a_set_odr (quiet_platform ILP32) resume_defaults false 99999 []
    = Done (r1, c1') h1' /\
    lsm303dlx_a_set_odr (quiet_platform ILP32) resume_defaults false 100001 []
    = Done (r2, c2') h2' /\
    odr c1' <= odr c2'.
Proof.
  assert (H : 99999 <= 100001) by lia.
  split; [exact H |].
  exact (proj1 (proj2 (set_odr_rate_set_and_monotone (quiet_platform ILP32)))
           resume_defaults false 99999 [] resume_defaults false 100001 [] H).
Defined.

(** Instance of C10: a request of 200000 on the zeroed configuration. *)
Lemma set_odr_frame_witness :
  exists c',
    final_config
      (lsm303dlx_a_set_odr (quiet_platform ILP32) zero_config false 200000 [])
    = Some c' /\
    odr c' = 400000 /\ ctrl_reg1 c' = 0x30.
Proof.
  assert (W : wf_config zero_config).
  { unfold wf_config, zero_config; fields.
    change (2 ^ 32) with 4294967296. lia. }
  destruct (set_odr_frame (quiet_platform ILP32) zero_config false 200000 [] W)
    as (r & c' & h' & E & _ & _ & _ & _ & X).
  destruct (X eq_refl eq_refl) as (O & _ & _ & C).
  exists c'. rewrite E. cbn [final_config]. auto.
Defined.

(** Instance of C2: the write of CTRL_REG4 reports the error 5. *)
Lemma resume_fail_fast_witness :
  lsm303dlx_a_resume (full_scale_error_platform ILP32)
    (mk_private_data suspend_defaults resume_defaults) []
  = Done 5 [EvWrite 0x19 LSM303DLx_CTRL_REG1 0x37; EvSleep 6;
            EvWrite 0x19 LSM303DLx_CTRL_REG4 0x40].
Proof.
  destruct (resume_fail_fast (full_scale_error_platform ILP32)
              (mk_private_data suspend_defaults resume_defaults) [])
    as (r & done & rest & E & _ & _ & _ & X).
  assert (W1 : inv_serial_single_write (full_scale_error_platform ILP32) []
                 (address (full_scale_error_platform ILP32))
                 LSM303DLx_CTRL_REG1
                 (ctrl_reg1
                    (resume (mk_private_data suspend_defaults resume_defaults)))
               = 0) by reflexivity.
  destruct (X W1) as (Hr & Hd & _).
  { vm_compute. discriminate. }
  rewrite E, Hr, Hd. reflexivity.
Defined.

(** Instance of C8: a request of 6000. *)
Lemma set_fsr_selects_range_witness :
  exists r c' h',
    lsm303dlx_a_set_fsr (quiet_platform ILP32) resume_defaults true 6000 []
    = Done (r, c') h' /\
    6000 <= fsr c' /\ fsr c' = 8192 /\
    h' = [EvWrite 0x19 LSM303DLx_INT1_THS (reg_ths c');
          EvWrite 0x19 LSM303DLx_CTRL_REG4 0x50].
Proof.
  destruct (set_fsr_selects_range (quiet_platform ILP32) resume_defaults true
              6000 [])
    as (r & c' & h' & E & _ & A & _ & B).
  assert (H : 6000 <= 8192) by lia.
  destruct (B eq_refl) as (F & G & _).
  exists r, c', h'. split; [exact E |]. split; [exact (A H) |].
  split; [exact F |]. exact (G eq_refl).
Defined.

(** Instances of C9: a status byte of 0x00, then one of 0x08. *)
Lemma read_checks_data_ready_witness :
  lsm303dlx_a_read (status_platform ILP32 0x00) lsm303dlx_a_descr
    [0; 0; 0; 0; 0; 0] []
  = Done (0x82, [0; 0; 0; 0; 0; 0]) [EvRead 0x19 LSM303DLx_STATUS_REG 1] /\
  lsm303dlx_a_read (status_platform ILP32 0x08) lsm303dlx_a_descr
    [0; 0; 0; 0; 0; 0] []
  = Done (0, [1; 2; 3; 4; 5; 6])
         [EvRead 0x19 LSM303DLx_STATUS_REG 1; EvRead 0x19 0xA8 6].
Proof.
  split.
  - destruct (read_checks_data_ready (status_platform ILP32 0x00)
                lsm303dlx_a_descr [0; 0; 0; 0; 0; 0] [])
      as (r & h' & E & _ & _ & _ & X).
    destruct (X eq_refl) as [Hr Hh]. rewrite E, Hr, Hh. reflexivity.
  - destruct (read_checks_data_ready (status_platform ILP32 0x08)
                lsm303dlx_a_descr [0; 0; 0; 0; 0; 0] [])
      as (r & h' & E & _ & X & _).
    destruct X as [Hr Hh]; [vm_compute; discriminate |].
    rewrite E, Hr, Hh. reflexivity.
Defined.

(** ** Further properties of the setters *)

Lemma set_ths_fault (P : platform) (c : lsm303dlx_a_config) (a : bool)
    (t : Z) (h : history) :
  lsm303dlx_a_set_ths P c a t h = Fault <-> fsr c = 0.
Proof.
  split.
  - intros F. destruct (Z.eq_dec (fsr c) 0) as [E | N]; [exact E |].
    destruct (long_uint_div_some (model P)
                (long_mul (model P) (ths_clamped (model P) (fsr c) t) 128)
                (fsr c) N) as [q Hq].
    destruct (set_ths_done P c a t h q Hq) as (r & h' & E & _).
    rewrite E in F. discriminate F.
  - intros E. unfold lsm303dlx_a_set_ths, long_uint_div.
    cbn [fsr set_ths_field]. rewrite E. reflexivity.
Qed.

(** X1.  A setter fails to return (it divides by zero) exactly when it is
    [set_ths] on a configuration whose [fsr] is 0; [set_fsr], which calls
    [set_ths], never does.  Otherwise a setter called without [apply]
    returns INV_SUCCESS and causes no bus event. *)
Theorem setters_fail_only_on_zero_range (P : platform) (s : setter)
    (c : lsm303dlx_a_config) (a : bool) (v : Z) (h : history) :
  (run_setter P s c a v h = Fault <-> s = SET_THS /\ fsr c = 0) /\
  (~ (s = SET_THS /\ fsr c = 0) ->
   exists c', run_setter P s c false v h = Done (INV_SUCCESS, c') h).
Proof.
  split.
  - destruct s; cbn [run_setter].
    + destruct (set_odr_done P c a v h) as (r & h' & E & _). rewrite E.
      split; [discriminate | intros [X _]; discriminate X].
    + destruct (set_fsr_done P c a v h) as (q & r & h' & _ & E & _).
      cbv zeta in E. rewrite E.
      split; [discriminate | intros [X _]; discriminate X].
    + rewrite set_ths_fault. tauto.
    + destruct (set_dur_done P c a v h) as (r & h' & E & _). rewrite E.
      split; [discriminate | intros [X _]; discriminate X].
    + destruct (set_irq_done P c a v h) as (r & h' & E & _). rewrite E.
      split; [discriminate | intros [X _]; discriminate X].
  - intros N. destruct s; cbn [run_setter].
    + destruct (set_odr_done P c false v h) as (r & h' & E & F).
      destruct (F eq_refl) as [-> ->]. eexists. exact E.
    + destruct (set_fsr_done P c false v h) as (q & r & h' & _ & E & F & _).
      destruct (F eq_refl) as [-> ->]. eexists. exact E.
    + assert (N' : fsr c <> 0) by tauto.
      destruct (long_uint_div_some (model P)
                  (long_mul (model P) (ths_clamped (model P) (fsr c) v) 128)
                  (fsr c) N') as [q Hq].
      destruct (set_ths_done P c false v h q Hq) as (r & h' & E & F).
      destruct (F eq_refl) as [-> ->]. eexists. exact E.
    + destruct (set_dur_done P c false v h) as (r & h' & E & F).
      destruct (F eq_refl) as [-> ->]. eexists. exact E.
    + destruct (set_irq_done P c false v h) as (r & h' & E & F).
      destruct (F eq_refl) as [-> ->]. eexists. exact E.
Qed.

(** The events and the status of each setter called with [apply]. *)
Lemma set_dur_applied (P : platform) (c : lsm303dlx_a_config) (d : Z)
    (h : history) :
  exists c',
    lsm303dlx_a_set_dur P c true d h
    = Done (inv_serial_single_write P h (address P) LSM303DLx_INT1_DURATION
              (reg_dur c'), c')
           (h ++ [EvWrite (address P) LSM303DLx_INT1_DURATION (reg_dur c')])
    /\ c' = set_reg_dur_field (set_dur_field c d)
              (dur_register (model P) (odr c) d).
Proof.
  exists (set_reg_dur_field (set_dur_field c d)
            (dur_register (model P) (odr c) d)).
  split; reflexivity.
Qed.

Lemma set_ths_applied (P : platform) (c : lsm303dlx_a_config) (t : Z)
    (h : history) :
  fsr c <> 0 ->
  exists c',
    lsm303dlx_a_set_ths P c true t h
    = Done (inv_serial_single_write P h (address P) LSM303DLx_INT1_THS
              (reg_ths c'), c')
           (h ++ [EvWrite (address P) LSM303DLx_INT1_THS (reg_ths c')]).
Proof.
  intros N.
  destruct (long_uint_div_some (model P)
              (long_mul (model P) (ths_clamped (model P) (fsr c) t) 128)
              (fsr c) N) as [q Hq].
  exists (set_reg_ths_field
            (set_ths_field c (ths_clamped (model P) (fsr c) t))
            (to_long (model P) q)).
  unfold lsm303dlx_a_set_ths.
  change (if (if to_uint t >=? fsr c
              then long_sub (model P) (to_long (model P) (fsr c)) 1 else t) <? 0
          then 0
          else if to_uint t >=? fsr c
               then long_sub (model P) (to_long (model P) (fsr c)) 1 else t)
    with (ths_clamped (model P) (fsr c) t).
  cbn [fsr set_ths_field]. rewrite Hq. reflexivity.
Qed.

Lemma set_irq_applied (P : platform) (c : lsm303dlx_a_config) (v : Z)
    (h : history) :
  let bytes :=
    if v =? MPU_SLAVE_IRQ_TYPE_DATA_READY P then (0x02, 0x00)
    else if v =? MPU_SLAVE_IRQ_TYPE_MOTION P then (0x00, mot_int1_cfg c)
    else (0x00, 0x00) in
  let e1 := EvWrite (address P) LSM303DLx_CTRL_REG3 (fst bytes) in
  lsm303dlx_a_set_irq P c true v h
  = Done (inv_serial_single_write P (h ++ [e1]) (address P)
            LSM303DLx_INT1_CFG (snd bytes), set_irq_type_field c v)
         (h ++ [e1; EvWrite (address P) LSM303DLx_INT1_CFG (snd bytes)]).
Proof.
  cbv zeta. unfold lsm303dlx_a_set_irq.
  destruct (v =? MPU_SLAVE_IRQ_TYPE_DATA_READY P);
    [| destruct (v =? MPU_SLAVE_IRQ_TYPE_MOTION P)];
    cbn [fst snd mot_int1_cfg set_irq_type_field];
    unfold bind, single_write, ret; rewrite <- app_assoc; reflexivity.
Qed.

Lemma set_odr_applied (P : platform) (c : lsm303dlx_a_config) (v : Z)
    (h : history) :
  exists c',
    let e1 := EvWrite (address P) LSM303DLx_INT1_DURATION (reg_dur c') in
    lsm303dlx_a_set_odr P c true v h
    = Done (inv_serial_single_write P (h ++ [e1]) (address P)
              LSM303DLx_CTRL_REG1 (ctrl_reg1 c'), c')
           (h ++ [e1; EvWrite (address P) LSM303DLx_CTRL_REG1 (ctrl_reg1 c')]).
Proof.
  unfold lsm303dlx_a_set_odr, bind.
  repeat match goal with
         | |- context [if ?b then _ else _] =>
             match b with
             | (v >? _) => destruct b
             end
         end;
    match goal with
    | |- context [lsm303dlx_a_set_dur P ?c1 true ?d h] =>
        destruct (set_dur_applied P c1 d h) as (c' & E & _); rewrite E
    end;
    exists c'; cbv zeta; unfold single_write, ret;
    rewrite <- app_assoc; reflexivity.
Qed.

Lemma set_fsr_applied (P : platform) (c : lsm303dlx_a_config) (v : Z)
    (h : history) :
  exists c',
    let e1 := EvWrite (address P) LSM303DLx_INT1_THS (reg_ths c') in
    lsm303dlx_a_set_fsr P c true v h
    = Done (inv_serial_single_write P (h ++ [e1]) (address P)
              LSM303DLx_CTRL_REG4 (set_fsr_byte v), c')
           (h ++ [e1; EvWrite (address P) LSM303DLx_CTRL_REG4 (set_fsr_byte v)]).
Proof.
  unfold lsm303dlx_a_set_fsr, set_fsr_byte, bind.
  destruct (v <=? 2048); [| destruct (v <=? 4096)];
    match goal with
    | |- context [lsm303dlx_a_set_ths P ?c1 true ?t h] =>
        destruct (set_ths_applied P c1 t h) as (c2 & E2);
        [cbn [fsr set_fsr_field]; discriminate |]; rewrite E2
    end;
    exists c2; cbv zeta; unfold single_write, ret;
    rewrite <- app_assoc; reflexivity.
Qed.

(** X2.  A setter called with [apply] returns the status of its last
    register write alone.  [set_odr] writes INT1_DURATION and then
    CTRL_REG1, [set_fsr] writes INT1_THS and then CTRL_REG4, [set_irq]
    writes CTRL_REG3 and then INT1_CFG; in each the status of the first
    write is dropped, so that an error of the first write alone is not
    reported. *)
Theorem applied_setters_report_last_write (P : platform)
    (c : lsm303dlx_a_config) (v : Z) (h : history) :
  let a := address P in
  let w := inv_serial_single_write P in
  (exists c',
      let e1 := EvWrite a LSM303DLx_INT1_DURATION (reg_dur c') in
      lsm303dlx_a_set_odr P c true v h
      = Done (w (h ++ [e1]) a LSM303DLx_CTRL_REG1 (ctrl_reg1 c'), c')
             (h ++ [e1; EvWrite a LSM303DLx_CTRL_REG1 (ctrl_reg1 c')])) /\
  (exists c',
      let e1 := EvWrite a LSM303DLx_INT1_THS (reg_ths c') in
      lsm303dlx_a_set_fsr P c true v h
      = Done (w (h ++ [e1]) a LSM303DLx_CTRL_REG4 (set_fsr_byte v), c')
             (h ++ [e1; EvWrite a LSM303DLx_CTRL_REG4 (set_fsr_byte v)])) /\
  (exists byte1 byte2,
      let e1 := EvWrite a LSM303DLx_CTRL_REG3 byte1 in
      lsm303dlx_a_set_irq P c true v h
      = Done (w (h ++ [e1]) a LSM303DLx_INT1_CFG byte2,
              set_irq_type_field c v)
             (h ++ [e1; EvWrite a LSM303DLx_INT1_CFG byte2])).
Proof.
  cbv zeta. split; [| split].
  - apply set_odr_applied.
  - apply set_fsr_applied.
  - do 2 eexists. apply set_irq_applied.
Qed.

(** X3.  What a setter other than [set_fsr] writes at once is what resume
    and suspend write later.  Called with [apply], [set_odr], [set_ths],
    [set_dur] and [set_irq] (for a request that fits [unsigned char]) cause
    register writes that are all among the writes of the resume sequence,
    and of the suspend sequence, for the configuration they return. *)
Theorem applied_writes_match_transitions (P : platform) (s : setter)
    (c other : lsm303dlx_a_config) (v : Z) (h : history) :
  s <> SET_FSR ->
  (s = SET_THS -> fsr c <> 0) ->
  (s = SET_IRQ -> 0 <= v < 256) ->
  exists r c' evs,
    run_setter P s c true v h = Done (r, c') (h ++ evs) /\
    evs <> [] /\
    forall e, In e evs ->
      In e (resume_events P (mk_private_data other c')) /\
      In e (suspend_writes P (mk_private_data c' other)).
Proof.
  intros NF NT NI. destruct s; cbn [run_setter]; try contradiction.
  - destruct (set_odr_applied P c v h) as (c' & E). cbv zeta in E.
    eexists _, c', _. split; [exact E |]. split; [discriminate |].
    intros e [<- | [<- | []]]; unfold resume_events, suspend_writes;
      cbn [resume suspend In]; tauto.
  - destruct (set_ths_applied P c v h (NT eq_refl)) as (c' & E).
    eexists _, c', _. split; [exact E |]. split; [discriminate |].
    intros e [<- | []]; unfold resume_events, suspend_writes;
      cbn [resume suspend In]; tauto.
  - destruct (set_dur_applied P c v h) as (c' & E & _).
    eexists _, c', _. split; [exact E |]. split; [discriminate |].
    intros e [<- | []]; unfold resume_events, suspend_writes;
      cbn [resume suspend In]; tauto.
  - pose proof (set_irq_applied P c v h) as E. cbv zeta in E.
    eexists _, _, _. split; [exact E |]. split; [discriminate |].
    assert (B : interrupt_bytes P (set_irq_type_field c v)
                = if v =? MPU_SLAVE_IRQ_TYPE_DATA_READY P then (0x02, 0x00)
                  else if v =? MPU_SLAVE_IRQ_TYPE_MOTION P
                       then (0x00, mot_int1_cfg c)
                  else (0x00, 0x00)).
    { unfold interrupt_bytes. cbn [irq_type mot_int1_cfg set_irq_type_field].
      rewrite to_uchar_small by exact (NI eq_refl). reflexivity. }
    intros e [<- | [<- | []]]; unfold resume_events, suspend_writes;
      cbn [resume suspend]; rewrite B; cbn [In]; tauto.
Qed.

(** X4.  [set_irq] tests the request as a [long] and stores it as an
    [unsigned char].  A request that differs from DATA_READY and from MOTION
    but has the low eight bits of DATA_READY is stored as DATA_READY, while
    the bytes written at once are those of NONE (0 and 0); resume then
    writes the byte 2 of DATA_READY to CTRL_REG3. *)
Theorem set_irq_wide_request (P : platform) (c : lsm303dlx_a_config)
    (v : Z) (h : history) :
  0 <= MPU_SLAVE_IRQ_TYPE_DATA_READY P < 256 ->
  to_uchar v = MPU_SLAVE_IRQ_TYPE_DATA_READY P ->
  v <> MPU_SLAVE_IRQ_TYPE_DATA_READY P ->
  v <> MPU_SLAVE_IRQ_TYPE_MOTION P ->
  exists r c',
    lsm303dlx_a_set_irq P c true v h
    = Done (r, c')
           (h ++ [EvWrite (address P) LSM303DLx_CTRL_REG3 0;
                  EvWrite (address P) LSM303DLx_INT1_CFG 0]) /\
    irq_type c' = MPU_SLAVE_IRQ_TYPE_DATA_READY P /\
    interrupt_bytes P c' = (0x02, 0x00).
Proof.
  intros R T N1 N2.
  pose proof (set_irq_applied P c v h) as E. cbv zeta in E.
  destruct (Z.eqb_spec v (MPU_SLAVE_IRQ_TYPE_DATA_READY P)); [contradiction |].
  destruct (Z.eqb_spec v (MPU_SLAVE_IRQ_TYPE_MOTION P)); [contradiction |].
  cbn [fst snd] in E.
  eexists _, _. split; [exact E |].
  unfold interrupt_bytes. cbn [irq_type set_irq_type_field].
  rewrite T, Z.eqb_refl. split; reflexivity.
Qed.

(** ** Idempotence and the re-derived fields *)

Lemma to_long_of_uint_cases (m : data_model) (x : Z) :
  0 <= x < 2 ^ 32 ->
  to_long m x = x \/ (to_long m x = x - 2 ^ 32 /\ 2 ^ 31 <= x).
Proof.
  intros H. change (2 ^ 32) with 4294967296 in *.
  change (2 ^ 31) with 2147483648.
  destruct m.
  - unfold to_long, wrap_signed, long_bits.
    change (2 ^ 32) with 4294967296. change (2 ^ (32 - 1)) with 2147483648.
    rewrite Z.mod_small by lia.
    destruct (Z.ltb_spec x 2147483648); [left; reflexivity | right; lia].
  - left. apply to_long_small. unfold in_long, long_bits.
    change (2 ^ (64 - 1)) with 9223372036854775808. lia.
Qed.

Lemma ths_clamped_of_uint (m : data_model) (f x : Z) :
  In f [2048; 4096; 8192] -> 0 <= x < 2 ^ 32 ->
  to_uint (ths_clamped m f (to_long m x)) = Z.min x (f - 1).
Proof.
  intros Hf Hx.
  assert (Hf' : f = 2048 \/ f = 4096 \/ f = 8192) by (simpl in Hf; intuition lia).
  destruct (ths_clamped_cases m f (to_long m x) Hf (to_long_in_long m x)
              (to_long_of_uint_bound m x Hx)) as (_ & R & _ & D).
  pose proof (to_long_of_uint m x Hx) as U. unfold to_uint, wrap_unsigned in U.
  rewrite U in D.
  unfold to_uint, wrap_unsigned.
  change (2 ^ 56) with 72057594037927936 in R.
  change (2 ^ 32) with 4294967296 in *.
  destruct D as [[D1 D2] | [[D1 [D2 D3]] | [D1 [D2 D3]]]].
  - rewrite D1. rewrite Z.mod_small; lia.
  - rewrite D1. destruct (to_long_of_uint_cases m x) as [L | [L1 L2]];
      change (2 ^ 32) with 4294967296 in *;
      change (2 ^ 31) with 2147483648 in *; lia.
  - rewrite D1, U. lia.
Qed.

(** X5.  When the range changes, [set_fsr] keeps the stored threshold if
    it is below the new range and replaces it by the new range minus 1
    otherwise; it derives [reg_ths] from the result and leaves the rate, the
    duration, their registers and the interrupt fields as they were. *)
Theorem set_fsr_clamps_threshold (P : platform) (c : lsm303dlx_a_config)
    (a : bool) (v : Z) (h : history) :
  0 <= ths c < 2 ^ 32 ->
  exists r c' h',
    lsm303dlx_a_set_fsr P c a v h = Done (r, c') h' /\
    fsr c' = selected_fsr v /\
    ths c' = Z.min (ths c) (selected_fsr v - 1) /\
    reg_ths c' = ths c' * 128 / fsr c' /\
    odr c' = odr c /\ dur c' = dur c /\ reg_dur c' = reg_dur c /\
    ctrl_reg1 c' = ctrl_reg1 c /\ irq_type c' = irq_type c /\
    mot_int1_cfg c' = mot_int1_cfg c.
Proof.
  intros W.
  destruct (set_fsr_done P c a v h) as (q & r & h' & Hq & E & _).
  assert (F : In (selected_fsr v) [2048; 4096; 8192]).
  { simpl. destruct (selected_fsr_cases v) as [X | [X | X]]; rewrite X; auto. }
  destruct (ths_fields_consistent (model P) (selected_fsr v)
              (to_long (model P) (ths c)) q F
              (to_long_in_long _ _) (to_long_of_uint_bound _ _ W) Hq)
    as [A B].
  eexists r, _, h'. split; [exact E |]. fields.
  rewrite to_uint_selected_fsr.
  split; [reflexivity |].
  split; [apply ths_clamped_of_uint; assumption |].
  split; [exact B |].
  repeat split; reflexivity.
Qed.

(** X6.  [set_fsr] is idempotent: the same request a second time returns
    the configuration of the first call, with or without [apply]. *)
Theorem set_fsr_idempotent (P : platform) (c : lsm303dlx_a_config)
    (a1 a2 : bool) (v : Z) (h1 h2 : history) :
  0 <= ths c < 2 ^ 32 ->
  exists r1 c' h1' r2 h2',
    lsm303dlx_a_set_fsr P c a1 v h1 = Done (r1, c') h1' /\
    lsm303dlx_a_set_fsr P c' a2 v h2 = Done (r2, c') h2'.
Proof.
  intros W.
  destruct (set_fsr_done P c a1 v h1) as (q & r1 & h1' & Hq & E & _).
  cbv zeta in E.
  assert (F : In (selected_fsr v) [2048; 4096; 8192]).
  { simpl. destruct (selected_fsr_cases v) as [X | [X | X]]; rewrite X; auto. }
  destruct (ths_fields_consistent (model P) (selected_fsr v)
              (to_long (model P) (ths c)) q F
              (to_long_in_long _ _) (to_long_of_uint_bound _ _ W) Hq)
    as [A B].
  pose proof (ths_clamped_of_uint (model P) (selected_fsr v) (ths c) F W) as T.
  set (c' := set_reg_ths_field
               (set_ths_field (set_fsr_field c (selected_fsr v))
                  (ths_clamped (model P) (selected_fsr v)
                     (to_long (model P) (ths c))))
               (to_long (model P) q)) in *.
  assert (W' : 0 <= ths c' < 2 ^ 32) by (unfold c'; fields; apply to_uint_range).
  destruct (set_fsr_done P c' a2 v h2) as (q2 & r2 & h2' & Hq2 & E2 & _).
  cbv zeta in E2.
  destruct (ths_fields_consistent (model P) (selected_fsr v)
              (to_long (model P) (ths c')) q2 F
              (to_long_in_long _ _) (to_long_of_uint_bound _ _ W') Hq2)
    as [A2 B2].
  pose proof (ths_clamped_of_uint (model P) (selected_fsr v) (ths c') F W')
    as T2.
  exists r1, c', h1', r2, h2'. split; [exact E |].
  rewrite E2. f_equal. f_equal.
  assert (S : ths c' = Z.min (ths c) (selected_fsr v - 1)) by exact T.
  assert (U : to_uint (ths_clamped (model P) (selected_fsr v)
                         (to_long (model P) (ths c')))
              = to_uint (ths_clamped (model P) (selected_fsr v)
                           (to_long (model P) (ths c)))).
  { rewrite T2, T, S. lia. }
  assert (Q : to_uchar (to_long (model P) q2) = to_uchar (to_long (model P) q)).
  { rewrite B2, B, U. reflexivity. }
  unfold set_reg_ths_field, set_ths_field, set_fsr_field. fields.
  rewrite Q, U.
  unfold c', set_reg_ths_field, set_ths_field, set_fsr_field. fields.
  reflexivity.
Qed.

(** X7.  [set_odr] is idempotent: the same request a second time returns
    the configuration of the first call, with or without [apply]; the low
    three bits of [ctrl_reg1] and the stored duration are kept both times. *)
Theorem set_odr_idempotent (P : platform) (c : lsm303dlx_a_config)
    (a1 a2 : bool) (v : Z) (h1 h2 : history) :
  0 <= dur c < 2 ^ 32 ->
  exists r1 c' h1' r2 h2',
    lsm303dlx_a_set_odr P c a1 v h1 = Done (r1, c') h1' /\
    lsm303dlx_a_set_odr P c' a2 v h2 = Done (r2, c') h2'.
Proof.
  intros W.
  destruct (set_odr_done P c a1 v h1) as (r1 & h1' & E1 & _).
  set (c' := set_reg_dur_field
               (set_dur_field
                  (set_ctrl_reg1_field (set_odr_field c (selected_odr v))
                     (Z.lor (selected_rate_bits v) (Z.land (ctrl_reg1 c) 7)))
                  (to_long (model P) (dur c)))
               (dur_register (model P) (to_uint (selected_odr v))
                  (to_long (model P) (dur c)))) in *.
  destruct (set_odr_done P c' a2 v h2) as (r2 & h2' & E2 & _).
  exists r1, c', h1', r2, h2'. split; [exact E1 |].
  rewrite E2. f_equal. f_equal.
  destruct (rate_bits_lor _ (ctrl_reg1 c) (selected_rate_bits_ok v))
    as (L1 & L2 & _).
  assert (D : dur c' = dur c).
  { unfold c'; fields. apply to_long_of_uint. exact W. }
  assert (C : Z.land (ctrl_reg1 c') 7 = Z.land (ctrl_reg1 c) 7).
  { unfold c'; fields. rewrite L1. exact L2. }
  unfold set_reg_dur_field, set_dur_field, set_ctrl_reg1_field,
    set_odr_field. fields.
  rewrite D, C.
  unfold c', set_reg_dur_field, set_dur_field, set_ctrl_reg1_field,
    set_odr_field. fields.
  reflexivity.
Qed.

(** ** Bounds of the duration register *)

Lemma dur_register_range (m : data_model) (o d : Z) :
  0 <= o < 2 ^ 32 ->
  m = ILP32 \/ 0 <= d < 2 ^ 31 ->
  0 <= to_uchar (dur_register m o d) <= LSM303DLx_MAX_DUR.
Proof.
  intros Ho Hd. unfold dur_register.
  assert (Q : exists p, 0 <= p /\
                to_long m (mixed_div_long m (long_uint_mul m d o) 1000000)
                = p / 1000000).
  { destruct m.
    - exists (long_uint_mul ILP32 d o).
      assert (R : 0 <= long_uint_mul ILP32 d o < 2 ^ 32).
      { unfold long_uint_mul, to_ulong, wrap_unsigned, long_bits.
        apply Z.mod_pos_bound. reflexivity. }
      split; [lia |]. apply dur_quotient_exact. exact R.
    - destruct Hd as [Hd | Hd]; [discriminate Hd |].
      exists (d * o).
      change (2 ^ 31) with 2147483648 in Hd.
      change (2 ^ 32) with 4294967296 in Ho.
      assert (R : 0 <= d * o < 9223372036854775808) by nia.
      split; [lia |]. unfold long_uint_mul, mixed_div_long.
      rewrite (to_long_small LP64 (d * o)).
      + rewrite Z.quot_div_nonneg by lia. apply to_long_small.
        unfold in_long, long_bits.
        change (2 ^ (64 - 1)) with 9223372036854775808.
        assert (0 <= d * o / 1000000 < 9223372036854775808).
        { split; [apply Z.div_pos; lia | apply Z.div_lt_upper_bound; lia]. }
        lia.
      + unfold in_long, long_bits.
        change (2 ^ (64 - 1)) with 9223372036854775808. lia. }
  destruct Q as (p & Hp & E). rewrite E, clamp_is_min.
  assert (0 <= p / 1000000) by (apply Z.div_pos; lia).
  rewrite to_uchar_small; unfold LSM303DLx_MAX_DUR; lia.
Qed.

(** X8.  Where [long] has 32 bits the duration register that [set_dur]
    stores is at most 0x7F for every request, also a negative one and one
    whose product with the rate wraps; where it has 64 bits this holds for
    every request from 0 to [2 ^ 31 - 1]. *)
Theorem set_dur_register_bound (P : platform) (c : lsm303dlx_a_config)
    (a : bool) (d : Z) (h : history) :
  0 <= odr c < 2 ^ 32 ->
  model P = ILP32 \/ 0 <= d < 2 ^ 31 ->
  exists r c' h',
    lsm303dlx_a_set_dur P c a d h = Done (r, c') h' /\
    0 <= reg_dur c' <= LSM303DLx_MAX_DUR /\
    LSM303DLx_MAX_DUR = 0x7F.
Proof.
  intros Ho Hd.
  destruct (set_dur_done P c a d h) as (r & h' & E & _).
  eexists r, _, h'. split; [exact E |]. fields.
  split; [| reflexivity].
  apply dur_register_range; assumption.
Qed.

(** ** Initialization, exactly *)

(** X9.  Initialization never touches the bus.  When the allocation fails
    it returns INV_ERROR_MEMORY_EXAUSTED and no private data.  Otherwise it
    returns INV_SUCCESS and, for the range [F] selected for the nominal
    range: suspend with rate 0, threshold 80 mg, duration 1000 ms and
    [ctrl_reg1 = 0x07]; resume with rate 400000 mHz, threshold 40 mg,
    duration 2540 ms, [reg_dur = 0x7F] and [ctrl_reg1 = 0x37]; both with the
    range [F], [reg_ths = ths * 128 / F] and the interrupt type NONE. *)
Theorem init_defaults_for_range (P : platform) (range : Z) (h : history) :
  let F := selected_fsr range in
  let none := to_uchar (MPU_SLAVE_IRQ_TYPE_NONE P) in
  lsm303dlx_a_init P false range h
  = Done (INV_ERROR_MEMORY_EXAUSTED P, None) h /\
  lsm303dlx_a_init P true range h
  = Done (INV_SUCCESS,
          Some (mk_private_data
                  (mk_config 0 F 80 1000 (80 * 128 / F) 0 0x07 none 0x2a)
                  (mk_config 400000 F 40 2540 (40 * 128 / F) 0x7F 0x37 none
                     0x95)))
         h.
Proof.
  cbv zeta. split; [reflexivity |].
  destruct P as [m a w r n mo dr e1 e2].
  unfold lsm303dlx_a_init, lsm303dlx_a_set_fsr, lsm303dlx_a_set_irq,
    selected_fsr.
  cbn [negb MPU_SLAVE_IRQ_TYPE_NONE MPU_SLAVE_IRQ_TYPE_MOTION
       MPU_SLAVE_IRQ_TYPE_DATA_READY].
  destruct (n =? dr); [| destruct (n =? mo)];
    (destruct (range <=? 2048); [| destruct (range <=? 4096)]);
    destruct m; cbv - [to_uchar]; reflexivity.
Qed.

(** ** Resume, when it succeeds *)

(** X10.  [lsm303dlx_a_resume] returns 0 exactly when each of its seven
    register writes and its final read of HP_FILTER_RESET reports 0; it has
    then issued the whole resume sequence: CTRL_REG1, a sleep of 6 ms,
    CTRL_REG4, CTRL_REG2, CTRL_REG3, INT1_THS, INT1_DURATION, INT1_CFG and
    the read. *)
Theorem resume_succeeds_iff_all_steps (P : platform)
    (pd : lsm303dlx_a_private_data) (h : history) :
  let buffer := [fst (interrupt_bytes P (resume pd))] in
  ((exists h', lsm303dlx_a_resume P pd h = Done 0 h') <->
   all_succeed P buffer h (resume_events P pd)) /\
  (forall h', lsm303dlx_a_resume P pd h = Done 0 h' ->
              h' = h ++ resume_events P pd).
Proof.
  cbv zeta. unfold lsm303dlx_a_resume, resume_events.
  change (if fsr (resume pd) =? 8192 then Z.lor 0x40 0x30
          else if fsr (resume pd) =? 4096 then Z.lor 0x40 0x10 else 0x40)
    with (full_scale_byte (resume pd)).
  change (if irq_type (resume pd) =? MPU_SLAVE_IRQ_TYPE_DATA_READY P
          then (0x02, 0x00)
          else if irq_type (resume pd) =? MPU_SLAVE_IRQ_TYPE_MOTION P
               then (0x00, mot_int1_cfg (resume pd)) else (0x00, 0x00))
    with (interrupt_bytes P (resume pd)).
  destruct (interrupt_bytes P (resume pd)) as [reg1 reg2].
  cbn [fst snd all_succeed step_status].
  unfold bind, single_write, msleep, serial_read, ret.
  repeat match goal with
         | |- context [negb (?x =? 0)] =>
             destruct (Z.eqb_spec x 0); cbn [negb]
         | |- context [inv_serial_read P ?H ?a ?b ?c ?d] =>
             let R := fresh "R" in
             destruct (inv_serial_read P H a b c d) as [? ?] eqn:R;
             cbn [fst]
         end;
    (split;
     [split;
      [intros [h' Eq]; injection Eq as Er Eh; try contradiction;
       repeat split; solve [assumption | reflexivity | congruence]
      | intros A; try (exfalso; tauto);
        eexists; repeat f_equal; tauto]
     | intros h' Eq; injection Eq as Er Eh; try contradiction;
       subst h'; flatten_history; reflexivity]).
Qed.

(** ** Configuration requests *)

Ltac key_facts :=
  repeat match goal with
         | H : NoDup (_ :: _) |- _ => inversion H; clear H; subst
         | H : NoDup [] |- _ => clear H
         end;
  repeat match goal with
         | H : ~ In _ _ |- _ => cbn [In] in H
         end;
  repeat match goal with
         | H : ~ (_ \/ _) |- _ =>
             apply Decidable.not_or in H; destruct H
         | H : ~ False |- _ => clear H
         end.

Ltac key_tests :=
  repeat match goal with
         | |- context [?a =? ?b] =>
             destruct (Z.eqb_spec a b);
             [try (exfalso; congruence) |]
         end.

Lemma config_entry_dispatch (K : slave_config_keys) (P : platform)
    (pd : lsm303dlx_a_private_data) (s : power_state) (f : setter)
    (a : bool) (v : Z) :
  NoDup (config_keys K) ->
  lsm303dlx_a_config_entry K P pd (mk_slave_config (key_of K s f) a (Some v))
  = match s with
    | SUSPEND => on_suspend pd (fun c => run_setter P f c a v)
    | RESUME => on_resume pd (fun c => run_setter P f c a v)
    end.
Proof.
  intros D. unfold config_keys in D. key_facts.
  unfold lsm303dlx_a_config_entry. cbn [key apply data].
  destruct s, f; cbn [key_of run_setter]; key_tests;
    try reflexivity; try contradiction.
Qed.

Lemma get_config_dispatch (K : slave_config_keys) (P : platform)
    (pd : lsm303dlx_a_private_data) (s : power_state) (f : setter)
    (a : bool) (old : Z) :
  NoDup (config_keys K) ->
  lsm303dlx_a_get_config K P pd
    (mk_slave_config (key_of K s f) a (Some old))
  = (INV_SUCCESS, Some (to_ulong (model P) (field_of f (config_of s pd)))).
Proof.
  intros D. unfold config_keys in D. key_facts.
  unfold lsm303dlx_a_get_config. cbn [key apply data].
  destruct s, f; cbn [key_of field_of config_of]; key_tests;
    try reflexivity; try contradiction.
Qed.

(** X11.  A request with a null data pointer is refused with
    INV_ERROR_INVALID_PARAMETER, and a request whose key is none of the ten
    keys with INV_ERROR_FEATURE_NOT_IMPLEMENTED, by [lsm303dlx_a_config] as
    by [lsm303dlx_a_get_config]: no configuration changes, no bus event is
    caused and the value that the pointer designates is left as it was. *)
Theorem config_refuses_bad_requests (K : slave_config_keys) (P : platform)
    (pd : lsm303dlx_a_private_data) (request : ext_slave_config)
    (h : history) :
  (data request = None ->
   lsm303dlx_a_config_entry K P pd request h
   = Done (INV_ERROR_INVALID_PARAMETER K, pd) h /\
   lsm303dlx_a_get_config K P pd request
   = (INV_ERROR_INVALID_PARAMETER K, None)) /\
  (forall v,
      data request = Some v -> ~ In (key request) (config_keys K) ->
      lsm303dlx_a_config_entry K P pd request h
      = Done (INV_ERROR_FEATURE_NOT_IMPLEMENTED K, pd) h /\
      lsm303dlx_a_get_config K P pd request
      = (INV_ERROR_FEATURE_NOT_IMPLEMENTED K, Some v)).
Proof.
  split.
  - intros E. unfold lsm303dlx_a_config_entry, lsm303dlx_a_get_config.
    rewrite E. split; reflexivity.
  - intros v E N. unfold lsm303dlx_a_config_entry, lsm303dlx_a_get_config.
    rewrite E. unfold config_keys in N. cbn [In] in N.
    repeat match goal with
           | |- context [?a =? ?b] =>
               destruct (Z.eqb_spec a b);
               [exfalso; apply N; intuition congruence |]
           end.
    split; reflexivity.
Qed.

(** X12.  A request with the key of a setter and a power state is handed
    to that setter on the configuration of that power state, with the
    [apply] flag and the value of the request; its status is returned and
    the configuration of the other power state is left as it was.  (MOT_THS
    and MOT_DUR address suspend, NMOT_THS and NMOT_DUR address resume.) *)
Theorem config_dispatches_to_setter (K : slave_config_keys) (P : platform)
    (pd : lsm303dlx_a_private_data) (s : power_state) (f : setter)
    (a : bool) (v : Z) (h : history) :
  NoDup (config_keys K) ->
  match run_setter P f (config_of s pd) a v h with
  | Done (r, c') h' =>
      exists pd',
        lsm303dlx_a_config_entry K P pd
          (mk_slave_config (key_of K s f) a (Some v)) h
        = Done (r, pd') h' /\
        config_of s pd' = c' /\
        config_of (peer s) pd' = config_of (peer s) pd
  | Fault =>
      lsm303dlx_a_config_entry K P pd
        (mk_slave_config (key_of K s f) a (Some v)) h
      = Fault
  end.
Proof.
  intros D. rewrite (config_entry_dispatch K P pd s f a v D).
  destruct s; unfold on_suspend, on_resume, bind, ret; cbn [config_of];
    destruct (run_setter P f _ a v h) as [[r c'] h' |];
    try reflexivity; eexists; repeat split.
Qed.

Lemma setter_stores_as_is (P : platform) (f : setter)
    (c : lsm303dlx_a_config) (a : bool) (v : Z) (h : history) :
  stored_as_is f c v ->
  exists r c' h',
    run_setter P f c a v h = Done (r, c') h' /\ field_of f c' = v.
Proof.
  intros S. destruct f; cbn [run_setter field_of stored_as_is] in *.
  - destruct (set_odr_stores P c a v h) as (r & c' & h' & E & O & _).
    exists r, c', h'. split; [exact E |]. rewrite O.
    unfold supported_rates in S. cbn [In] in S.
    repeat match goal with
           | H : _ \/ _ |- _ => destruct H as [H | H]
           end; try contradiction; subst v; reflexivity.
  - destruct (set_fsr_done P c a v h) as (q & r & h' & _ & E & _).
    eexists r, _, h'. split; [exact E |]. fields.
    rewrite to_uint_selected_fsr. cbn [In] in S.
    repeat match goal with
           | H : _ \/ _ |- _ => destruct H as [H | H]
           end; try contradiction; subst v; reflexivity.
  - destruct S as [F R].
    assert (F' : fsr c = 2048 \/ fsr c = 4096 \/ fsr c = 8192)
      by (simpl in F; intuition lia).
    destruct (set_ths_stores P c a v h F) as (r & c' & h' & E & T & _).
    { change (2 ^ 31) with 2147483648. lia. }
    exists r, c', h'. split; [exact E |]. rewrite T.
    destruct (Z.leb_spec 0 v); lia.
  - destruct (set_dur_done P c a v h) as (r & h' & E & _).
    eexists r, _, h'. split; [exact E |]. fields.
    apply to_uint_small. exact S.
  - destruct (set_irq_done P c a v h) as (r & h' & E & _).
    eexists r, _, h'. split; [exact E |]. fields.
    apply to_uchar_small. exact S.
Qed.

Lemma stored_as_is_range (f : setter) (c : lsm303dlx_a_config) (v : Z) :
  stored_as_is f c v -> 0 <= v < 2 ^ 32.
Proof.
  change (2 ^ 32) with 4294967296.
  destruct f; cbn [stored_as_is]; unfold supported_rates; cbn [In];
    intros S; lia.
Qed.

Lemma to_ulong_small (m : data_model) (v : Z) :
  0 <= v < 2 ^ 32 -> to_ulong m v = v.
Proof.
  intros H. change (2 ^ 32) with 4294967296 in H.
  unfold to_ulong, wrap_unsigned. apply Z.mod_small.
  destruct m; unfold long_bits;
    [change (2 ^ 32) with 4294967296
    | change (2 ^ 64) with 18446744073709551616]; lia.
Qed.

(** X13.  A value that a setter stores as it is reads back: after
    [lsm303dlx_a_config] with the key of a setter and a supported rate, a
    supported range, a threshold below the range, a duration from 0 to
    [2 ^ 32 - 1] or an interrupt type from 0 to 255,
    [lsm303dlx_a_get_config] with the same key succeeds and returns that
    value. *)
Theorem config_then_get_config (K : slave_config_keys) (P : platform)
    (pd : lsm303dlx_a_private_data) (s : power_state) (f : setter)
    (a a' : bool) (v old : Z) (h : history) :
  NoDup (config_keys K) ->
  stored_as_is f (config_of s pd) v ->
  exists r pd' h',
    lsm303dlx_a_config_entry K P pd
      (mk_slave_config (key_of K s f) a (Some v)) h
    = Done (r, pd') h' /\
    lsm303dlx_a_get_config K P pd'
      (mk_slave_config (key_of K s f) a' (Some old))
    = (INV_SUCCESS, Some v).
Proof.
  intros D S.
  destruct (setter_stores_as_is P f (config_of s pd) a v h S)
    as (r & c' & h' & E & V).
  rewrite (config_entry_dispatch K P pd s f a v D).
  destruct s; unfold on_suspend, on_resume, bind, ret; cbn [config_of] in *;
    rewrite E; eexists r, _, h'; (split; [reflexivity |]);
    rewrite (get_config_dispatch K P _ _ f a' old D); cbn [config_of suspend resume];
    rewrite V, (to_ulong_small _ v (stored_as_is_range f _ v S)); reflexivity.
Qed.

Lemma run_setter_preserves (P : platform) (f : setter)
    (c : lsm303dlx_a_config) (a : bool) (v : Z) (h : history) :
  wf_config c -> config_consistent c -> request_ok P f c v ->
  exists r c' h',
    run_setter P f c a v h = Done (r, c') h' /\
    wf_config c' /\ config_consistent c'.
Proof.
  intros W C R. destruct f; cbn [run_setter request_ok] in *.
  - apply set_odr_preserves; assumption.
  - apply set_fsr_preserves; assumption.
  - destruct R as [R1 R2]. apply set_ths_preserves; assumption.
  - destruct R as [R1 R2]. apply set_dur_preserves; assumption.
  - apply set_irq_preserves; assumption.
Qed.

(** X14.  [lsm303dlx_a_config] keeps both configurations well formed and
    consistent ([reg_ths = ths * 128 / fsr],
    [reg_dur = min (dur * odr / 1000000) 0x7F], [ths < fsr]) for every key
    of a setter and every request within the bounds of [request_ok] on the
    configuration that the key addresses. *)
Theorem config_keeps_both_consistent (K : slave_config_keys) (P : platform)
    (pd : lsm303dlx_a_private_data) (s : power_state) (f : setter)
    (a : bool) (v : Z) (h : history) :
  NoDup (config_keys K) ->
  (forall s', wf_config (config_of s' pd) /\
              config_consistent (config_of s' pd)) ->
  request_ok P f (config_of s pd) v ->
  exists r pd' h',
    lsm303dlx_a_config_entry K P pd
      (mk_slave_config (key_of K s f) a (Some v)) h
    = Done (r, pd') h' /\
    forall s', wf_config (config_of s' pd') /\
               config_consistent (config_of s' pd').
Proof.
  intros D I R.
  destruct (I s) as [W C].
  destruct (run_setter_preserves P f (config_of s pd) a v h W C R)
    as (r & c' & h' & E & W' & C').
  rewrite (config_entry_dispatch K P pd s f a v D).
  destruct s; unfold on_suspend, on_resume, bind, ret; cbn [config_of] in *;
    rewrite E; eexists r, _, h'; (split; [reflexivity |]);
    intros [|]; cbn [config_of suspend resume]; auto;
    [exact (I RESUME) | exact (I SUSPEND)].
Qed.

(** ** Module glue *)

Ltac probe_case :=
  cbn [negb fst snd In]; repeat split; intros;
  repeat match goal with
         | H : _ /\ _ |- _ => destruct H
         | H : _ \/ _ |- _ => destruct H
         | H : RegisterSlave _ _ = RegisterSlave _ _ |- _ =>
             injection H as ? ?; subst
         | H : False |- _ => contradiction
         end;
  try discriminate; try congruence; try tauto; try lia.

(** X15.  [lsm303dlx_a_mod_probe] returns 0 exactly when the adapter has the
    I2C functionality, the platform data is present, the allocation
    succeeds and the registration of the slave returns 0.  Otherwise it
    returns -ENODEV, -EFAULT, -ENOMEM or the value of the registration, for
    the first of these steps that fails, and it calls the registration only
    after the three steps before it succeeded. *)
Theorem probe_result (k : kernel) (client : Z)
    (clientdata : option lsm303dlx_a_mod_private_data) :
  ENODEV k <> 0 -> EFAULT k <> 0 -> ENOMEM k <> 0 ->
  let out := lsm303dlx_a_mod_probe k client clientdata in
  let result := fst (fst out) in
  let events := snd (fst out) in
  (result = 0 <->
   i2c_check_functionality k = true /\ platform_data k <> None /\
   kzalloc k <> None /\ inv_mpu_register_slave k = 0) /\
  (i2c_check_functionality k = false -> result = - ENODEV k) /\
  (i2c_check_functionality k = true -> platform_data k = None ->
   result = - EFAULT k) /\
  (i2c_check_functionality k = true -> platform_data k <> None ->
   kzalloc k = None -> result = - ENOMEM k) /\
  (i2c_check_functionality k = true -> platform_data k <> None ->
   kzalloc k <> None -> result = inv_mpu_register_slave k) /\
  (forall c p, In (RegisterSlave c p) events ->
               i2c_check_functionality k = true /\
               platform_data k = Some p /\ kzalloc k <> None /\ c = client).
Proof.
  intros N1 N2 N3. cbv zeta. unfold lsm303dlx_a_mod_probe.
  destruct (i2c_check_functionality k); [|probe_case].
  destruct (platform_data k) as [p0 |]; [|probe_case].
  destruct (kzalloc k) as [b |]; [|probe_case].
  destruct (Z.eqb_spec (inv_mpu_register_slave k) 0) as [E | E]; probe_case.
Qed.

Lemma free_fresh_block (b : Z) (live : list Z) :
  ~ In b live -> remove Z.eq_dec b (b :: live) = live.
Proof.
  intros N. cbn [remove]. destruct (Z.eq_dec b b) as [_ | X];
    [| contradiction].
  apply notin_remove. exact N.
Qed.

(** X16.  A probe that fails keeps no memory: every block it allocated is
    freed again, so that the allocated blocks are those from before.  When
    it fails at the registration, the client data that it set before stays
    on the client and designates the block that was freed. *)
Theorem probe_failure_frees_block (k : kernel) (client : Z)
    (clientdata : option lsm303dlx_a_mod_private_data) (live : list Z) :
  (forall b, kzalloc k = Some b -> ~ In b live) ->
  let out := lsm303dlx_a_mod_probe k client clientdata in
  let result := fst (fst out) in
  let events := snd (fst out) in
  result <> 0 ->
  live_blocks live events = live /\
  (forall b, In (KZalloc b) events ->
             In (KFree b) events /\
             (exists pd, snd out = Some pd /\ block pd = b) /\
             ~ In b (live_blocks live events)) /\
  (~ (exists b, In (KZalloc b) events) -> snd out = clientdata).
Proof.
  intros Fresh. cbv zeta. unfold lsm303dlx_a_mod_probe.
  destruct (i2c_check_functionality k); cbn [negb].
  2:{ cbn [fst snd live_blocks In]. intros _.
      repeat split; try tauto. }
  destruct (platform_data k) as [p0 |].
  2:{ cbn [fst snd live_blocks In]. intros _.
      repeat split; try tauto. }
  destruct (kzalloc k) as [b |].
  2:{ cbn [fst snd live_blocks In]. intros _.
      repeat split; try tauto. }
  pose proof (Fresh b eq_refl) as N.
  destruct (Z.eqb_spec (inv_mpu_register_slave k) 0) as [E | E];
    cbn [negb fst snd]; intros R; [contradiction |].
  cbn [live_blocks]. rewrite (free_fresh_block b live N).
  split; [reflexivity |]. split.
  - intros b' I. cbn [In] in I.
    destruct I as [I | [I | [I | [I | []]]]]; try discriminate I.
    injection I as <-.
    split; [cbn [In]; tauto |].
    split; [eexists; split; reflexivity | exact N].
  - intros X. exfalso. apply X. exists b. cbn [In]. tauto.
Qed.

(** X17.  A probe that succeeds leaves exactly one more block allocated,
    the one that the client data designates, and has registered the slave
    with the platform data of the client.  [lsm303dlx_a_mod_remove] on that
    client data returns 0, unregisters the slave with the same platform
    data and frees that block: after probe and remove the allocated blocks
    are those from before. *)
Theorem probe_then_remove (k : kernel) (client : Z)
    (clientdata : option lsm303dlx_a_mod_private_data) (live : list Z) :
  ENODEV k <> 0 -> EFAULT k <> 0 -> ENOMEM k <> 0 ->
  (forall b, kzalloc k = Some b -> ~ In b live) ->
  let out := lsm303dlx_a_mod_probe k client clientdata in
  let events := snd (fst out) in
  fst (fst out) = 0 ->
  exists pd,
    snd out = Some pd /\
    kzalloc k = Some (block pd) /\ platform_data k = Some (pdata pd) /\
    live_blocks live events = block pd :: live /\
    In (RegisterSlave client (pdata pd)) events /\
    lsm303dlx_a_mod_remove client pd
    = (0, [UnregisterSlave client (pdata pd); KFree (block pd)]) /\
    live_blocks live (events ++ snd (lsm303dlx_a_mod_remove client pd)) = live.
Proof.
  intros N1 N2 N3 Fresh. cbv zeta. unfold lsm303dlx_a_mod_probe.
  destruct (i2c_check_functionality k); cbn [negb];
    [| cbn [fst]; intros R; lia].
  destruct (platform_data k) as [p0 |]; [| cbn [fst]; intros R; lia].
  destruct (kzalloc k) as [b |]; [| cbn [fst]; intros R; lia].
  pose proof (Fresh b eq_refl) as N.
  destruct (Z.eqb_spec (inv_mpu_register_slave k) 0) as [E | E];
    cbn [negb fst snd]; intros R; [| contradiction].
  eexists. split; [reflexivity |]. cbn [block pdata].
  split; [reflexivity |]. split; [reflexivity |].
  split; [reflexivity |]. split; [cbn [In]; tauto |].
  split; [reflexivity |].
  unfold lsm303dlx_a_mod_remove. cbn [snd app live_blocks block pdata].
  apply free_fresh_block. exact N.
Qed.

(** ** Frames and clamping, for every setter *)

(** X18.  With a supported range, [set_ths] stores a request of 32 bits
    that is not negative clamped to [fsr - 1], and a negative one as
    [fsr - 1]; the stored threshold is below the range, [reg_ths] is
    [ths * 128 / fsr] and fits the seven bits of INT1_THS, and no other
    field changes. *)
Theorem set_ths_clamps_request (P : platform) (c : lsm303dlx_a_config)
    (a : bool) (t : Z) (h : history) :
  In (fsr c) [2048; 4096; 8192] -> - 2 ^ 31 <= t < 2 ^ 31 ->
  exists r c' h',
    lsm303dlx_a_set_ths P c a t h = Done (r, c') h' /\
    ths c' = (if 0 <=? t then Z.min t (fsr c - 1) else fsr c - 1) /\
    0 <= ths c' < fsr c /\
    reg_ths c' = ths c' * 128 / fsr c /\
    0 <= reg_ths c' <= 127 /\
    odr c' = odr c /\ fsr c' = fsr c /\ dur c' = dur c /\
    reg_dur c' = reg_dur c /\ ctrl_reg1 c' = ctrl_reg1 c /\
    irq_type c' = irq_type c /\ mot_int1_cfg c' = mot_int1_cfg c.
Proof.
  intros Hf Ht.
  assert (Hf' : fsr c = 2048 \/ fsr c = 4096 \/ fsr c = 8192)
    by (simpl in Hf; intuition lia).
  destruct (set_ths_stores P c a t h Hf Ht) as (r & c' & h' & E & T & R).
  destruct (long_uint_div_some (model P)
              (long_mul (model P) (ths_clamped (model P) (fsr c) t) 128)
              (fsr c)) as [q Hq]; [lia |].
  destruct (set_ths_done P c a t h q Hq) as (r2 & h2 & E2 & _).
  rewrite E in E2. injection E2 as _ Ec _.
  exists r, c', h'. split; [exact E |]. split; [exact T |].
  change (2 ^ 31) with 2147483648 in Ht.
  assert (B : 0 <= ths c' < fsr c).
  { rewrite T. destruct (Z.leb_spec 0 t); lia. }
  split; [exact B |]. split; [exact R |].
  split.
  { rewrite R. split; [apply Z.div_pos; lia |].
    apply Z.lt_succ_r. apply Z.div_lt_upper_bound; lia. }
  rewrite Ec. fields. repeat split; reflexivity.
Qed.

Ltac frame_case :=
  repeat match goal with
         | |- _ /\ _ => split
         | |- _ -> _ => intro
         end;
  try reflexivity; try congruence;
  repeat match goal with
         | H : _ \/ _ |- _ => destruct H
         end;
  try discriminate; try congruence.

(** X19.  Each setter changes its own fields only.  No setter changes
    [mot_int1_cfg]; only [set_odr] changes [odr] and [ctrl_reg1], only
    [set_fsr] changes [fsr], only [set_irq] changes [irq_type]; [set_ths],
    [set_fsr] and [set_irq] leave [dur] and [reg_dur], and [set_odr],
    [set_dur] and [set_irq] leave [ths] and [reg_ths]. *)
Theorem setters_change_own_fields (P : platform) (s : setter)
    (c c' : lsm303dlx_a_config) (a : bool) (v r : Z) (h h' : history) :
  run_setter P s c a v h = Done (r, c') h' ->
  mot_int1_cfg c' = mot_int1_cfg c /\
  (s <> SET_ODR -> odr c' = odr c /\ ctrl_reg1 c' = ctrl_reg1 c) /\
  (s <> SET_FSR -> fsr c' = fsr c) /\
  (s <> SET_IRQ -> irq_type c' = irq_type c) /\
  (s = SET_THS \/ s = SET_FSR \/ s = SET_IRQ ->
   dur c' = dur c /\ reg_dur c' = reg_dur c) /\
  (s = SET_ODR \/ s = SET_DUR \/ s = SET_IRQ ->
   ths c' = ths c /\ reg_ths c' = reg_ths c).
Proof.
  intros E. destruct s; cbn [run_setter] in E.
  - destruct (set_odr_done P c a v h) as (r2 & h2 & E2 & _).
    rewrite E in E2. injection E2 as _ -> _. fields.
    frame_case.
  - destruct (set_fsr_done P c a v h) as (q & r2 & h2 & _ & E2 & _).
    cbv zeta in E2. rewrite E in E2. injection E2 as _ -> _. fields.
    frame_case.
  - destruct (Z.eq_dec (fsr c) 0) as [Z0 | N].
    { apply (set_ths_fault P c a v h) in Z0. rewrite E in Z0. discriminate Z0. }
    destruct (long_uint_div_some (model P)
                (long_mul (model P) (ths_clamped (model P) (fsr c) v) 128)
                (fsr c) N) as [q Hq].
    destruct (set_ths_done P c a v h q Hq) as (r2 & h2 & E2 & _).
    rewrite E in E2. injection E2 as _ -> _. fields.
    frame_case.
  - destruct (set_dur_done P c a v h) as (r2 & h2 & E2 & _).
    rewrite E in E2. injection E2 as _ -> _. fields.
    frame_case.
  - destruct (set_irq_done P c a v h) as (r2 & h2 & E2 & _).
    rewrite E in E2. injection E2 as _ -> _. fields.
    frame_case.
Qed.

(** ** Suspend and resume, side by side *)

Lemma suspend_history (P : platform) (pd : lsm303dlx_a_private_data)
    (h : history) :
  final_history (lsm303dlx_a_suspend P pd h)
  = Some (h ++ suspend_writes P pd
            ++ [EvRead (address P) LSM303DLx_HP_FILTER_RESET 1]).
Proof.
  unfold lsm303dlx_a_suspend, suspend_writes.
  change (if fsr (suspend pd) =? 8192 then Z.lor 0x40 0x30
          else if fsr (suspend pd) =? 4096 then Z.lor 0x40 0x10 else 0x40)
    with (full_scale_byte (suspend pd)).
  change (if irq_type (suspend pd) =? MPU_SLAVE_IRQ_TYPE_DATA_READY P
          then (0x02, 0x00)
          else if irq_type (suspend pd) =? MPU_SLAVE_IRQ_TYPE_MOTION P
               then (0x00, mot_int1_cfg (suspend pd)) else (0x00, 0x00))
    with (interrupt_bytes P (suspend pd)).
  destruct (interrupt_bytes P (suspend pd)) as [reg1 reg2].
  cbn [fst snd].
  unfold bind, single_write, serial_read, ret.
  flatten_history.
  destruct (inv_serial_read P _ _ _ _ _) as [result buffer].
  reflexivity.
Qed.

(** X20.  For one and the same configuration, a resume that returns 0 and
    a suspend issue the same eight transport operations (seven register
    writes with the same bytes and the read of HP_FILTER_RESET), but not in
    the same order: resume writes CTRL_REG4 before CTRL_REG2 and CTRL_REG3
    before INT1_THS, suspend the other way round; resume alone sleeps. *)
Theorem transitions_issue_same_operations (P : platform)
    (c : lsm303dlx_a_config) (h h' : history) :
  let pd := mk_private_data c c in
  let S := suspend_writes P pd
           ++ [EvRead (address P) LSM303DLx_HP_FILTER_RESET 1] in
  let R := resume_events P pd in
  lsm303dlx_a_resume P pd h = Done 0 h' ->
  final_history (lsm303dlx_a_suspend P pd h) = Some (h ++ S) /\
  h' = h ++ R /\
  Permutation S (filter is_transport R) /\
  S <> filter is_transport R /\
  In (EvSleep 6) R /\ ~ In (EvSleep 6) S.
Proof.
  cbv zeta. intros E.
  destruct (resume_trace P (mk_private_data c c) h)
    as (r & done & rest & E2 & S & Z & _).
  rewrite E in E2. injection E2 as Er Eh. subst r h'.
  rewrite (Z eq_refl), app_nil_r in S. subst done.
  split; [apply suspend_history |].
  split; [reflexivity |].
  unfold suspend_writes, resume_events.
  cbn [suspend resume app filter is_transport In].
  split.
  { apply perm_skip.
    eapply perm_trans; [apply perm_swap |]. do 2 apply perm_skip.
    eapply perm_trans; [apply perm_skip; apply perm_swap |].
    apply perm_swap. }
  split; [intros X; discriminate X |].
  split; [tauto |].
  intros X. repeat (destruct X as [X | X]; try discriminate X). exact X.
Qed.

(** ** Closed instances of the further properties *)

Lemma sample_keys_distinct : NoDup (config_keys sample_keys).
Proof.
  unfold config_keys, sample_keys; cbn.
  repeat (constructor; [cbn [In]; intuition discriminate |]).
  constructor.
Defined.

(** Instance of X1: a threshold request on the default resume
    configuration, whose range is not 0. *)
Lemma setters_fail_only_on_zero_range_witness :
  exists c',
    run_setter (quiet_platform ILP32) SET_THS resume_defaults false 100 []
    = Done (INV_SUCCESS, c') [].
Proof.
  apply (proj2 (setters_fail_only_on_zero_range (quiet_platform ILP32)
                  SET_THS resume_defaults false 100 [])).
  intros [_ X]. discriminate X.
Defined.

(** Instance of X3: the interrupt type MOTION, applied. *)
Lemma applied_writes_match_transitions_witness :
  exists r c' evs,
    run_setter (quiet_platform ILP32) SET_IRQ resume_defaults true 1 []
    = Done (r, c') ([] ++ evs) /\
    evs <> [] /\
    forall e, In e evs ->
      In e (resume_events (quiet_platform ILP32)
              (mk_private_data suspend_defaults c')) /\
      In e (suspend_writes (quiet_platform ILP32)
              (mk_private_data c' suspend_defaults)).
Proof.
  apply (applied_writes_match_transitions (quiet_platform ILP32) SET_IRQ
           resume_defaults suspend_defaults 1 []).
  - discriminate.
  - discriminate.
  - intros _. lia.
Defined.

(** Instance of X4: the request 258 where DATA_READY is 2. *)
Lemma set_irq_wide_request_witness :
  exists r c',
    lsm303dlx_a_set_irq (quiet_platform ILP32) resume_defaults true 258 []
    = Done (r, c')
           ([] ++ [EvWrite 0x19 LSM303DLx_CTRL_REG3 0;
                   EvWrite 0x19 LSM303DLx_INT1_CFG 0]) /\
    irq_type c' = 2 /\
    interrupt_bytes (quiet_platform ILP32) c' = (0x02, 0x00).
Proof.
  apply (set_irq_wide_request (quiet_platform ILP32) resume_defaults 258 []).
  - cbn. lia.
  - reflexivity.
  - cbn. discriminate.
  - cbn. discriminate.
Defined.

Lemma consistent_wide_threshold_config :
  wf_config wide_threshold_config /\ config_consistent wide_threshold_config.
Proof.
  unfold wf_config, config_consistent, wide_threshold_config; fields.
  change (2 ^ 32) with 4294967296.
  repeat split; try lia; try reflexivity. simpl; tauto.
Qed.

(** Instance of X5: the range drops to 2048 mg below a threshold of
    3000 mg. *)
Lemma set_fsr_clamps_threshold_witness :
  exists r c' h',
    lsm303dlx_a_set_fsr (quiet_platform ILP32) wide_threshold_config false
      2048 []
    = Done (r, c') h' /\
    fsr c' = 2048 /\ ths c' = 2047 /\ reg_ths c' = 127.
Proof.
  assert (W : 0 <= ths wide_threshold_config < 2 ^ 32).
  { cbn [ths wide_threshold_config]. change (2 ^ 32) with 4294967296. lia. }
  destruct (set_fsr_clamps_threshold (quiet_platform ILP32)
              wide_threshold_config false 2048 [] W)
    as (r & c' & h' & E & F & T & R & _).
  exists r, c', h'. split; [exact E |]. split; [exact F |].
  split; [exact T |]. rewrite R, T, F. reflexivity.
Defined.

(** Instance of X6: the range 4096 mg twice. *)
Lemma set_fsr_idempotent_witness :
  exists r1 c' h1' r2 h2',
    lsm303dlx_a_set_fsr (quiet_platform ILP32) wide_threshold_config true
      4096 []
    = Done (r1, c') h1' /\
    lsm303dlx_a_set_fsr (quiet_platform ILP32) c' false 4096 []
    = Done (r2, c') h2'.
Proof.
  apply (set_fsr_idempotent (quiet_platform ILP32) wide_threshold_config
           true false 4096 [] []).
  cbn [ths wide_threshold_config]. change (2 ^ 32) with 4294967296. lia.
Defined.

(** Instance of X7: the rate 1000 mHz twice. *)
Lemma set_odr_idempotent_witness :
  exists r1 c' h1' r2 h2',
    lsm303dlx_a_set_odr (quiet_platform ILP32) resume_defaults true 1000 []
    = Done (r1, c') h1' /\
    lsm303dlx_a_set_odr (quiet_platform ILP32) c' false 1000 []
    = Done (r2, c') h2'.
Proof.
  apply (set_odr_idempotent (quiet_platform ILP32) resume_defaults
           true false 1000 [] []).
  cbn [dur resume_defaults]. change (2 ^ 32) with 4294967296. lia.
Defined.

(** Instance of X8: a duration of -1 under [ILP32]. *)
Lemma set_dur_register_bound_witness :
  exists r c' h',
    lsm303dlx_a_set_dur (quiet_platform ILP32) fast_config false (-1) []
    = Done (r, c') h' /\
    0 <= reg_dur c' <= LSM303DLx_MAX_DUR /\
    LSM303DLx_MAX_DUR = 0x7F.
Proof.
  apply (set_dur_register_bound (quiet_platform ILP32) fast_config false
           (-1) []).
  - cbn [odr fast_config]. change (2 ^ 32) with 4294967296. lia.
  - left. reflexivity.
Defined.

(** Instance of X10: a resume on a transport that succeeds. *)
Lemma resume_succeeds_iff_all_steps_witness :
  exists h',
    lsm303dlx_a_resume (quiet_platform ILP32)
      (mk_private_data suspend_defaults resume_defaults) []
    = Done 0 h' /\
    h' = [] ++ resume_events (quiet_platform ILP32)
                 (mk_private_data suspend_defaults resume_defaults).
Proof.
  eexists. split; [vm_compute; reflexivity |].
  apply (proj2 (resume_succeeds_iff_all_steps (quiet_platform ILP32)
                  (mk_private_data suspend_defaults resume_defaults) [])).
  reflexivity.
Defined.

(** Instance of X11: the key 99 is none of the sample keys. *)
Lemma config_refuses_bad_requests_witness :
  lsm303dlx_a_config_entry sample_keys (quiet_platform ILP32)
    (mk_private_data suspend_defaults resume_defaults)
    (mk_slave_config 99 true (Some 5)) []
  = Done (0x23, mk_private_data suspend_defaults resume_defaults) [] /\
  lsm303dlx_a_get_config sample_keys (quiet_platform ILP32)
    (mk_private_data suspend_defaults resume_defaults)
    (mk_slave_config 99 true (Some 5))
  = (0x23, Some 5).
Proof.
  apply (proj2 (config_refuses_bad_requests sample_keys
                  (quiet_platform ILP32)
                  (mk_private_data suspend_defaults resume_defaults)
                  (mk_slave_config 99 true (Some 5)) []) 5).
  - reflexivity.
  - cbn. intuition discriminate.
Defined.

(** Instance of X12: the key ODR_RESUME with the rate 1000 mHz. *)
Lemma config_dispatches_to_setter_witness :
  exists pd',
    lsm303dlx_a_config_entry sample_keys (quiet_platform ILP32)
      (mk_private_data suspend_defaults resume_defaults)
      (mk_slave_config 5 false (Some 1000)) []
    = Done (0, pd') [] /\
    config_of RESUME pd' = slow_config /\
    config_of SUSPEND pd' = suspend_defaults.
Proof.
  exact (config_dispatches_to_setter sample_keys (quiet_platform ILP32)
           (mk_private_data suspend_defaults resume_defaults)
           RESUME SET_ODR false 1000 [] sample_keys_distinct).
Defined.

(** Instance of X13: a duration of 300 ms for suspend reads back. *)
Lemma config_then_get_config_witness :
  exists r pd' h',
    lsm303dlx_a_config_entry sample_keys (quiet_platform ILP32)
      (mk_private_data suspend_defaults resume_defaults)
      (mk_slave_config 10 false (Some 300)) []
    = Done (r, pd') h' /\
    lsm303dlx_a_get_config sample_keys (quiet_platform ILP32) pd'
      (mk_slave_config 10 false (Some 0))
    = (INV_SUCCESS, Some 300).
Proof.
  apply (config_then_get_config sample_keys (quiet_platform ILP32)
           (mk_private_data suspend_defaults resume_defaults)
           SUSPEND SET_DUR false false 300 0 [] sample_keys_distinct).
  cbn [stored_as_is]. change (2 ^ 32) with 4294967296. lia.
Defined.

Lemma wf_suspend_defaults : wf_config suspend_defaults.
Proof.
  unfold wf_config, suspend_defaults; fields.
  change (2 ^ 32) with 4294967296. lia.
Defined.

Lemma consistent_suspend_defaults : config_consistent suspend_defaults.
Proof.
  unfold config_consistent, suspend_defaults; fields.
  split; [simpl; tauto |]. split; [lia |]. split; reflexivity.
Defined.

(** Instance of X14: the key FSR_SUSPEND with the range 4096 mg. *)
Lemma config_keeps_both_consistent_witness :
  exists r pd' h',
    lsm303dlx_a_config_entry sample_keys (quiet_platform ILP32)
      (mk_private_data suspend_defaults resume_defaults)
      (mk_slave_config 6 true (Some 4096)) []
    = Done (r, pd') h' /\
    forall s', wf_config (config_of s' pd') /\
               config_consistent (config_of s' pd').
Proof.
  apply (config_keeps_both_consistent sample_keys (quiet_platform ILP32)
           (mk_private_data suspend_defaults resume_defaults)
           SUSPEND SET_FSR true 4096 [] sample_keys_distinct).
  - intros [|]; cbn [config_of suspend resume].
    + split; [exact wf_suspend_defaults | exact consistent_suspend_defaults].
    + split; [exact wf_resume_defaults | exact consistent_resume_defaults].
  - exact I.
Defined.

(** Instance of X15: the registration fails with -5. *)
Lemma probe_result_witness :
  fst (fst (lsm303dlx_a_mod_probe failing_kernel 1 None)) = -5.
Proof.
  refine (proj1 (proj2 (proj2 (proj2 (proj2
            (probe_result failing_kernel 1 None _ _ _))))) _ _ _);
    cbn; first [reflexivity | discriminate].
Defined.

(** Instance of X16: the registration fails with -5. *)
Lemma probe_failure_frees_block_witness :
  live_blocks [3] (snd (fst (lsm303dlx_a_mod_probe failing_kernel 1 None)))
  = [3].
Proof.
  refine (proj1 (probe_failure_frees_block failing_kernel 1 None [3] _ _)).
  - intros b E. injection E as <-. cbn [In]. intuition discriminate.
  - cbn. discriminate.
Defined.

(** Instance of X17: every step of probe succeeds. *)
Lemma probe_then_remove_witness :
  exists pd,
    snd (lsm303dlx_a_mod_probe good_kernel 1 None) = Some pd /\
    live_blocks [3]
      (snd (fst (lsm303dlx_a_mod_probe good_kernel 1 None))
         ++ snd (lsm303dlx_a_mod_remove 1 pd))
    = [3].
Proof.
  destruct (probe_then_remove good_kernel 1 None [3])
    as (pd & E & _ & _ & _ & _ & _ & L).
  - cbn. discriminate.
  - cbn. discriminate.
  - cbn. discriminate.
  - intros b E. injection E as <-. cbn [In]. intuition discriminate.
  - reflexivity.
  - exists pd. split; [exact E | exact L].
Defined.

(** Instance of X18: a threshold request of -1 with a range of 4096 mg. *)
Lemma set_ths_clamps_request_witness :
  exists r c' h',
    lsm303dlx_a_set_ths (quiet_platform ILP32) fast_config false (-1) []
    = Done (r, c') h' /\
    ths c' = 4095 /\ reg_ths c' = 127.
Proof.
  destruct (set_ths_clamps_request (quiet_platform ILP32) fast_config false
              (-1) [])
    as (r & c' & h' & E & T & _ & R & _).
  - cbn. tauto.
  - change (2 ^ 31) with 2147483648. lia.
  - exists r, c', h'. split; [exact E |]. split; [exact T |].
    rewrite R, T. reflexivity.
Defined.

(** Instance of X19: a duration request leaves the threshold fields. *)
Lemma setters_change_own_fields_witness :
  let c' := mk_config 400000 2048 40 100 2 40 0x37 0 0x95 in
  run_setter (quiet_platform ILP32) SET_DUR resume_defaults false 100 []
  = Done (0, c') [] /\
  ths c' = ths resume_defaults /\ reg_ths c' = reg_ths resume_defaults /\
  mot_int1_cfg c' = mot_int1_cfg resume_defaults.
Proof.
  cbv zeta.
  assert (E : run_setter (quiet_platform ILP32) SET_DUR resume_defaults false
                100 []
              = Done (0, mk_config 400000 2048 40 100 2 40 0x37 0 0x95) [])
    by reflexivity.
  split; [exact E |].
  destruct (setters_change_own_fields (quiet_platform ILP32) SET_DUR
              resume_defaults _ false 100 0 [] [] E)
    as (M & _ & _ & _ & _ & T).
  destruct T as [T1 T2]; [right; left; reflexivity |].
  split; [exact T1 |]. split; [exact T2 | exact M].
Defined.

(** Instance of X20: the default resume configuration on a transport that
    succeeds. *)
Lemma transitions_issue_same_operations_witness :
  Permutation
    (suspend_writes (quiet_platform ILP32)
       (mk_private_data resume_defaults resume_defaults)
     ++ [EvRead 0x19 LSM303DLx_HP_FILTER_RESET 1])
    (filter is_transport
       (resume_events (quiet_platform ILP32)
          (mk_private_data resume_defaults resume_defaults))).
Proof.
  refine (proj1 (proj2 (proj2
            (transitions_issue_same_operations (quiet_platform ILP32)
               resume_defaults [] _ _)))).
  vm_compute. reflexivity.
Defined.
